(** * Discovery service API client: paging, retry and back-off

    A shallow embedding of
    [enterprise_catalog/apps/api_client/discovery.py] and the properties of
    its three fetch operations, [get_metadata_by_query], [get_courses] and
    [get_programs].

    The Python objects that the code mutates in place (the [request_params]
    dict, the accumulated list, the caller's [query_params] dict) live in an
    explicit object store; the HTTP client is a scripted stream of outcomes;
    every request, sleep and failed body decode is appended to a trace. *)

From Stdlib Require Import ZArith String Ascii List Bool Lia.
From stdpp Require Import base list.
Import ListNotations.
Open Scope string_scope.
Open Scope list_scope.
Open Scope Z_scope.

(** ** JSON values and Python dicts *)

(** What [response.json()] can return. Numbers are integers here; floats
    are outside the model. *)
#[warnings="-register-all"]
Inductive json : Type :=
| JNull
| JBool (b : bool)
| JNum (n : Z)
| JStr (s : string)
| JList (l : list json)
| JDict (d : list (string * json)).

(** A Python dict with string keys, in insertion order. *)
Definition pydict : Type := list (string * json).

Fixpoint dict_get (d : pydict) (k : string) : option json :=
  match d with
  | [] => None
  | (k', v) :: d' => if String.eqb k' k then Some v else dict_get d' k
  end.

(** [d[k] = v]: an existing key keeps its position, a new key goes last. *)
Fixpoint dict_set (d : pydict) (k : string) (v : json) : pydict :=
  match d with
  | [] => [(k, v)]
  | (k', v') :: d' =>
      if String.eqb k' k then (k', v) :: d' else (k', v') :: dict_set d' k v
  end.

(** [d.update(new)] *)
Definition dict_update (d new : pydict) : pydict :=
  fold_left (fun acc kv => dict_set acc (fst kv) (snd kv)) new d.

(** Python truthiness, as tested by [while response.get('next')]. *)
Definition truthy (v : json) : bool :=
  match v with
  | JNull => false
  | JBool b => b
  | JNum n => negb (n =? 0)
  | JStr s => negb (String.eqb s "")
  | JList l => match l with [] => false | _ => true end
  | JDict d => match d with [] => false | _ => true end
  end.

(** The items [list.__iadd__] appends when given [v]: a list gives its
    elements, a string its characters, a dict its keys; [None], booleans
    and numbers are not iterable ([TypeError]). *)
Definition iterate (v : json) : option (list json) :=
  match v with
  | JList l => Some l
  | JStr s => Some (map (fun c => JStr (String c EmptyString)) (list_ascii_of_string s))
  | JDict d => Some (map (fun kv => JStr (fst kv)) d)
  | JNull | JBool _ | JNum _ => None
  end.

(** ** Exceptions *)

(** Subclasses of Python's [Exception]. [RequestException kind] stands for
    [requests.exceptions.RequestException] and its subclasses
    ([ChunkedEncodingError], [ConnectionError], [Timeout], ...);
    [JSONDecodeError] is simplejson's, a [ValueError] that is not a
    [RequestException]. What is not an [Exception] ([KeyboardInterrupt],
    [SystemExit]) is outside the model. *)
Inductive exn : Type :=
| RequestException (kind : string)
| JSONDecodeError
| SoftTimeLimitExceeded
| TypeError
| AttributeError
| ValueError
| OverflowError
| UnboundLocalError
| OtherException (name : string).

Definition is_RequestException (e : exn) : bool :=
  match e with RequestException _ => true | _ => false end.

(** ** The HTTP client *)

(** A response: its status code and what [.json()] does on its body. *)
Record Response : Type := mkResponse {
  status_code : Z;
  body : exn + json
}.

Inductive http_outcome : Type :=
| Responds (r : Response)
| Fails (e : exn).

(** [self]: the class attributes read from the settings and the OAuth
    client, whose [n]-th request of a call (from 0) has outcome
    [client n]. *)
Record DiscoveryApiClient : Type := mkClient {
  MAX_RETRIES : Z;
  BACKOFF_FACTOR : Z;
  HTTP_TIMEOUT : Z;
  client : nat -> http_outcome
}.

Record CatalogQuery : Type := mkCatalogQuery {
  content_filter : json
}.

(** Metadata for a given [CatalogQuery] from the Discovery API: the object
    that [CatalogQueryMetadata.__init__] builds. *)
Record CatalogQueryMetadata : Type := mkCatalogQueryMetadata {
  catalog_query : CatalogQuery;
  catalog_query_data : list json
}.

(** ** Object store, trace and the execution monad *)

Inductive pyobj : Type :=
| PyDict (d : pydict)
| PyList (l : list json).

(** Locations of the store are indices. *)
Abbreviation loc := nat (only parsing).

Inductive event : Type :=
| EvPost (endpoint : string) (json_body : json) (params : pydict) (timeout : Z)
| EvGet (endpoint : string) (params : pydict) (timeout : Z)
| EvSleep (seconds : Z)
| EvDecodeError (e : exn).

Record world : Type := mkWorld {
  heap : list pyobj;
  served : nat;
  trace : list event
}.

Inductive outcome (A : Type) : Type :=
| Return (a : A)
| Raise (e : exn).
Arguments Return {A} a.
Arguments Raise {A} e.

(** A computation either runs out of fuel ([None]) or ends, normally or by
    an exception, in a new world. State changes made before an exception
    persist, as in Python. *)
Definition M (A : Type) : Type := world -> option (outcome A * world).

Definition ret {A} (a : A) : M A := fun w => Some (Return a, w).

Definition raise {A} (e : exn) : M A := fun w => Some (Raise e, w).

Definition diverge {A} : M A := fun _ => None.

Definition bind {A B} (m : M A) (k : A -> M B) : M B := fun w =>
  match m w with
  | Some (Return a, w') => k a w'
  | Some (Raise e, w') => Some (Raise e, w')
  | None => None
  end.

(** [try: m  except Exception as exc: handler exc] *)
Definition try_except {A} (m : M A) (handler : exn -> M A) : M A := fun w =>
  match m w with
  | Some (Return a, w') => Some (Return a, w')
  | Some (Raise e, w') => handler e w'
  | None => None
  end.

Declare Scope py_scope.
Delimit Scope py_scope with py.
Notation "x <- m ;; k" := (bind m (fun x => k))
  (at level 100, m at next level, right associativity) : py_scope.
Notation "m ;; k" := (bind m (fun _ => k))
  (at level 100, right associativity) : py_scope.
Open Scope py_scope.

(** A dict literal or [[]]: a fresh object at the end of the store. *)
Definition new_obj (o : pyobj) : M loc := fun w =>
  Some (Return (length (heap w)),
        mkWorld (heap w ++ [o]) (served w) (trace w)).

Definition read_dict (r : loc) : M pydict := fun w =>
  match heap w !! r with
  | Some (PyDict d) => Some (Return d, w)
  | _ => Some (Raise TypeError, w)
  end.

Definition read_list (c : loc) : M (list json) := fun w =>
  match heap w !! c with
  | Some (PyList l) => Some (Return l, w)
  | _ => Some (Raise TypeError, w)
  end.

(** [r.update(new)], in place. *)
Definition update (r : loc) (new : pydict) : M unit := fun w =>
  match heap w !! r with
  | Some (PyDict d) =>
      Some (Return tt,
            mkWorld (<[r := PyDict (dict_update d new)]> (heap w)) (served w) (trace w))
  | _ => Some (Raise AttributeError, w)
  end.

(** [c += v], in place. *)
Definition iadd (c : loc) (v : json) : M unit := fun w =>
  match heap w !! c with
  | Some (PyList l) =>
      match iterate v with
      | Some items =>
          Some (Return tt,
                mkWorld (<[c := PyList (l ++ items)]> (heap w)) (served w) (trace w))
      | None => Some (Raise TypeError, w)
      end
  | _ => Some (Raise TypeError, w)
  end.

(** [response.get(key, default)] on a parsed body; a body that is not a
    dict has no [get]. *)
Definition py_get (response : json) (key : string) (default : json) : M json :=
  match response with
  | JDict d => ret (match dict_get d key with Some v => v | None => default end)
  | _ => raise AttributeError
  end.

(** One request: logged in the trace with the parameters as they are at the
    time of the call, answered by the next scripted outcome. *)
Definition request (self : DiscoveryApiClient) (ev : event) : M Response := fun w =>
  let w' := mkWorld (heap w) (S (served w)) (trace w ++ [ev]) in
  match client self (served w) with
  | Responds r => Some (Return r, w')
  | Fails e => Some (Raise e, w')
  end.

Definition client_post (self : DiscoveryApiClient) (endpoint : string) (json_body : json)
    (params : loc) (timeout : Z) : M Response :=
  p <- read_dict params ;;
  request self (EvPost endpoint json_body p timeout).

Definition client_get (self : DiscoveryApiClient) (endpoint : string)
    (params : loc) (timeout : Z) : M Response :=
  p <- read_dict params ;;
  request self (EvGet endpoint p timeout).

(** [response.json()] *)
Definition response_json (r : Response) : M json := fun w =>
  match body r with
  | inr j => Some (Return j, w)
  | inl e => Some (Raise e, mkWorld (heap w) (served w) (trace w ++ [EvDecodeError e]))
  end.

(** [time.sleep] first converts its length to a 64-bit count of
    nanoseconds: a whole number of seconds beyond [SLEEP_MAX] in magnitude
    does not fit. *)
Definition SLEEP_MAX : Z := 9223372036.

(** What [time.sleep(seconds)] raises, if anything: an [OverflowError]
    when the length does not convert, whatever its sign; then a
    [ValueError] when it is negative. *)
Definition sleep_error (seconds : Z) : option exn :=
  if (seconds <? - SLEEP_MAX) || (SLEEP_MAX <? seconds) then Some OverflowError
  else if seconds <? 0 then Some ValueError
  else None.

(** [time.sleep(seconds)] for an integer length. A length that converts
    and is not negative is slept. (Where the deadline, the clock of the
    platform plus the length, leaves the range of that clock, the platform
    may refuse the sleep; this depends on the clock, is outside the model,
    and the properties of sleeps below keep to lengths up to
    [SLEEP_SAFE].) *)
Definition time_sleep (seconds : Z) : M unit := fun w =>
  match sleep_error seconds with
  | Some e => Some (Raise e, w)
  | None => Some (Return tt, mkWorld (heap w) (served w) (trace w ++ [EvSleep seconds]))
  end.

(** Lengths up to [SLEEP_SAFE] seconds (136 years) are slept on every
    platform: added to a monotonic clock they stay in its range. *)
Definition SLEEP_SAFE : Z := 2 ^ 32.

(** ** The client code *)

Section Discovery.

(** The constants of [api_client/constants.py]. *)
Variable DISCOVERY_COURSES_ENDPOINT : string.
Variable DISCOVERY_PROGRAMS_ENDPOINT : string.
Variable DISCOVERY_SEARCH_ALL_ENDPOINT : string.
Variable DISCOVERY_OFFSET_SIZE : Z.

(** Calculate the seconds to sleep based on [attempt_count]. The code only
    calls it with [attempt_count >= 1], where the power is an integer. *)
Definition _calculate_backoff (self : DiscoveryApiClient) (attempt_count : Z) : Z :=
  BACKOFF_FACTOR self * 2 ^ (attempt_count - 1).

(** The [while True] loop of [_retrieve_metadata_for_content_filter]; the
    loop state is [attempts] and [response] (unbound before the first
    successful [post]). It ends with the value of [response] at [break]. *)
Fixpoint retry_loop (fuel : nat) (self : DiscoveryApiClient) (content_filter : json)
    (request_params : loc) (attempts : Z) (response : option Response)
    : M (option Response) :=
  match fuel with
  | O => diverge
  | S fuel' =>
      let attempts := attempts + 1 in
      attempt <-
        try_except
          (r <- client_post self DISCOVERY_SEARCH_ALL_ENDPOINT content_filter
                  request_params (HTTP_TIMEOUT self) ;;
           ret (Some r, status_code r <? 400, None))
          (fun err =>
             if is_RequestException err then ret (response, false, Some err)
             else raise err) ;;
      let '(response, successful, exception) := attempt in
      if (attempts <=? MAX_RETRIES self) && negb successful then
        time_sleep (_calculate_backoff self attempts) ;;
        retry_loop fuel' self content_filter request_params attempts response
      else
        match exception with
        | Some e => raise e
        | None => ret response
        end
  end.

(** Makes a request to discovery's /search/all/ endpoint. The loop is
    entered with as many iterations as it can ever take, see
    [retry_loop_fuel]. *)
Definition _retrieve_metadata_for_content_filter (self : DiscoveryApiClient)
    (content_filter : json) (page : Z) (request_params : loc) : M json :=
  response <- retry_loop (S (Z.to_nat (MAX_RETRIES self))) self content_filter
                request_params 0 None ;;
  match response with
  | Some r => response_json r
  | None => raise UnboundLocalError
  end.

(** [while response.get('next'): ...] of [get_metadata_by_query]; [fuel]
    bounds the number of times the loop condition is evaluated. *)
Fixpoint search_pages (fuel : nat) (self : DiscoveryApiClient) (content_filter : json)
    (request_params results : loc) (page : Z) (response : json) : M unit :=
  match fuel with
  | O => diverge
  | S fuel' =>
      next <- py_get response "next" JNull ;;
      if truthy next then
        let page := page + 1 in
        update request_params [("page", JNum page)] ;;
        response <- _retrieve_metadata_for_content_filter self content_filter page
                      request_params ;;
        items <- py_get response "results" (JList []) ;;
        iadd results items ;;
        search_pages fuel' self content_filter request_params results page response
      else ret tt
  end.

(** Return results from the discovery service's search/all endpoint. *)
Definition get_metadata_by_query (fuel : nat) (self : DiscoveryApiClient)
    (catalog_query : CatalogQuery) : M (list json) :=
  request_params <- new_obj (PyDict
    [("exclude_expired_course_run", JBool true);
     ("page_size", JNum 100);
     ("ordering", JStr "aggregation_key,start");
     ("include_learner_pathways", JBool true)]) ;;
  let page := 1 in
  results <- new_obj (PyList []) ;;
  try_except
    (let content_filter := content_filter catalog_query in
     response <- _retrieve_metadata_for_content_filter self content_filter page
                   request_params ;;
     items <- py_get response "results" (JList []) ;;
     iadd results items ;;
     search_pages fuel self content_filter request_params results page response)
    (fun exc => raise exc) ;;
  read_list results.

(** [query_params or {}]: the contents that [update] then copies. *)
Definition query_params_or_empty (query_params : option loc) : M pydict :=
  match query_params with
  | None => ret []
  | Some q => read_dict q
  end.

(** Makes a request to discovery's /api/v1/courses/ endpoint. *)
Definition _retrieve_courses (self : DiscoveryApiClient) (offset : Z)
    (request_params : loc) : M json :=
  r <- client_get self DISCOVERY_COURSES_ENDPOINT request_params (HTTP_TIMEOUT self) ;;
  response_json r.

Fixpoint courses_pages (fuel : nat) (self : DiscoveryApiClient)
    (request_params courses : loc) (offset : Z) (response : json) : M unit :=
  match fuel with
  | O => diverge
  | S fuel' =>
      next <- py_get response "next" JNull ;;
      if truthy next then
        let offset := offset + DISCOVERY_OFFSET_SIZE in
        update request_params [("offset", JNum offset)] ;;
        response <- _retrieve_courses self offset request_params ;;
        items <- py_get response "results" (JList []) ;;
        iadd courses items ;;
        courses_pages fuel' self request_params courses offset response
      else ret tt
  end.

(** Return results from the discovery service's /courses endpoint. Both
    handlers only log. *)
Definition get_courses (fuel : nat) (self : DiscoveryApiClient)
    (query_params : option loc) : M (list json) :=
  request_params <- new_obj (PyDict
    [("ordering", JStr "key");
     ("limit", JNum DISCOVERY_OFFSET_SIZE)]) ;;
  extra <- query_params_or_empty query_params ;;
  update request_params extra ;;
  courses <- new_obj (PyList []) ;;
  let offset := 0 in
  try_except
    (response <- _retrieve_courses self offset request_params ;;
     items <- py_get response "results" JNull ;;
     iadd courses items ;;
     courses_pages fuel self request_params courses offset response)
    (fun exc =>
       match exc with
       | SoftTimeLimitExceeded => ret tt
       | _ => ret tt
       end) ;;
  read_list courses.

(** Makes a request to discovery's /api/v1/programs/ endpoint. *)
Definition _retrieve_programs (self : DiscoveryApiClient) (offset : Z)
    (request_params : loc) : M json :=
  r <- client_get self DISCOVERY_PROGRAMS_ENDPOINT request_params (HTTP_TIMEOUT self) ;;
  response_json r.

Fixpoint programs_pages (fuel : nat) (self : DiscoveryApiClient)
    (request_params programs : loc) (offset : Z) (response : json) : M unit :=
  match fuel with
  | O => diverge
  | S fuel' =>
      next <- py_get response "next" JNull ;;
      if truthy next then
        let offset := offset + DISCOVERY_OFFSET_SIZE in
        update request_params [("offset", JNum offset)] ;;
        response <- _retrieve_programs self offset request_params ;;
        items <- py_get response "results" (JList []) ;;
        iadd programs items ;;
        programs_pages fuel' self request_params programs offset response
      else ret tt
  end.

(** Return results from the discovery service's /programs endpoint. *)
Definition get_programs (fuel : nat) (self : DiscoveryApiClient)
    (query_params : option loc) : M (list json) :=
  request_params <- new_obj (PyDict
    [("ordering", JStr "key");
     ("limit", JNum DISCOVERY_OFFSET_SIZE);
     ("extended", JStr "True")]) ;;
  extra <- query_params_or_empty query_params ;;
  update request_params extra ;;
  programs <- new_obj (PyList []) ;;
  let offset := 0 in
  try_except
    (response <- _retrieve_programs self offset request_params ;;
     items <- py_get response "results" JNull ;;
     iadd programs items ;;
     programs_pages fuel self request_params programs offset response)
    (fun exc =>
       match exc with
       | SoftTimeLimitExceeded => ret tt
       | _ => ret tt
       end) ;;
  read_list programs.

(** Retrieve the metadata of [catalog_query] by a call to a Discovery API
    client. [new_client] is what [DiscoveryApiClient()] builds (the
    constructor is [BaseOAuthClient]'s). *)
Definition _get_catalog_query_metadata (fuel : nat) (new_client : DiscoveryApiClient)
    (catalog_query : CatalogQuery) : M (list json) :=
  let client := new_client in
  catalog_query_data <- get_metadata_by_query fuel client catalog_query ;;
  ret catalog_query_data.

(** Initialize a [CatalogQueryMetadata] and load its data from the
    Discovery API client. *)
Definition __init__ (fuel : nat) (new_client : DiscoveryApiClient)
    (catalog_query : CatalogQuery) : M CatalogQueryMetadata :=
  catalog_query_data <- _get_catalog_query_metadata fuel new_client catalog_query ;;
  ret (mkCatalogQueryMetadata catalog_query catalog_query_data).

(** The [metadata] property. *)
Definition metadata (self : CatalogQueryMetadata) : list json :=
  catalog_query_data self.

End Discovery.

(** ** The vocabulary of the properties *)

(** *** Traces *)

(** A request attempt that the retry loop counts as failed. *)
Definition attempt_fails (o : http_outcome) : bool :=
  match o with
  | Fails e => is_RequestException e
  | Responds r => 400 <=? status_code r
  end.

(** The sleeps and the number of POST requests of a trace. *)
Fixpoint sleeps (t : list event) : list Z :=
  match t with
  | [] => []
  | EvSleep s :: t' => s :: sleeps t'
  | _ :: t' => sleeps t'
  end.

Fixpoint post_count (t : list event) : Z :=
  match t with
  | [] => 0
  | EvPost _ _ _ _ :: t' => 1 + post_count t'
  | _ :: t' => post_count t'
  end.

(** The POST request of the search with the parameters [p]. *)
Definition post_event (ENDPOINT : string) (self : DiscoveryApiClient) (cf : json)
    (p : pydict) : event :=
  EvPost ENDPOINT cf p (HTTP_TIMEOUT self).

(** The GET request of a list endpoint with the parameters [p]. *)
Definition get_event (ENDPOINT : string) (self : DiscoveryApiClient) (p : pydict) : event :=
  EvGet ENDPOINT p (HTTP_TIMEOUT self).

(** What the retry loop leaves behind when attempts [a + 1], ...,
    [a + 1 + m] are made and each but the last is followed by its sleep. *)
Fixpoint retry_events (ENDPOINT : string) (self : DiscoveryApiClient) (cf : json)
    (p : pydict) (a : Z) (m : nat) : list event :=
  match m with
  | O => [post_event ENDPOINT self cf p]
  | S m' =>
      post_event ENDPOINT self cf p :: EvSleep (_calculate_backoff self (a + 1))
        :: retry_events ENDPOINT self cf p (a + 1) m'
  end.

(** The parameter [key] of the [i]-th event of the run, a request. *)
Definition sent_param {A} (run : option (outcome A * world)) (i : nat) (key : string)
    : option json :=
  match run with
  | Some (_, w') =>
      match trace w' !! i with
      | Some (EvGet _ p _) => dict_get p key
      | Some (EvPost _ _ p _) => dict_get p key
      | _ => None
      end
  | None => None
  end.

(** What the caller of a run gets, and the number of requests it made. *)
Definition result {A} (run : option (outcome A * world)) : option (outcome A) :=
  option_map fst run.

Definition requests_made {A} (run : option (outcome A * world)) : option nat :=
  option_map (fun r => served (snd r)) run.

(** *** Back-offs that can be slept *)

(** The back-off factor is not negative and the back-off of attempt [m],
    with it those of the attempts before, is a length that [time.sleep]
    takes. *)
Definition backoffs_sleep (self : DiscoveryApiClient) (m : Z) : Prop :=
  0 <= BACKOFF_FACTOR self /\ _calculate_backoff self m <= SLEEP_SAFE.

(** *** Pages served *)

(** Whether [response.get('next')] is truthy on the body [d]. *)
Definition has_next (d : pydict) : bool :=
  match dict_get d "next" with
  | Some v => truthy v
  | None => false
  end.

(** A page announces a next page exactly when one follows it in the
    script. *)
Fixpoint next_chain (d : pydict) (ds : list pydict) : Prop :=
  match ds with
  | [] => has_next d = false
  | d' :: ds' => has_next d = true /\ next_chain d' ds'
  end.

(** The server answers request [n] with status below 400 and body [d]. *)
Definition serves_page (self : DiscoveryApiClient) (n : nat) (d : pydict) : Prop :=
  exists r, client self n = Responds r /\ status_code r < 400 /\ body r = inr (JDict d).

(** The server answers the requests from [n] on with the pages [ds]. *)
Fixpoint serves_pages (self : DiscoveryApiClient) (n : nat) (ds : list pydict) : Prop :=
  match ds with
  | [] => True
  | d :: ds' => serves_page self n d /\ serves_pages self (S n) ds'
  end.

(** The server answers request [n] with a body that parses to [d]. *)
Definition serves_body (self : DiscoveryApiClient) (n : nat) (d : pydict) : Prop :=
  exists r, client self n = Responds r /\ body r = inr (JDict d).

Fixpoint serves_bodies (self : DiscoveryApiClient) (n : nat) (ds : list pydict) : Prop :=
  match ds with
  | [] => True
  | d :: ds' => serves_body self n d /\ serves_bodies self (S n) ds'
  end.


(** What [+= response.get('results', default)] appends for the body [d]. *)
Definition page_items_or (default : json) (d : pydict) : option (list json) :=
  iterate (match dict_get d "results" with Some v => v | None => default end).

(** What [+= response.get('results', [])] appends for the body [d]. *)
Definition page_items (d : pydict) : option (list json) := page_items_or (JList []) d.

(** The items of the list traversal over the bodies [ds]: the first page
    is read without a default, the later ones with [[]]. *)
Fixpoint pages_items (default : json) (ds : list pydict) : option (list json) :=
  match ds with
  | [] => Some []
  | d :: ds' =>
      match page_items_or default d, pages_items (JList []) ds' with
      | Some a, Some b => Some (a ++ b)
      | _, _ => None
      end
  end.

(** *** Request parameters *)

(** The request parameters [get_metadata_by_query] starts from. *)
Definition search_params : pydict :=
  [("exclude_expired_course_run", JBool true);
   ("page_size", JNum 100);
   ("ordering", JStr "aggregation_key,start");
   ("include_learner_pathways", JBool true)].

(** The request parameters of the search for page [page]: the first
    request has no ['page'], the later ones carry their page number. *)
Definition search_params_at (page : Z) : pydict :=
  if page =? 1 then search_params else dict_set search_params "page" (JNum page).

Definition is_search_params (p : pydict) : Prop :=
  exists page, 1 <= page /\ p = search_params_at page.

(** The request parameters [get_courses] and [get_programs] start from,
    before the caller's are added. *)
Definition courses_params (OFFSET_SIZE : Z) : pydict :=
  [("ordering", JStr "key"); ("limit", JNum OFFSET_SIZE)].

Definition programs_params (OFFSET_SIZE : Z) : pydict :=
  [("ordering", JStr "key"); ("limit", JNum OFFSET_SIZE); ("extended", JStr "True")].

(** The request parameters of the [i]-th request of a list traversal
    that started at [offset] with the parameters [rp]. *)
Definition list_params_at (OFFSET_SIZE : Z) (rp : pydict) (offset : Z) (i : nat) : pydict :=
  match i with
  | O => rp
  | S _ => dict_set rp "offset" (JNum (offset + Z.of_nat i * OFFSET_SIZE))
  end.

(** The contents of the caller's [query_params], when it is [None] or a
    dict of the store. *)
Definition caller_dict (h : list pyobj) (query_params : option loc) : option pydict :=
  match query_params with
  | None => Some []
  | Some q => match h !! q with Some (PyDict d) => Some d | _ => None end
  end.

(** *** Pages served after retries *)

(** The server fails the [f] attempts from request [n] on and then answers
    with status below 400 and body [d]. *)
Definition serves_after (self : DiscoveryApiClient) (n f : nat) (d : pydict) : Prop :=
  (forall i, (i < f)%nat -> attempt_fails (client self (n + i)) = true) /\
  serves_page self (n + f) d.

(** The server answers the requests from [n] on with the pages of
    [script], each after its number of failed attempts. *)
Fixpoint serves_script (self : DiscoveryApiClient) (n : nat) (script : list (nat * pydict))
    : Prop :=
  match script with
  | [] => True
  | (f, d) :: script' => serves_after self n f d /\ serves_script self (n + S f) script'
  end.

(** The requests that a script takes. *)
Fixpoint script_requests (script : list (nat * pydict)) : nat :=
  match script with
  | [] => O
  | (f, _) :: script' => (S f + script_requests script')%nat
  end.

(** The sum of a list of delays. *)
Definition total (l : list Z) : Z := fold_right Z.add 0 l.

(** The number of GET requests of a trace. *)
Fixpoint get_count (t : list event) : nat :=
  match t with
  | [] => O
  | EvGet _ _ _ :: t' => S (get_count t')
  | _ :: t' => get_count t'
  end.

(** What reading the page [response] raises, if anything: a body that is
    not an object has no [get], and a ['results'] that is not iterable
    cannot be added to a list. *)
Definition malformed (default : json) (response : json) : option exn :=
  match response with
  | JDict d =>
      match page_items_or default d with
      | Some _ => None
      | None => Some TypeError
      end
  | _ => Some AttributeError
  end.

(** The server answers request [n] with the parsed body [j], whatever the
    status. *)
Definition serves_json (self : DiscoveryApiClient) (n : nat) (j : json) : Prop :=
  exists r, client self n = Responds r /\ body r = inr j.

(** An event of the retry loop that has made [a] attempts, with the
    request parameters [rp]: its request, or the sleep after a failed
    attempt [k] that leaves a retry. *)
Definition retry_event (ENDPOINT : string) (self : DiscoveryApiClient) (cf : json)
    (rp : pydict) (a : Z) (ev : event) : Prop :=
  ev = post_event ENDPOINT self cf rp \/
  exists k, a < k <= MAX_RETRIES self /\ ev = EvSleep (_calculate_backoff self k).

(** An event of a search: a request to the endpoint with the content
    filter as body, the search parameters and the timeout of the client; a
    back-off sleep; a failed decode. *)
Definition search_event (ENDPOINT : string) (self : DiscoveryApiClient) (cf : json)
    (ev : event) : Prop :=
  match ev with
  | EvPost endpoint json_body p timeout =>
      endpoint = ENDPOINT /\ json_body = cf /\ timeout = HTTP_TIMEOUT self /\
      is_search_params p
  | EvGet _ _ _ => False
  | EvSleep s => exists k, 1 <= k <= MAX_RETRIES self /\ s = _calculate_backoff self k
  | EvDecodeError _ => True
  end.


(** What the caller of a page request of the search gets from the attempt
    it ends on, and what decoding its body leaves in the trace. *)
Definition attempt_outcome (o : http_outcome) : outcome json :=
  match o with
  | Responds r => match body r with inr j => Return j | inl e => Raise e end
  | Fails e => Raise e
  end.

Definition decode_events (o : http_outcome) : list event :=
  match o with
  | Responds r => match body r with inr _ => [] | inl e => [EvDecodeError e] end
  | Fails _ => []
  end.

(** The back-off delays after the failed attempts [a + 1], ..., [a + f]. *)
Definition backoffs (self : DiscoveryApiClient) (a : Z) (f : nat) : list Z :=
  map (fun i => _calculate_backoff self (a + 1 + Z.of_nat i)) (seq 0 f).

(** What a search leaves in the trace over a script of pages, the first
    of which is page [page]: every attempt for a page carries the
    parameters of that page. *)
Fixpoint script_events (ENDPOINT : string) (self : DiscoveryApiClient) (cf : json)
    (page : Z) (script : list (nat * pydict)) : list event :=
  match script with
  | [] => []
  | (f, _) :: script' =>
      retry_events ENDPOINT self cf (search_params_at page) 0 f ++
      script_events ENDPOINT self cf (page + 1) script'
  end.

(** The delays of a script: the back-off schedule starts again with
    every page. *)
Fixpoint script_sleeps (self : DiscoveryApiClient) (script : list (nat * pydict)) : list Z :=
  match script with
  | [] => []
  | (f, _) :: script' => backoffs self 0 f ++ script_sleeps self script'
  end.

(** ** Auxiliary definitions of the proofs *)

(** *** Running on a larger store

    The code only touches the objects it allocates itself, so a run on a
    store that has [h0] in front is the run without [h0], with every
    location shifted by [length h0]. *)

Definition rebase (h0 : list pyobj) (w : world) : world :=
  mkWorld (h0 ++ heap w) (served w) (trace w).

Definition lift {A} (h0 : list pyobj) (x : option (outcome A * world))
    : option (outcome A * world) :=
  match x with
  | Some (o, w) => Some (o, rebase h0 w)
  | None => None
  end.

Definition shift (h0 : list pyobj) (r : loc) : loc := (length h0 + r)%nat.

Definition framed {A} (h0 : list pyobj) (m m0 : M A) : Prop :=
  forall w, m (rebase h0 w) = lift h0 (m0 w).

(** *** The two objects of a call

    After its two allocations a call works on a store that ends with its
    [request_params] dict and its result list. *)

Definition frame (rp : pydict) (acc : list json) (n : nat) (t : list event) : world :=
  mkWorld [PyDict rp; PyList acc] n t.

(** *** The traversals, one page at a time *)

(** Fetch page [page], add its results and go on with the pages after it:
    the body of the [try] of [get_metadata_by_query] for page 1, and of
    its loop for the others. *)
Definition search_fetch (ENDPOINT : string) (self : DiscoveryApiClient) (cf : json)
    (fuel : nat) (rq c : loc) (page : Z) : M unit :=
  response <- _retrieve_metadata_for_content_filter ENDPOINT self cf page rq ;;
  items <- py_get response "results" (JList []) ;;
  iadd c items ;;
  search_pages ENDPOINT fuel self cf rq c page response.

(** [get_metadata_by_query] after its two allocations. *)
Definition search_call (ENDPOINT : string) (self : DiscoveryApiClient) (cf : json)
    (fuel : nat) (rq c : loc) : M (list json) :=
  try_except (search_fetch ENDPOINT self cf fuel rq c 1) (fun exc => raise exc) ;;
  read_list c.

(** The request parameters and the requests made once [k] pages, from
    [page] on, were fetched and each was left for the page after it. *)
Fixpoint search_walk (ENDPOINT : string) (self : DiscoveryApiClient) (cf : json)
    (rp : pydict) (page : Z) (k : nat) : pydict * list event :=
  match k with
  | O => (rp, [])
  | S k' =>
      let (rp', evs) :=
        search_walk ENDPOINT self cf (dict_update rp [("page", JNum (page + 1))])
          (page + 1) k' in
      (rp', post_event ENDPOINT self cf rp :: evs)
  end.

(** Fetch the page at [offset], add its results and go on with the pages
    after it: the body of the [try] of [get_courses] and [get_programs]
    for the first page (read without a default), and of their loop for
    the others. *)
Definition courses_fetch (ENDPOINT : string) (OFFSET_SIZE : Z) (self : DiscoveryApiClient)
    (default : json) (fuel : nat) (rq c : loc) (offset : Z) : M unit :=
  response <- _retrieve_courses ENDPOINT self offset rq ;;
  items <- py_get response "results" default ;;
  iadd c items ;;
  courses_pages ENDPOINT OFFSET_SIZE fuel self rq c offset response.

(** [get_courses], and [get_programs], after their two allocations. *)
Definition courses_call (ENDPOINT : string) (OFFSET_SIZE : Z) (self : DiscoveryApiClient)
    (fuel : nat) (rq c : loc) : M (list json) :=
  try_except (courses_fetch ENDPOINT OFFSET_SIZE self JNull fuel rq c 0)
    (fun exc => match exc with SoftTimeLimitExceeded => ret tt | _ => ret tt end) ;;
  read_list c.

(** The request parameters and the requests made once [k] pages, from
    [offset] on, were fetched and each was left for the page after it. *)
Fixpoint courses_walk (ENDPOINT : string) (OFFSET_SIZE : Z) (self : DiscoveryApiClient)
    (rp : pydict) (offset : Z) (k : nat) : pydict * list event :=
  match k with
  | O => (rp, [])
  | S k' =>
      let (rp', evs) :=
        courses_walk ENDPOINT OFFSET_SIZE self
          (dict_update rp [("offset", JNum (offset + OFFSET_SIZE))])
          (offset + OFFSET_SIZE) k' in
      (rp', get_event ENDPOINT self rp :: evs)
  end.

(** The default with which the page after the pages [ds] is read. *)
Definition default_after (ds : list pydict) : json :=
  match ds with [] => JNull | _ => JList [] end.

(** *** Well-formed traces *)

(** A request whose parameters satisfy [P], or a sleep. *)
Definition quiet (P : pydict -> Prop) (ev : event) : Prop :=
  match ev with
  | EvPost _ _ p _ => P p
  | EvGet _ p _ => P p
  | EvSleep _ => True
  | EvDecodeError _ => False
  end.

(** The events of a run that ended with [out]: requests and sleeps, and a
    failed decode only as the last event, raised to the caller. *)
Definition run_ok {A} (P : pydict -> Prop) (out : outcome A) (evs : list event) : Prop :=
  Forall (quiet P) evs \/
  exists pre e, evs = pre ++ [EvDecodeError e] /\ Forall (quiet P) pre /\ out = Raise e.

(** *** The end of the retry loop *)

(** What the retry loop ends with when its last attempt has the outcome
    [o]. *)
Definition loop_outcome (o : http_outcome) : outcome (option Response) :=
  match o with
  | Responds r => Return (Some r)
  | Fails e => Raise e
  end.

(** ** Concrete data *)

Definition search_endpoint : string := "/api/v1/search/all/".
Definition courses_endpoint : string := "/api/v1/courses/".
Definition programs_endpoint : string := "/api/v1/programs/".

Definition fakeX : json := JDict [("key", JStr "fakeX")].
Definition fakeY : json := JDict [("key", JStr "fakeY")].

(** Two pages: the first announces the second. *)
Definition body1 : pydict := [("results", JList [fakeX]); ("next", JStr "?page=2")].
Definition body2 : pydict := [("results", JList [fakeY]); ("next", JNull)].

Definition two_pages : DiscoveryApiClient :=
  mkClient 4 2 15
    (fun n => match n with
              | O => Responds (mkResponse 200 (inr (JDict body1)))
              | _ => Responds (mkResponse 200 (inr (JDict body2)))
              end).

(** Every request is answered with status 400 and the body [{}]. *)
Definition always_400 : DiscoveryApiClient :=
  mkClient 4 2 15 (fun _ => Responds (mkResponse 400 (inr (JDict [])))).

(** Every request raises [ChunkedEncodingError]. *)
Definition always_chunked : DiscoveryApiClient :=
  mkClient 4 2 15 (fun _ => Fails (RequestException "ChunkedEncodingError")).

(** Every response has a body that does not decode. *)
Definition always_garbled : DiscoveryApiClient :=
  mkClient 4 2 15 (fun _ => Responds (mkResponse 200 (inl JSONDecodeError))).

(** A first page without ['results']. *)
Definition no_results : DiscoveryApiClient :=
  mkClient 4 2 15 (fun _ => Responds (mkResponse 200 (inr (JDict [("count", JNum 0)])))).

Definition a_query : CatalogQuery := mkCatalogQuery (JDict [("content_type", JStr "course")]).

(** A store holding the caller's [query_params = {'limit': 50}]. *)
Definition caller_world : world := mkWorld [PyDict [("limit", JNum 50)]] 0 [].

(** A store holding the caller's [query_params = {'offset': 7}]. *)
Definition offset_world : world := mkWorld [PyDict [("offset", JNum 7)]] 0 [].

(** The clients of [tests/test_discovery.py]: one page with [fakeX]; the
    same with [BACKOFF_FACTOR = 0] and status 400 and [{}]; a
    [ChunkedEncodingError] and a [JSONDecodeError] on every request. *)
Definition mock_results : DiscoveryApiClient :=
  mkClient 4 2 15
    (fun _ => Responds (mkResponse 200 (inr (JDict [("results", JList [fakeX])])))).

Definition mock_400 : DiscoveryApiClient :=
  mkClient 4 0 15 (fun _ => Responds (mkResponse 400 (inr (JDict [])))).

Definition mock_chunked : DiscoveryApiClient :=
  mkClient 4 0 15 (fun _ => Fails (RequestException "ChunkedEncodingError")).

Definition mock_decode_error : DiscoveryApiClient :=
  mkClient 4 2 15 (fun _ => Fails JSONDecodeError).

(** A store holding the [query_params = {'ordering': 'key'}] of the tests. *)
Definition test_world : world := mkWorld [PyDict [("ordering", JStr "key")]] 0 [].

(** A page without ['results'] between two pages that have some. *)
Definition gap_pages : DiscoveryApiClient :=
  mkClient 4 2 15
    (fun n => match n with
              | O => Responds (mkResponse 200 (inr (JDict body1)))
              | S O => Responds (mkResponse 200 (inr (JDict [("next", JStr "?offset=200")])))
              | _ => Responds (mkResponse 200 (inr (JDict body2)))
              end).

(** Two pages, each served after failed attempts: a connection error and
    a 503 before the first, a timeout before the second. *)
Definition flaky : DiscoveryApiClient :=
  mkClient 4 2 15
    (fun n => match n with
              | O => Fails (RequestException "ConnectionError")
              | 1%nat => Responds (mkResponse 503 (inr (JDict [])))
              | 2%nat => Responds (mkResponse 200 (inr (JDict body1)))
              | 3%nat => Fails (RequestException "Timeout")
              | _ => Responds (mkResponse 200 (inr (JDict body2)))
              end).

Definition flaky_script : list (nat * pydict) := [(2%nat, body1); (1%nat, body2)].

(** Every page announces a next one. *)
Definition endless : DiscoveryApiClient :=
  mkClient 4 2 15 (fun _ => Responds (mkResponse 200 (inr (JDict body1)))).

(** A negative back-off factor in the settings. *)
Definition negative_backoff : DiscoveryApiClient :=
  mkClient 4 (-1) 15 (fun _ => Responds (mkResponse 500 (inr (JDict [])))).

(** A first page, then a body that is a list, not an object. *)
Definition then_a_list : DiscoveryApiClient :=
  mkClient 4 2 15
    (fun n => match n with
              | O => Responds (mkResponse 200 (inr (JDict body1)))
              | _ => Responds (mkResponse 200 (inr (JList [fakeY])))
              end).

(** A server error whose body has the shape of a page. *)
Definition error_page : DiscoveryApiClient :=
  mkClient 4 2 15
    (fun _ => Responds (mkResponse 500 (inr (JDict [("results", JList [fakeX])])))).

(** A server error with a body that is not JSON, on every request. *)
Definition error_html : DiscoveryApiClient :=
  mkClient 4 2 15 (fun _ => Responds (mkResponse 503 (inl JSONDecodeError))).

(** A page served after one failed attempt, then nothing but
    [ChunkedEncodingError]. *)
Definition flaky_then_down : DiscoveryApiClient :=
  mkClient 4 2 15
    (fun n => match n with
              | O => Fails (RequestException "ConnectionError")
              | 1%nat => Responds (mkResponse 200 (inr (JDict body1)))
              | _ => Fails (RequestException "ChunkedEncodingError")
              end).

(** Back-off factors that [time.sleep] cannot convert. *)
Definition huge_backoff : DiscoveryApiClient :=
  mkClient 4 (10 ^ 10) 15 (fun _ => Responds (mkResponse 500 (inr (JDict [])))).

Definition huge_negative_backoff : DiscoveryApiClient :=
  mkClient 4 (- 10 ^ 10) 15 (fun _ => Responds (mkResponse 500 (inr (JDict [])))).

(** A first page without ['results'], then a page with some. *)
Definition gap_first : DiscoveryApiClient :=
  mkClient 4 2 15
    (fun n => match n with
              | O => Responds (mkResponse 200 (inr (JDict [("next", JStr "?page=2")])))
              | _ => Responds (mkResponse 200 (inr (JDict body2)))
              end).

(** * Lemmas *)

(** ** Dict facts *)

Lemma dict_get_set_eq d k v : dict_get (dict_set d k v) k = Some v.
Proof.
  induction d as [|[k' v'] d IH]; simpl.
  - now rewrite String.eqb_refl.
  - destruct (String.eqb k' k) eqn:E; simpl; rewrite E; auto.
Qed.

Lemma dict_get_set_ne d k k' v : k <> k' -> dict_get (dict_set d k v) k' = dict_get d k'.
Proof.
  intros Hne. induction d as [|[k0 v0] d IH]; simpl.
  - destruct (String.eqb k k') eqn:E; auto. apply String.eqb_eq in E. congruence.
  - destruct (String.eqb k0 k) eqn:E; simpl.
    + apply String.eqb_eq in E; subst k0.
      destruct (String.eqb k k') eqn:E'; auto. apply String.eqb_eq in E'. congruence.
    + destruct (String.eqb k0 k'); auto.
Qed.

Lemma dict_set_set d k v v' : dict_set (dict_set d k v) k v' = dict_set d k v'.
Proof.
  induction d as [|[k0 v0] d IH]; simpl.
  - now rewrite String.eqb_refl.
  - destruct (String.eqb k0 k) eqn:E; simpl; rewrite E; auto. now rewrite IH.
Qed.

(** [update] gives the new value where the new dict has the key, and
    keeps the old one elsewhere. *)
Lemma dict_get_update new : forall d k,
  dict_get (dict_update d new) k =
  match dict_get (rev new) k with
  | Some v => Some v
  | None => dict_get d k
  end.
Proof.
  unfold dict_update.
  induction new as [|[k0 v0] new IH]; intros d k; simpl; auto.
  rewrite IH.
  assert (Hrev : forall l, dict_get (l ++ [(k0, v0)]) k =
            match dict_get l k with
            | Some v => Some v
            | None => if String.eqb k0 k then Some v0 else None
            end).
  { induction l as [|[k1 v1] l IHl]; simpl; auto.
    destruct (String.eqb k1 k); auto. }
  rewrite Hrev. destruct (dict_get (rev new) k); auto.
  destruct (String.eqb k0 k) eqn:E.
  - apply String.eqb_eq in E; subst. apply dict_get_set_eq.
  - apply dict_get_set_ne. intros ->. now rewrite String.eqb_refl in E.
Qed.

Lemma dict_get_app_none l1 l2 k :
  dict_get (l1 ++ l2) k = match dict_get l1 k with Some v => Some v | None => dict_get l2 k end.
Proof.
  induction l1 as [|[k1 v1] l1 IH]; simpl; auto. destruct (String.eqb k1 k); auto.
Qed.

Lemma dict_get_rev_none l k : dict_get l k = None -> dict_get (rev l) k = None.
Proof.
  induction l as [|[k1 v1] l IH]; simpl; auto.
  destruct (String.eqb k1 k) eqn:E; [discriminate|]. intros H.
  rewrite dict_get_app_none, (IH H). simpl. now rewrite E.
Qed.

(** With distinct keys, as in a Python dict, the order does not matter. *)
Lemma dict_get_rev l k : NoDup (map fst l) -> dict_get (rev l) k = dict_get l k.
Proof.
  induction l as [|[k1 v1] l IH]; simpl; auto. intros Hnd.
  apply NoDup_cons in Hnd as [Hnotin Hnd].
  rewrite dict_get_app_none, (IH Hnd). simpl.
  destruct (String.eqb k1 k) eqn:E; [|now destruct (dict_get l k)].
  apply String.eqb_eq in E; subst k1.
  assert (Hnone : dict_get l k = None).
  { clear - Hnotin. induction l as [|[k2 v2] l IH]; simpl in *; auto.
    destruct (String.eqb k2 k) eqn:E.
    - apply String.eqb_eq in E; subst. exfalso. apply Hnotin. constructor.
    - apply IH. intros H. apply Hnotin. now constructor. }
  now rewrite Hnone.
Qed.

(** The caller's parameters override and extend the defaults. *)
Lemma dict_get_update_caller defaults extra k :
  NoDup (map fst extra) ->
  dict_get (dict_update defaults extra) k =
  match dict_get extra k with
  | Some v => Some v
  | None => dict_get defaults k
  end.
Proof. intros Hnd. now rewrite dict_get_update, dict_get_rev. Qed.

(** ** Framing: every operation runs the same on a larger store *)

Section Framing.

Variable h0 : list pyobj.

Lemma framed_ret {A} (a : A) : framed h0 (ret a) (ret a).
Proof. intros w; reflexivity. Qed.

Lemma framed_raise {A} (e : exn) : framed h0 (@raise A e) (raise e).
Proof. intros w; reflexivity. Qed.

Lemma framed_diverge {A} : framed h0 (@diverge A) diverge.
Proof. intros w; reflexivity. Qed.

Lemma framed_bind {A B} (m m0 : M A) (k k0 : A -> M B) :
  framed h0 m m0 -> (forall a, framed h0 (k a) (k0 a)) ->
  framed h0 (bind m k) (bind m0 k0).
Proof.
  intros Hm Hk w. unfold bind. rewrite Hm.
  destruct (m0 w) as [[[a|e] w']|]; simpl; auto. apply Hk.
Qed.

Lemma framed_try_except {A} (m m0 : M A) (k k0 : exn -> M A) :
  framed h0 m m0 -> (forall e, framed h0 (k e) (k0 e)) ->
  framed h0 (try_except m k) (try_except m0 k0).
Proof.
  intros Hm Hk w. unfold try_except. rewrite Hm.
  destruct (m0 w) as [[[a|e] w']|]; simpl; auto. apply Hk.
Qed.

Lemma lookup_rebase (w : world) (r : loc) :
  heap (rebase h0 w) !! shift h0 r = heap w !! r.
Proof.
  unfold shift; simpl. rewrite lookup_app_r by lia. f_equal. lia.
Qed.

Lemma framed_read_dict (r : loc) :
  framed h0 (read_dict (shift h0 r)) (read_dict r).
Proof.
  intros w. unfold read_dict. rewrite lookup_rebase.
  destruct (heap w !! r) as [[d|l]|]; reflexivity.
Qed.

Lemma framed_read_list (c : loc) :
  framed h0 (read_list (shift h0 c)) (read_list c).
Proof.
  intros w. unfold read_list. rewrite lookup_rebase.
  destruct (heap w !! c) as [[d|l]|]; reflexivity.
Qed.

Lemma framed_update (r : loc) (new : pydict) :
  framed h0 (update (shift h0 r) new) (update r new).
Proof.
  intros w. unfold update. rewrite lookup_rebase.
  destruct (heap w !! r) as [[d|l]|]; try reflexivity.
  simpl. unfold rebase, shift; simpl. rewrite insert_app_r. reflexivity.
Qed.

Lemma framed_iadd (c : loc) (v : json) :
  framed h0 (iadd (shift h0 c) v) (iadd c v).
Proof.
  intros w. unfold iadd. rewrite lookup_rebase.
  destruct (heap w !! c) as [[d|l]|]; try reflexivity.
  destruct (iterate v); try reflexivity.
  simpl. unfold rebase, shift; simpl. rewrite insert_app_r. reflexivity.
Qed.

Lemma framed_py_get (response : json) (key : string) (default : json) :
  framed h0 (py_get response key default) (py_get response key default).
Proof. destruct response; intros w; reflexivity. Qed.

Lemma framed_request (self : DiscoveryApiClient) (ev : event) :
  framed h0 (request self ev) (request self ev).
Proof.
  intros w. unfold request; simpl. destruct (client self (served w)); reflexivity.
Qed.

Lemma framed_response_json (r : Response) :
  framed h0 (response_json r) (response_json r).
Proof. intros w. unfold response_json. destruct (body r); reflexivity. Qed.

Lemma framed_time_sleep (seconds : Z) :
  framed h0 (time_sleep seconds) (time_sleep seconds).
Proof. intros w. unfold time_sleep. destruct (sleep_error seconds); reflexivity. Qed.

Lemma framed_client_post self endpoint json_body (r : loc) timeout :
  framed h0 (client_post self endpoint json_body (shift h0 r) timeout)
            (client_post self endpoint json_body r timeout).
Proof.
  apply framed_bind; [apply framed_read_dict | intros; apply framed_request].
Qed.

Lemma framed_client_get self endpoint (r : loc) timeout :
  framed h0 (client_get self endpoint (shift h0 r) timeout)
            (client_get self endpoint r timeout).
Proof.
  apply framed_bind; [apply framed_read_dict | intros; apply framed_request].
Qed.

End Framing.

Create HintDb framed.

#[local] Hint Resolve framed_ret framed_raise framed_diverge framed_read_dict
  framed_read_list framed_update framed_iadd framed_py_get framed_request
  framed_response_json framed_time_sleep framed_client_post framed_client_get
  : framed.

Ltac framed_step :=
  first
    [ apply framed_try_except; [| intros ?]
    | apply framed_bind; [| intros ?]
    | solve [auto with framed]
    | solve [intros ?; reflexivity]
    | match goal with
      | |- framed _ (if ?b then _ else _) _ => destruct b
      | |- framed _ (match ?x with _ => _ end) _ => destruct x
      end ].

Section FramedCode.

Variable h0 : list pyobj.
Variable ENDPOINT : string.
Variable OFFSET_SIZE : Z.

Lemma framed_retry_loop fuel self cf (r : loc) attempts response :
  framed h0 (retry_loop ENDPOINT fuel self cf (shift h0 r) attempts response)
            (retry_loop ENDPOINT fuel self cf r attempts response).
Proof.
  revert attempts response. induction fuel as [|fuel IH]; intros; simpl.
  - apply framed_diverge.
  - repeat (first [apply IH | framed_step]).
Qed.

Lemma framed_retrieve_metadata self cf page (r : loc) :
  framed h0 (_retrieve_metadata_for_content_filter ENDPOINT self cf page (shift h0 r))
            (_retrieve_metadata_for_content_filter ENDPOINT self cf page r).
Proof.
  unfold _retrieve_metadata_for_content_filter.
  apply framed_bind; [apply framed_retry_loop|]. intros [x|]; auto with framed.
Qed.

Lemma framed_search_pages fuel self cf (r c : loc) page response :
  framed h0 (search_pages ENDPOINT fuel self cf (shift h0 r) (shift h0 c) page response)
            (search_pages ENDPOINT fuel self cf r c page response).
Proof.
  revert page response. induction fuel as [|fuel IH]; intros; simpl.
  - apply framed_diverge.
  - repeat (first [apply framed_retrieve_metadata | apply IH | framed_step]).
Qed.

Lemma framed_retrieve_courses self offset (r : loc) :
  framed h0 (_retrieve_courses ENDPOINT self offset (shift h0 r))
            (_retrieve_courses ENDPOINT self offset r).
Proof. unfold _retrieve_courses. repeat framed_step. Qed.

Lemma framed_courses_pages fuel self (r c : loc) offset response :
  framed h0 (courses_pages ENDPOINT OFFSET_SIZE fuel self (shift h0 r) (shift h0 c) offset
               response)
            (courses_pages ENDPOINT OFFSET_SIZE fuel self r c offset response).
Proof.
  revert offset response. induction fuel as [|fuel IH]; intros; simpl.
  - apply framed_diverge.
  - repeat (first [apply framed_retrieve_courses | apply IH | framed_step]).
Qed.

End FramedCode.

(** ** The retry loop *)

Lemma sleeps_app t1 t2 : sleeps (t1 ++ t2) = sleeps t1 ++ sleeps t2.
Proof.
  induction t1 as [|[] t1 IH]; simpl; auto. now rewrite IH.
Qed.

Lemma post_count_app t1 t2 : post_count (t1 ++ t2) = post_count t1 + post_count t2.
Proof.
  induction t1 as [|[] t1 IH]; simpl; auto; lia.
Qed.

Section Retry.

Variable ENDPOINT : string.
Variable self : DiscoveryApiClient.
Variable cf : json.

(** The store of the call, with the [request_params] dict at [rq]. *)
Variable h : list pyobj.
Variable rq : loc.
Variable rp : pydict.
Hypothesis Hrq : h !! rq = Some (PyDict rp).

Lemma client_post_run n t :
  client_post self ENDPOINT cf rq (HTTP_TIMEOUT self) (mkWorld h n t) =
  match client self n with
  | Responds r => Some (Return r, mkWorld h (S n) (t ++ [post_event ENDPOINT self cf rp]))
  | Fails e => Some (Raise e, mkWorld h (S n) (t ++ [post_event ENDPOINT self cf rp]))
  end.
Proof.
  unfold client_post, bind, read_dict; simpl. rewrite Hrq. reflexivity.
Qed.

(** One iteration of the loop. *)
Lemma retry_loop_step fuel n t a response :
  retry_loop ENDPOINT (S fuel) self cf rq a response (mkWorld h n t) =
  let again response :=
    match sleep_error (_calculate_backoff self (a + 1)) with
    | Some e => Some (Raise e, mkWorld h (S n) (t ++ [post_event ENDPOINT self cf rp]))
    | None =>
        retry_loop ENDPOINT fuel self cf rq (a + 1) response
          (mkWorld h (S n)
             (t ++ [post_event ENDPOINT self cf rp;
                    EvSleep (_calculate_backoff self (a + 1))]))
    end in
  match client self n with
  | Responds r =>
      if (a + 1 <=? MAX_RETRIES self) && negb (status_code r <? 400)
      then again (Some r)
      else Some (Return (Some r), mkWorld h (S n) (t ++ [post_event ENDPOINT self cf rp]))
  | Fails e =>
      if is_RequestException e then
        if a + 1 <=? MAX_RETRIES self then again response
        else Some (Raise e, mkWorld h (S n) (t ++ [post_event ENDPOINT self cf rp]))
      else Some (Raise e, mkWorld h (S n) (t ++ [post_event ENDPOINT self cf rp]))
  end.
Proof.
  cbv zeta. simpl retry_loop. unfold bind at 1, try_except, bind at 1.
  rewrite client_post_run.
  destruct (client self n) as [r|e]; simpl.
  - destruct ((a + 1 <=? MAX_RETRIES self) && negb (status_code r <? 400)); simpl; auto.
    unfold bind, time_sleep.
    destruct (sleep_error (_calculate_backoff self (a + 1))); simpl; auto.
    now rewrite <- app_assoc.
  - destruct (is_RequestException e); simpl; auto.
    destruct (a + 1 <=? MAX_RETRIES self); simpl; auto.
    unfold bind, time_sleep.
    destruct (sleep_error (_calculate_backoff self (a + 1))); simpl; auto.
    now rewrite <- app_assoc.
Qed.

Lemma backoff_nonneg a :
  0 <= BACKOFF_FACTOR self -> 0 <= a -> 0 <= _calculate_backoff self (a + 1).
Proof.
  intros HB Ha. unfold _calculate_backoff.
  apply Z.mul_nonneg_nonneg; auto. apply Z.pow_nonneg. lia.
Qed.

(** With a factor that is not negative the back-offs grow with the
    attempt: when that of attempt [m] is in range, so are those before. *)
Lemma backoffs_sleep_le m k :
  backoffs_sleep self m -> k <= m -> backoffs_sleep self k.
Proof.
  intros [HB Hm] Hk. split; [exact HB|].
  unfold _calculate_backoff in *. etransitivity; [|exact Hm].
  apply Z.mul_le_mono_nonneg_l; [exact HB|].
  apply Z.pow_le_mono_r; lia.
Qed.

Lemma backoff_sleeps a m :
  backoffs_sleep self m -> 0 <= a -> a + 1 <= m ->
  sleep_error (_calculate_backoff self (a + 1)) = None.
Proof.
  intros Hin Ha Hle.
  destruct (backoffs_sleep_le m (a + 1) Hin Hle) as [HB Hup].
  pose proof (backoff_nonneg a HB Ha) as Hlo.
  unfold SLEEP_SAFE in Hup. change (2 ^ 32) with 4294967296 in Hup.
  unfold sleep_error.
  destruct (Z.ltb_spec (_calculate_backoff self (a + 1)) (- SLEEP_MAX));
    [unfold SLEEP_MAX in *; lia|].
  destruct (Z.ltb_spec SLEEP_MAX (_calculate_backoff self (a + 1)));
    [unfold SLEEP_MAX in *; lia|].
  destruct (Z.ltb_spec (_calculate_backoff self (a + 1)) 0); [lia|].
  reflexivity.
Qed.

(** Every attempt fails: the loop makes all the attempts it has left and
    ends on the last one. *)
Lemma retry_loop_all_fail (m : nat) : forall fuel n t a response,
  backoffs_sleep self (MAX_RETRIES self) -> 0 <= a ->
  a + 1 + Z.of_nat m = MAX_RETRIES self + 1 ->
  (m < fuel)%nat ->
  (forall i, (i <= m)%nat -> attempt_fails (client self (n + i)) = true) ->
  retry_loop ENDPOINT fuel self cf rq a response (mkWorld h n t) =
  Some (match client self (n + m) with
        | Fails e => Raise e
        | Responds r => Return (Some r)
        end,
        mkWorld h (S (n + m)) (t ++ retry_events ENDPOINT self cf rp a m)).
Proof.
  induction m as [|m IH]; intros fuel n t a response HB Ha Hm Hfuel Hfail;
    (destruct fuel as [|fuel]; [lia|]); rewrite retry_loop_step; cbv zeta.
  - pose proof (Hfail 0%nat ltac:(lia)) as H0. rewrite Nat.add_0_r in *.
    replace (a + 1 <=? MAX_RETRIES self) with false by (symmetry; apply Z.leb_gt; lia).
    destruct (client self n) as [r|e]; simpl in *; auto.
    now rewrite H0.
  - pose proof (Hfail 0%nat ltac:(lia)) as H0. rewrite Nat.add_0_r in H0.
    replace (a + 1 <=? MAX_RETRIES self) with true by (symmetry; apply Z.leb_le; lia).
    rewrite (backoff_sleeps a (MAX_RETRIES self)) by (auto; lia).
    assert (Hrec : forall response',
      retry_loop ENDPOINT fuel self cf rq (a + 1) response'
        (mkWorld h (S n)
           (t ++ [post_event ENDPOINT self cf rp; EvSleep (_calculate_backoff self (a + 1))])) =
      Some (match client self (n + S m) with
            | Fails e => Raise e
            | Responds r => Return (Some r)
            end,
            mkWorld h (S (n + S m)) (t ++ retry_events ENDPOINT self cf rp a (S m)))).
    { intros response'. rewrite (IH fuel (S n) _ (a + 1) response'); auto; try lia.
      - replace (S n + m)%nat with (n + S m)%nat by lia.
        simpl retry_events. now rewrite <- app_assoc.
      - intros i Hi. replace (S n + i)%nat with (n + S i)%nat by lia.
        apply Hfail. lia. }
    destruct (client self n) as [r|e]; simpl in H0.
    + replace (status_code r <? 400) with false
        by (symmetry; apply Z.ltb_ge; apply Z.leb_le; auto).
      simpl. apply Hrec.
    + rewrite H0. apply Hrec.
Qed.

(** The first attempt succeeds: one request, no sleep. *)
Lemma retry_loop_first_ok fuel n t a response r :
  client self n = Responds r -> status_code r < 400 ->
  retry_loop ENDPOINT (S fuel) self cf rq a response (mkWorld h n t) =
  Some (Return (Some r), mkWorld h (S n) (t ++ [post_event ENDPOINT self cf rp])).
Proof.
  intros Hc Hs. rewrite retry_loop_step, Hc; cbv zeta.
  replace (status_code r <? 400) with true by (symmetry; apply Z.ltb_lt; auto).
  now rewrite andb_false_r.
Qed.

Lemma retrieve_first_ok page n t r :
  client self n = Responds r -> status_code r < 400 ->
  _retrieve_metadata_for_content_filter ENDPOINT self cf page rq (mkWorld h n t) =
  response_json r (mkWorld h (S n) (t ++ [post_event ENDPOINT self cf rp])).
Proof.
  intros Hc Hs. unfold _retrieve_metadata_for_content_filter, bind.
  now rewrite (retry_loop_first_ok _ _ _ _ _ r).
Qed.

(** The request raises something that is not a [RequestException]: it is
    not caught, and nothing else happens. *)
Lemma retrieve_first_raises page n t e :
  client self n = Fails e -> is_RequestException e = false ->
  _retrieve_metadata_for_content_filter ENDPOINT self cf page rq (mkWorld h n t) =
  Some (Raise e, mkWorld h (S n) (t ++ [post_event ENDPOINT self cf rp])).
Proof.
  intros Hc He. unfold _retrieve_metadata_for_content_filter, bind.
  now rewrite retry_loop_step, Hc, He.
Qed.

Lemma retrieve_all_fail page n t :
  0 <= MAX_RETRIES self -> backoffs_sleep self (MAX_RETRIES self) ->
  (forall i, (i <= Z.to_nat (MAX_RETRIES self))%nat ->
             attempt_fails (client self (n + i)) = true) ->
  let m := Z.to_nat (MAX_RETRIES self) in
  let w' := mkWorld h (S (n + m)) (t ++ retry_events ENDPOINT self cf rp 0 m) in
  _retrieve_metadata_for_content_filter ENDPOINT self cf page rq (mkWorld h n t) =
  match client self (n + m) with
  | Fails e => Some (Raise e, w')
  | Responds r => response_json r w'
  end.
Proof.
  intros HM HB Hfail m w'. unfold _retrieve_metadata_for_content_filter, bind.
  rewrite (retry_loop_all_fail m); auto; try lia.
  destruct (client self (n + m)); reflexivity.
Qed.

(** The trace of [retry_events]: its sleeps are the back-off delays of the
    attempts made so far, and there is one more request than sleeps. *)
Lemma sleeps_retry_events (m : nat) : forall a,
  sleeps (retry_events ENDPOINT self cf rp a m) =
  map (fun i => _calculate_backoff self (a + 1 + Z.of_nat i)) (seq 0 m).
Proof.
  induction m as [|m IH]; intros a; simpl; auto.
  rewrite IH, <- seq_shift, map_map. f_equal.
  - f_equal. lia.
  - apply map_ext. intros i. f_equal. lia.
Qed.

Lemma post_count_retry_events (m : nat) : forall a,
  post_count (retry_events ENDPOINT self cf rp a m) = Z.of_nat m + 1.
Proof.
  induction m as [|m IH]; intros a; simpl; auto. rewrite IH. lia.
Qed.

End Retry.

(** The fuel that [_retrieve_metadata_for_content_filter] gives the loop
    is enough in every world, and more would change nothing. *)
Lemma retry_loop_fuel ENDPOINT self cf rq (fuel : nat) :
  forall fuel' a response w,
    (Z.to_nat (MAX_RETRIES self - a) < fuel)%nat ->
    (fuel <= fuel')%nat ->
    exists res,
      retry_loop ENDPOINT fuel self cf rq a response w = Some res /\
      retry_loop ENDPOINT fuel' self cf rq a response w = Some res.
Proof.
  induction fuel as [|fuel IH]; intros fuel' a response [h n t] Hfuel Hle; [lia|].
  destruct fuel' as [|fuel']; [lia|].
  destruct (h !! rq) as [[rp|l]|] eqn:Hrq.
  - rewrite !(retry_loop_step ENDPOINT self cf h rq rp Hrq). cbv zeta.
    assert (Hagain : forall response' t',
      a + 1 <= MAX_RETRIES self ->
      exists res,
        retry_loop ENDPOINT fuel self cf rq (a + 1) response' (mkWorld h (S n) t')
          = Some res /\
        retry_loop ENDPOINT fuel' self cf rq (a + 1) response' (mkWorld h (S n) t')
          = Some res).
    { intros response' t' Ha. apply IH; lia. }
    destruct (client self n) as [r|e].
    + destruct (a + 1 <=? MAX_RETRIES self) eqn:Ha; simpl; eauto.
      destruct (status_code r <? 400); simpl; eauto.
      destruct (sleep_error (_calculate_backoff self (a + 1))); eauto.
      apply Hagain. now apply Z.leb_le.
    + destruct (is_RequestException e); eauto.
      destruct (a + 1 <=? MAX_RETRIES self) eqn:Ha; eauto.
      destruct (sleep_error (_calculate_backoff self (a + 1))); eauto.
      apply Hagain. now apply Z.leb_le.
  - exists (Raise TypeError, mkWorld h n t). simpl.
    unfold bind, try_except, client_post, bind, read_dict. simpl. rewrite Hrq. auto.
  - exists (Raise TypeError, mkWorld h n t). simpl.
    unfold bind, try_except, client_post, bind, read_dict. simpl. rewrite Hrq. auto.
Qed.

(** ** Page traversal of the search endpoint *)

Lemma page_items_results d rs :
  dict_get d "results" = Some (JList rs) -> page_items d = Some rs.
Proof. unfold page_items, page_items_or. now intros ->. Qed.

Section Search.

Variable ENDPOINT : string.
Variable self : DiscoveryApiClient.
Variable cf : json.

Lemma framed_search_call h0 fuel (rq c : loc) :
  framed h0 (search_call ENDPOINT self cf fuel (shift h0 rq) (shift h0 c))
            (search_call ENDPOINT self cf fuel rq c).
Proof.
  unfold search_call, search_fetch.
  repeat (first [apply framed_retrieve_metadata | apply framed_search_pages | framed_step]).
Qed.

Lemma search_pages_next fuel rq c page d :
  has_next d = true ->
  forall w,
  search_pages ENDPOINT (S fuel) self cf rq c page (JDict d) w =
  (update rq [("page", JNum (page + 1))] ;; search_fetch ENDPOINT self cf fuel rq c (page + 1)) w.
Proof.
  unfold has_next. intros Hn w. simpl. unfold bind at 1. simpl.
  destruct (dict_get d "next") as [v|]; [|discriminate]. now rewrite Hn.
Qed.

Lemma search_pages_last fuel rq c page d :
  has_next d = false ->
  forall w,
  search_pages ENDPOINT (S fuel) self cf rq c page (JDict d) w = Some (Return tt, w).
Proof.
  unfold has_next. intros Hn w. simpl. unfold bind at 1. simpl.
  destruct (dict_get d "next") as [v|]; [now rewrite Hn|reflexivity].
Qed.

(** Fetching one well-formed page on the two objects of the call. *)
Lemma search_fetch_page fuel page rp acc n t d items :
  serves_page self n d ->
  page_items d = Some items ->
  search_fetch ENDPOINT self cf fuel 0%nat 1%nat page (frame rp acc n t) =
  search_pages ENDPOINT fuel self cf 0%nat 1%nat page (JDict d)
    (frame rp (acc ++ items) (S n) (t ++ [post_event ENDPOINT self cf rp])).
Proof.
  unfold page_items, page_items_or. intros (r & Hc & Hs & Hb) Hit. unfold search_fetch, bind at 1.
  unfold frame at 1.
  rewrite (retrieve_first_ok ENDPOINT self cf [PyDict rp; PyList acc] 0%nat rp eq_refl
             page n t r Hc Hs).
  unfold response_json. rewrite Hb. simpl.
  unfold bind at 1. simpl. unfold bind at 1, iadd. simpl. rewrite Hit. reflexivity.
Qed.

Lemma update_frame rp acc n t new :
  update 0%nat new (frame rp acc n t) = Some (Return tt, frame (dict_update rp new) acc n t).
Proof. reflexivity. Qed.

(** Pages that all announce a next page are fetched one after the other. *)
Lemma search_fetch_walk (ds : list pydict) : forall rss fuel page rp acc n t,
  serves_pages self n ds ->
  Forall (fun d => has_next d = true) ds ->
  Forall2 (fun d rs => page_items d = Some rs) ds rss ->
  search_fetch ENDPOINT self cf (length ds + fuel) 0%nat 1%nat page (frame rp acc n t) =
  search_fetch ENDPOINT self cf fuel 0%nat 1%nat (page + Z.of_nat (length ds))
    (frame (fst (search_walk ENDPOINT self cf rp page (length ds))) (acc ++ concat rss)
       (n + length ds) (t ++ snd (search_walk ENDPOINT self cf rp page (length ds)))).
Proof.
  induction ds as [|d ds IH]; intros rss fuel page rp acc n t Hsrv Hnext Hres.
  - inversion Hres; subst. simpl.
    now rewrite Z.add_0_r, Nat.add_0_r, !app_nil_r.
  - inversion Hres as [|? rs ? rss' Hd Hres']; subst.
    inversion Hnext as [|? ? Hn Hnext']; subst.
    destruct Hsrv as [Hsd Hsrv].
    cbn [length Nat.add].
    rewrite (search_fetch_page _ page rp acc n t d rs Hsd Hd).
    rewrite search_pages_next by exact Hn.
    unfold bind at 1. rewrite update_frame.
    rewrite (IH rss' fuel (page + 1)); auto.
    cbn [search_walk concat].
    destruct (search_walk ENDPOINT self cf (dict_update rp [("page", JNum (page + 1))])
                (page + 1) (length ds))
      as [rp' evs]. cbn [fst snd].
    rewrite <- !app_assoc. cbn [app].
    replace (page + 1 + Z.of_nat (length ds)) with (page + Z.of_nat (S (length ds))) by lia.
    replace (S n + length ds)%nat with (n + S (length ds))%nat by lia.
    reflexivity.
Qed.

(** The last page: it announces no next page and ends the traversal. *)
Lemma search_fetch_last fuel page rp acc n t d rs :
  serves_page self n d -> has_next d = false -> page_items d = Some rs ->
  search_fetch ENDPOINT self cf (S fuel) 0%nat 1%nat page (frame rp acc n t) =
  Some (Return tt, frame rp (acc ++ rs) (S n) (t ++ [post_event ENDPOINT self cf rp])).
Proof.
  intros Hs Hn Hd. rewrite (search_fetch_page _ page rp acc n t d rs Hs Hd).
  now rewrite search_pages_last.
Qed.

End Search.

Lemma get_metadata_by_query_run ENDPOINT fuel self cq w :
  get_metadata_by_query ENDPOINT fuel self cq w =
  lift (heap w)
    (search_call ENDPOINT self (content_filter cq) fuel 0%nat 1%nat
       (frame search_params [] (served w) (trace w))).
Proof.
  rewrite <- (framed_search_call ENDPOINT self (content_filter cq) (heap w)).
  unfold get_metadata_by_query, bind at 1; simpl.
  unfold bind at 1; simpl. unfold rebase, frame, shift; simpl.
  rewrite length_app, <- app_assoc, Nat.add_0_r. reflexivity.
Qed.

(** ** Page traversal of the list endpoints *)

Lemma pages_items_results default ds : forall rss,
  Forall2 (fun d rs => dict_get d "results" = Some (JList rs)) ds rss ->
  pages_items default ds = Some (concat rss).
Proof.
  revert default. induction ds as [|d ds IH]; intros default rss H; inversion H; subst; auto.
  simpl. unfold page_items_or. rewrite H2. simpl. now rewrite (IH _ l').
Qed.

Section ListEndpoint.

Variable ENDPOINT : string.
Variable OFFSET_SIZE : Z.
Variable self : DiscoveryApiClient.

Lemma framed_courses_call h0 fuel (rq c : loc) :
  framed h0 (courses_call ENDPOINT OFFSET_SIZE self fuel (shift h0 rq) (shift h0 c))
            (courses_call ENDPOINT OFFSET_SIZE self fuel rq c).
Proof.
  unfold courses_call, courses_fetch.
  repeat (first [apply framed_retrieve_courses | apply framed_courses_pages | framed_step]).
Qed.

Lemma courses_pages_next fuel rq c offset d :
  has_next d = true ->
  forall w,
  courses_pages ENDPOINT OFFSET_SIZE (S fuel) self rq c offset (JDict d) w =
  (update rq [("offset", JNum (offset + OFFSET_SIZE))] ;;
   courses_fetch ENDPOINT OFFSET_SIZE self (JList []) fuel rq c (offset + OFFSET_SIZE)) w.
Proof.
  unfold has_next. intros Hn w. simpl. unfold bind at 1. simpl.
  destruct (dict_get d "next") as [v|]; [|discriminate]. now rewrite Hn.
Qed.

Lemma courses_pages_last fuel rq c offset d :
  has_next d = false ->
  forall w,
  courses_pages ENDPOINT OFFSET_SIZE (S fuel) self rq c offset (JDict d) w =
  Some (Return tt, w).
Proof.
  unfold has_next. intros Hn w. simpl. unfold bind at 1. simpl.
  destruct (dict_get d "next") as [v|]; [now rewrite Hn|reflexivity].
Qed.

(** One request of the list path on the two objects of the call. *)
Lemma retrieve_courses_frame offset rp acc n t :
  _retrieve_courses ENDPOINT self offset 0%nat (frame rp acc n t) =
  match client self n with
  | Responds r => response_json r (frame rp acc (S n) (t ++ [get_event ENDPOINT self rp]))
  | Fails e => Some (Raise e, frame rp acc (S n) (t ++ [get_event ENDPOINT self rp]))
  end.
Proof.
  unfold _retrieve_courses, bind at 1. unfold client_get, bind, read_dict, request. simpl.
  destruct (client self n); reflexivity.
Qed.

Lemma courses_fetch_page default fuel offset rp acc n t d items :
  serves_body self n d ->
  page_items_or default d = Some items ->
  courses_fetch ENDPOINT OFFSET_SIZE self default fuel 0%nat 1%nat offset (frame rp acc n t) =
  courses_pages ENDPOINT OFFSET_SIZE fuel self 0%nat 1%nat offset (JDict d)
    (frame rp (acc ++ items) (S n) (t ++ [get_event ENDPOINT self rp])).
Proof.
  unfold page_items_or. intros (r & Hc & Hb) Hit. unfold courses_fetch, bind at 1.
  rewrite retrieve_courses_frame, Hc. unfold response_json. rewrite Hb. simpl.
  unfold bind at 1. simpl. unfold bind at 1, iadd. simpl. rewrite Hit. reflexivity.
Qed.

(** Pages that all announce a next page are fetched one after the other. *)
Lemma courses_fetch_walk (ds : list pydict) : forall default items fuel offset rp acc n t,
  ds <> [] ->
  serves_bodies self n ds ->
  Forall (fun d => has_next d = true) ds ->
  pages_items default ds = Some items ->
  courses_fetch ENDPOINT OFFSET_SIZE self default (length ds + fuel) 0%nat 1%nat offset
    (frame rp acc n t) =
  courses_fetch ENDPOINT OFFSET_SIZE self (JList []) fuel 0%nat 1%nat
    (offset + Z.of_nat (length ds) * OFFSET_SIZE)
    (frame (fst (courses_walk ENDPOINT OFFSET_SIZE self rp offset (length ds))) (acc ++ items)
       (n + length ds) (t ++ snd (courses_walk ENDPOINT OFFSET_SIZE self rp offset (length ds)))).
Proof.
  induction ds as [|d ds IH]; intros default items fuel offset rp acc n t Hne Hsrv Hnext Hit;
    [congruence|].
  inversion Hnext as [|? ? Hn Hnext']; subst.
  destruct Hsrv as [Hsd Hsrv].
  simpl in Hit. destruct (page_items_or default d) as [a|] eqn:Ha; [|discriminate].
  destruct (pages_items (JList []) ds) as [b|] eqn:Hb; [|discriminate].
  injection Hit as <-.
  cbn [length Nat.add].
  rewrite (courses_fetch_page default _ offset rp acc n t d a Hsd Ha).
  rewrite courses_pages_next by exact Hn.
  unfold bind at 1. rewrite update_frame.
  destruct ds as [|d' ds'].
  - injection Hb as <-. simpl. rewrite !app_nil_r, Nat.add_1_r.
    now replace (offset + Z.of_nat 1 * OFFSET_SIZE) with (offset + OFFSET_SIZE) by lia.
  - rewrite (IH (JList []) b fuel (offset + OFFSET_SIZE) _ _ (S n) _
               ltac:(discriminate) Hsrv Hnext' Hb).
    cbn [courses_walk].
    destruct (courses_walk ENDPOINT OFFSET_SIZE self
                (dict_update rp [("offset", JNum (offset + OFFSET_SIZE))])
                (offset + OFFSET_SIZE) (length (d' :: ds'))) as [rp' evs]. cbn [fst snd].
    rewrite <- !app_assoc. cbn [app].
    replace (offset + OFFSET_SIZE + Z.of_nat (length (d' :: ds')) * OFFSET_SIZE)
      with (offset + Z.of_nat (S (length (d' :: ds'))) * OFFSET_SIZE) by lia.
    replace (S n + length (d' :: ds'))%nat with (n + S (length (d' :: ds')))%nat by lia.
    reflexivity.
Qed.

Lemma courses_fetch_last default fuel offset rp acc n t d rs :
  serves_body self n d -> has_next d = false -> page_items_or default d = Some rs ->
  courses_fetch ENDPOINT OFFSET_SIZE self default (S fuel) 0%nat 1%nat offset (frame rp acc n t) =
  Some (Return tt, frame rp (acc ++ rs) (S n) (t ++ [get_event ENDPOINT self rp])).
Proof.
  intros Hs Hn Hd. rewrite (courses_fetch_page default _ offset rp acc n t d rs Hs Hd).
  now rewrite courses_pages_last.
Qed.

End ListEndpoint.

(** [get_programs] is [get_courses] at another endpoint and with one more
    default parameter. *)

Lemma programs_pages_courses ENDPOINT OFFSET_SIZE :
  programs_pages ENDPOINT OFFSET_SIZE = courses_pages ENDPOINT OFFSET_SIZE.
Proof. reflexivity. Qed.

(** The allocations and the merge of the caller's parameters, followed by
    a body that works on the two new objects only. *)
Lemma list_call_run (defaults extra : pydict) (body : loc -> loc -> M (list json))
    (body0 : M (list json)) (query_params : option loc) (w : world) :
  caller_dict (heap w) query_params = Some extra ->
  (forall w0, body (shift (heap w) 0%nat) (shift (heap w) 1%nat) (rebase (heap w) w0)
              = lift (heap w) (body0 w0)) ->
  (request_params <- new_obj (PyDict defaults) ;;
   extra <- query_params_or_empty query_params ;;
   update request_params extra ;;
   c <- new_obj (PyList []) ;;
   body request_params c) w =
  lift (heap w) (body0 (frame (dict_update defaults extra) [] (served w) (trace w))).
Proof.
  intros Hq Hbody. rewrite <- Hbody.
  unfold bind at 1; simpl.
  assert (Hextra : query_params_or_empty query_params
            (mkWorld (heap w ++ [PyDict defaults]) (served w) (trace w)) =
          Some (Return extra, mkWorld (heap w ++ [PyDict defaults]) (served w) (trace w))).
  { destruct query_params as [q|]; simpl in *; [|now injection Hq as <-].
    unfold read_dict; simpl.
    destruct (heap w !! q) as [[d|l]|] eqn:Hl; try discriminate.
    injection Hq as <-.
    rewrite lookup_app_l by (apply lookup_lt_Some in Hl; exact Hl).
    now rewrite Hl. }
  unfold bind at 1. rewrite Hextra.
  unfold bind at 1, update; simpl.
  rewrite list_lookup_middle by reflexivity.
  unfold bind at 1; simpl.
  rewrite insert_app_r_alt by lia. rewrite Nat.sub_diag. simpl.
  unfold rebase, frame, shift; simpl.
  rewrite length_app, <- app_assoc, Nat.add_0_r. reflexivity.
Qed.

Lemma get_courses_run ENDPOINT OFFSET_SIZE fuel self query_params extra w :
  caller_dict (heap w) query_params = Some extra ->
  get_courses ENDPOINT OFFSET_SIZE fuel self query_params w =
  lift (heap w)
    (courses_call ENDPOINT OFFSET_SIZE self fuel 0%nat 1%nat
       (frame (dict_update (courses_params OFFSET_SIZE) extra) [] (served w) (trace w))).
Proof.
  intros Hq.
  apply (list_call_run (courses_params OFFSET_SIZE) extra
           (courses_call ENDPOINT OFFSET_SIZE self fuel)); auto.
  intros w0. apply framed_courses_call.
Qed.

Lemma get_programs_run OFFSET_SIZE ENDPOINT fuel self query_params extra w :
  caller_dict (heap w) query_params = Some extra ->
  get_programs ENDPOINT OFFSET_SIZE fuel self query_params w =
  lift (heap w)
    (courses_call ENDPOINT OFFSET_SIZE self fuel 0%nat 1%nat
       (frame (dict_update (programs_params OFFSET_SIZE) extra) [] (served w) (trace w))).
Proof.
  intros Hq.
  apply (list_call_run (programs_params OFFSET_SIZE) extra
           (fun request_params programs =>
              try_except
                (response <- _retrieve_programs ENDPOINT self 0 request_params ;;
                 items <- py_get response "results" JNull ;;
                 iadd programs items ;;
                 programs_pages ENDPOINT OFFSET_SIZE fuel self request_params programs 0 response)
                (fun exc => match exc with SoftTimeLimitExceeded => ret tt | _ => ret tt end) ;;
              read_list programs)); auto.
  intros w0. rewrite <- framed_courses_call. reflexivity.
Qed.

(** ** Scripts of pages *)

Lemma serves_pages_app self ds : forall n ds',
  serves_pages self n (ds ++ ds') <->
  serves_pages self n ds /\ serves_pages self (n + length ds) ds'.
Proof.
  induction ds as [|d ds IH]; intros n ds'; simpl.
  - rewrite Nat.add_0_r. tauto.
  - rewrite IH. replace (S n + length ds)%nat with (n + S (length ds))%nat by lia. tauto.
Qed.

Lemma serves_bodies_app self ds : forall n ds',
  serves_bodies self n (ds ++ ds') <->
  serves_bodies self n ds /\ serves_bodies self (n + length ds) ds'.
Proof.
  induction ds as [|d ds IH]; intros n ds'; simpl.
  - rewrite Nat.add_0_r. tauto.
  - rewrite IH. replace (S n + length ds)%nat with (n + S (length ds))%nat by lia. tauto.
Qed.

Lemma Forall2_results_items ds rss :
  Forall2 (fun d rs => dict_get d "results" = Some (JList rs)) ds rss ->
  Forall2 (fun d rs => page_items d = Some rs) ds rss.
Proof.
  induction 1; constructor; auto using page_items_results.
Qed.

Lemma courses_fetch_prefix ENDPOINT OFFSET_SIZE self ds items fuel rp acc n t :
  serves_bodies self n ds ->
  Forall (fun d => has_next d = true) ds ->
  pages_items JNull ds = Some items ->
  courses_fetch ENDPOINT OFFSET_SIZE self JNull (length ds + fuel) 0%nat 1%nat 0
    (frame rp acc n t) =
  courses_fetch ENDPOINT OFFSET_SIZE self (default_after ds) fuel 0%nat 1%nat
    (Z.of_nat (length ds) * OFFSET_SIZE)
    (frame (fst (courses_walk ENDPOINT OFFSET_SIZE self rp 0 (length ds))) (acc ++ items)
       (n + length ds) (t ++ snd (courses_walk ENDPOINT OFFSET_SIZE self rp 0 (length ds)))).
Proof.
  intros Hsrv Hnext Hit. destruct ds as [|d ds].
  - injection Hit as <-. simpl. now rewrite !app_nil_r, Nat.add_0_r.
  - now rewrite (courses_fetch_walk ENDPOINT OFFSET_SIZE self (d :: ds) JNull items).
Qed.

(** ** What every run leaves in the trace *)

Lemma run_ok_return {A} P (a : A) evs : run_ok P (Return a) evs -> Forall (quiet P) evs.
Proof. intros [H|(pre & e & _ & _ & H)]; [exact H|discriminate]. Qed.

Lemma run_ok_app {A} P (out : outcome A) evs1 evs2 :
  Forall (quiet P) evs1 -> run_ok P out evs2 -> run_ok P out (evs1 ++ evs2).
Proof.
  intros H1 [H2|(pre & e & -> & Hpre & ->)].
  - left. apply Forall_app; auto.
  - right. exists (evs1 ++ pre), e. rewrite app_assoc. repeat split; auto.
    apply Forall_app; auto.
Qed.

Lemma run_ok_raise {A B} P e evs : run_ok P (@Raise A e) evs -> run_ok P (@Raise B e) evs.
Proof.
  intros [H|(pre & e' & -> & Hpre & Heq)]; [left; auto|].
  right. exists pre, e'. repeat split; auto. congruence.
Qed.

(** A failed decode is the last event and is what the caller gets. *)
Lemma run_ok_decode_last {A} P (out : outcome A) evs pre e post :
  run_ok P out evs -> evs = pre ++ EvDecodeError e :: post ->
  post = [] /\ out = Raise e.
Proof.
  intros Hok ->.
  assert (Hno : forall l, Forall (quiet P) l -> ~ In (EvDecodeError e) l).
  { intros l Hl Hin. rewrite Forall_forall in Hl.
    apply (Hl (EvDecodeError e)). now apply list_elem_of_In. }
  destruct Hok as [H|(pre' & e' & Heq & Hpre & ->)].
  - exfalso. apply (Hno _ H). apply in_or_app. right. now left.
  - destruct post as [|ev post] using rev_ind.
    + apply app_inj_tail in Heq as [_ Heq]. injection Heq as ->. auto.
    + exfalso. clear IHpost.
      rewrite app_comm_cons, app_assoc in Heq.
      apply app_inj_tail in Heq as [<- _].
      apply (Hno _ Hpre). apply in_or_app. right. now left.
Qed.

Section RetryRuns.

Variable ENDPOINT : string.
Variable self : DiscoveryApiClient.
Variable cf : json.
Variable h : list pyobj.
Variable rq : loc.
Variable rp : pydict.
Hypothesis Hrq : h !! rq = Some (PyDict rp).
Variable P : pydict -> Prop.
Hypothesis HP : P rp.

(** The retry loop always ends, whatever the server does. *)
Lemma retry_loop_runs fuel : forall n t a response,
  (Z.to_nat (MAX_RETRIES self - a) < fuel)%nat ->
  exists out n' evs,
    retry_loop ENDPOINT fuel self cf rq a response (mkWorld h n t) =
      Some (out, mkWorld h n' (t ++ evs)) /\
    Forall (quiet P) evs.
Proof.
  induction fuel as [|fuel IH]; intros n t a response Hfuel; [lia|].
  rewrite (retry_loop_step ENDPOINT self cf h rq rp Hrq). cbv zeta.
  assert (Hone : Forall (quiet P) [post_event ENDPOINT self cf rp])
    by (repeat constructor; exact HP).
  assert (Hagain : forall response',
    a + 1 <= MAX_RETRIES self ->
    exists out n' evs,
      match sleep_error (_calculate_backoff self (a + 1)) with
      | Some e =>
          Some (Raise e, mkWorld h (S n) (t ++ [post_event ENDPOINT self cf rp]))
      | None =>
          retry_loop ENDPOINT fuel self cf rq (a + 1) response'
            (mkWorld h (S n)
               (t ++ [post_event ENDPOINT self cf rp;
                      EvSleep (_calculate_backoff self (a + 1))]))
      end =
        Some (out, mkWorld h n' (t ++ evs)) /\
      Forall (quiet P) evs).
  { intros response' Ha.
    destruct (sleep_error (_calculate_backoff self (a + 1))) as [e|].
    - exists (Raise e), (S n), [post_event ENDPOINT self cf rp]. auto.
    - destruct (IH (S n) (t ++ [post_event ENDPOINT self cf rp;
                              EvSleep (_calculate_backoff self (a + 1))])
                  (a + 1) response') as (out & n' & evs & Heq & Hevs); [lia|].
      exists out, n', ([post_event ENDPOINT self cf rp;
                        EvSleep (_calculate_backoff self (a + 1))] ++ evs).
      rewrite Heq, <- app_assoc. repeat split; auto.
      apply Forall_app; split; auto. repeat constructor; exact HP. }
  destruct (client self n) as [r|e].
  - destruct (a + 1 <=? MAX_RETRIES self) eqn:Ha; simpl.
    + destruct (status_code r <? 400); simpl.
      * exists (Return (Some r)), (S n), [post_event ENDPOINT self cf rp]. auto.
      * apply Hagain. now apply Z.leb_le.
    + exists (Return (Some r)), (S n), [post_event ENDPOINT self cf rp]. auto.
  - destruct (is_RequestException e).
    + destruct (a + 1 <=? MAX_RETRIES self) eqn:Ha.
      * apply Hagain. now apply Z.leb_le.
      * exists (Raise e), (S n), [post_event ENDPOINT self cf rp]. auto.
    + exists (Raise e), (S n), [post_event ENDPOINT self cf rp]. auto.
Qed.

(** So does a page request; its trace is well formed. *)
Lemma retrieve_runs page n t :
  exists out n' evs,
    _retrieve_metadata_for_content_filter ENDPOINT self cf page rq (mkWorld h n t) =
      Some (out, mkWorld h n' (t ++ evs)) /\
    run_ok P out evs.
Proof.
  unfold _retrieve_metadata_for_content_filter, bind.
  destruct (retry_loop_runs (S (Z.to_nat (MAX_RETRIES self))) n t 0 None)
    as (out & n' & evs & Heq & Hevs).
  { replace (MAX_RETRIES self - 0) with (MAX_RETRIES self) by lia. lia. }
  rewrite Heq. destruct out as [[r|]|e].
  - unfold response_json. destruct (body r) as [e|j]; simpl.
    + exists (Raise e), n', (evs ++ [EvDecodeError e]). rewrite app_assoc.
      split; auto. right. exists evs, e. auto.
    + exists (Return j), n', evs. split; auto. now left.
  - exists (Raise UnboundLocalError), n', evs. split; auto. now left.
  - exists (Raise e), n', evs. split; auto. now left.
Qed.

End RetryRuns.

Lemma search_params_at_next page :
  1 <= page ->
  dict_update (search_params_at page) [("page", JNum (page + 1))] = search_params_at (page + 1).
Proof.
  intros Hp. unfold search_params_at.
  replace (page + 1 =? 1) with false by (symmetry; apply Z.eqb_neq; lia).
  destruct (page =? 1); reflexivity.
Qed.

Section SearchRuns.

Variable ENDPOINT : string.
Variable self : DiscoveryApiClient.
Variable cf : json.

(** Every run of the traversal that ends keeps to the two objects of the
    call and leaves a well-formed trace. *)
Lemma search_fetch_runs fuel : forall page acc n t out w',
  1 <= page ->
  search_fetch ENDPOINT self cf fuel 0%nat 1%nat page
    (frame (search_params_at page) acc n t) = Some (out, w') ->
  exists rp' acc' n' evs,
    w' = frame rp' acc' n' (t ++ evs) /\ run_ok is_search_params out evs.
Proof.
  induction fuel as [|fuel IH]; intros page acc n t out w' Hpage Hrun;
    unfold search_fetch, bind at 1 in Hrun; unfold frame at 1 in Hrun;
    destruct (retrieve_runs ENDPOINT self cf [PyDict (search_params_at page); PyList acc]
                0%nat (search_params_at page) eq_refl is_search_params
                ltac:(exists page; auto) page n t)
      as (out1 & n1 & evs1 & Heq1 & Hok1);
    rewrite Heq1 in Hrun;
    (destruct out1 as [j|e];
     [| injection Hrun as <- <-; exists (search_params_at page), acc, n1, evs1;
        split; [reflexivity | exact (run_ok_raise _ _ _ Hok1)]]);
    apply run_ok_return in Hok1;
    (destruct j as [| | | | |d];
     try (injection Hrun as <- <-; exists (search_params_at page), acc, n1, evs1;
          split; [reflexivity | now left]));
    unfold bind at 1 in Hrun; simpl py_get in Hrun; unfold ret in Hrun;
    unfold bind at 1, iadd in Hrun; simpl in Hrun;
    (destruct (iterate _) as [items|] eqn:Hit;
     [| injection Hrun as <- <-; exists (search_params_at page), acc, n1, evs1;
        split; [reflexivity | now left]]).
  - discriminate.
  - unfold bind at 1 in Hrun. simpl in Hrun.
    destruct (truthy _) eqn:Hnext.
    + unfold bind at 1, update in Hrun. simpl in Hrun.
      change (dict_set (search_params_at page) "page" (JNum (page + 1))) with
        (dict_update (search_params_at page) [("page", JNum (page + 1))]) in Hrun.
      rewrite search_params_at_next in Hrun by exact Hpage.
      apply (IH (page + 1)) in Hrun as (rp' & acc' & n' & evs & -> & Hok); [|lia].
      exists rp', acc', n', (evs1 ++ evs). rewrite app_assoc. split; auto.
      now apply run_ok_app.
    + injection Hrun as <- <-. exists (search_params_at page), (acc ++ items), n1, evs1.
      split; [reflexivity | now left].
Qed.

End SearchRuns.

Section ListRuns.

Variable ENDPOINT : string.
Variable OFFSET_SIZE : Z.
Variable self : DiscoveryApiClient.

Lemma list_params_at_next rp offset i :
  list_params_at OFFSET_SIZE (dict_update rp [("offset", JNum (offset + OFFSET_SIZE))])
    (offset + OFFSET_SIZE) i =
  list_params_at OFFSET_SIZE rp offset (S i).
Proof.
  unfold list_params_at, dict_update; simpl fold_left. destruct i as [|i].
  - f_equal. f_equal. lia.
  - rewrite dict_set_set. f_equal. f_equal. lia.
Qed.

(** Every run of the traversal that ends keeps to the two objects of the
    call; it made some requests, with the parameters of their rank, and a
    failed decode can only be its last event. *)
Lemma courses_fetch_runs fuel : forall default offset rp acc n t out w',
  courses_fetch ENDPOINT OFFSET_SIZE self default fuel 0%nat 1%nat offset
    (frame rp acc n t) = Some (out, w') ->
  exists k acc' tail,
    w' = frame (list_params_at OFFSET_SIZE rp offset k) acc' (n + S k)
           (t ++ map (fun i => get_event ENDPOINT self (list_params_at OFFSET_SIZE rp offset i))
                   (seq 0 (S k)) ++ tail) /\
    (tail = [] \/ exists e, tail = [EvDecodeError e]).
Proof.
  assert (Hstop : forall rp offset acc n t tail,
    tail = [] \/ (exists e, tail = [EvDecodeError e]) ->
    exists k acc' tail',
      frame rp acc (S n) ((t ++ [get_event ENDPOINT self rp]) ++ tail) =
      frame (list_params_at OFFSET_SIZE rp offset k) acc' (n + S k)
        (t ++ map (fun i => get_event ENDPOINT self (list_params_at OFFSET_SIZE rp offset i))
                (seq 0 (S k)) ++ tail') /\
      (tail' = [] \/ exists e, tail' = [EvDecodeError e])).
  { intros rp offset acc n t tail Htail. exists 0%nat, acc, tail.
    split; auto. simpl. now rewrite Nat.add_1_r, <- app_assoc. }
  induction fuel as [|fuel IH]; intros default offset rp acc n t out w' Hrun;
    unfold courses_fetch, bind at 1 in Hrun;
    rewrite retrieve_courses_frame in Hrun;
    (destruct (client self n) as [r|e];
     [| injection Hrun as <- <-;
        rewrite <- (app_nil_r (t ++ [get_event ENDPOINT self rp])); apply Hstop; auto]);
    unfold response_json in Hrun;
    (destruct (body r) as [e|j]; simpl in Hrun;
     [injection Hrun as <- <-; apply Hstop; eauto|]);
    (destruct j as [| | | | |d];
     try (injection Hrun as <- <-;
          rewrite <- (app_nil_r (t ++ [get_event ENDPOINT self rp])); apply Hstop; auto));
    unfold bind at 1 in Hrun; simpl py_get in Hrun; unfold ret in Hrun;
    unfold bind at 1, iadd in Hrun; simpl in Hrun;
    (destruct (iterate _) as [items|] eqn:Hit;
     [| injection Hrun as <- <-;
        rewrite <- (app_nil_r (t ++ [get_event ENDPOINT self rp])); apply Hstop; auto]).
  - discriminate.
  - unfold bind at 1 in Hrun. simpl in Hrun.
    destruct (truthy _) eqn:Hnext.
    + unfold bind at 1, update in Hrun. simpl in Hrun.
      apply IH in Hrun as (k & acc' & tail & -> & Htail).
      exists (S k), acc', tail. split; auto.
      change (dict_set rp "offset" (JNum (offset + OFFSET_SIZE))) with
        (dict_update rp [("offset", JNum (offset + OFFSET_SIZE))]).
      rewrite list_params_at_next.
      replace (S n + S k)%nat with (n + S (S k))%nat by lia.
      f_equal. rewrite <- app_assoc. f_equal.
      cbn [seq map app]. f_equal.
      rewrite <- !seq_shift, !map_map. cbn [map app]. f_equal.
      * now rewrite list_params_at_next.
      * f_equal. apply map_ext. intros i. now rewrite list_params_at_next.
    + injection Hrun as <- <-.
      rewrite <- (app_nil_r (t ++ [get_event ENDPOINT self rp])). apply Hstop; auto.
Qed.

End ListRuns.

(** ** Failing pages of the search *)

Lemma post_count_search_walk ENDPOINT self cf k : forall rp page,
  post_count (snd (search_walk ENDPOINT self cf rp page k)) = Z.of_nat k.
Proof.
  induction k as [|k IH]; intros rp page; [reflexivity|].
  cbn [search_walk]. specialize (IH (dict_update rp [("page", JNum (page + 1))]) (page + 1)).
  destruct (search_walk _ _ _ _ _ _) as [rp' evs]. simpl in *. lia.
Qed.

Lemma sleeps_search_walk ENDPOINT self cf k : forall rp page,
  sleeps (snd (search_walk ENDPOINT self cf rp page k)) = [].
Proof.
  induction k as [|k IH]; intros rp page; [reflexivity|].
  cbn [search_walk]. specialize (IH (dict_update rp [("page", JNum (page + 1))]) (page + 1)).
  destruct (search_walk _ _ _ _ _ _) as [rp' evs]. exact IH.
Qed.

Lemma search_retrieve_raises ENDPOINT self cf page rp acc n t e :
  client self n = Fails e -> is_RequestException e = false ->
  _retrieve_metadata_for_content_filter ENDPOINT self cf page 0%nat (frame rp acc n t) =
  Some (Raise e, frame rp acc (S n) (t ++ [post_event ENDPOINT self cf rp])).
Proof.
  exact (retrieve_first_raises ENDPOINT self cf [PyDict rp; PyList acc] 0%nat rp eq_refl
           page n t e).
Qed.

(** What a page request gives on the two objects of the call when all its
    attempts fail. *)
Lemma search_retrieve_all_fail ENDPOINT self cf page rp acc n t :
  0 <= MAX_RETRIES self -> backoffs_sleep self (MAX_RETRIES self) ->
  (forall i, (i <= Z.to_nat (MAX_RETRIES self))%nat ->
             attempt_fails (client self (n + i)) = true) ->
  let m := Z.to_nat (MAX_RETRIES self) in
  let w' := frame rp acc (S (n + m)) (t ++ retry_events ENDPOINT self cf rp 0 m) in
  _retrieve_metadata_for_content_filter ENDPOINT self cf page 0%nat (frame rp acc n t) =
  match client self (n + m) with
  | Fails e => Some (Raise e, w')
  | Responds r => response_json r w'
  end.
Proof.
  intros HM HB Hfail.
  exact (retrieve_all_fail ENDPOINT self cf [PyDict rp; PyList acc] 0%nat rp eq_refl
           page n t HM HB Hfail).
Qed.

(** ** Best-effort traversal of the list endpoints *)

Section ListCalls.

Variable ENDPOINT : string.
Variable OFFSET_SIZE : Z.
Variable self : DiscoveryApiClient.

(** A call that ends returns its list; it made some requests, with the
    parameters of their rank. *)
Lemma courses_call_runs fuel rp n t res :
  courses_call ENDPOINT OFFSET_SIZE self fuel 0%nat 1%nat (frame rp [] n t) = Some res ->
  exists k l tail,
    res = (Return l,
           frame (list_params_at OFFSET_SIZE rp 0 k) l (n + S k)
             (t ++ map (fun i => get_event ENDPOINT self (list_params_at OFFSET_SIZE rp 0 i))
                     (seq 0 (S k)) ++ tail)) /\
    (tail = [] \/ exists e, tail = [EvDecodeError e]).
Proof.
  unfold courses_call, bind at 1, try_except. intros Hrun.
  destruct (courses_fetch ENDPOINT OFFSET_SIZE self JNull fuel 0%nat 1%nat 0 (frame rp [] n t))
    as [[out w1]|] eqn:Hfetch; [|discriminate].
  apply courses_fetch_runs in Hfetch as (k & acc' & tail & -> & Htail).
  exists k, acc', tail. split; auto.
  destruct out as [[]|e]; [|destruct e]; simpl in Hrun; now injection Hrun as <-.
Qed.



(** The first page has no ['results']: nothing is returned. *)
Lemma courses_call_no_results d fuel rp n t :
  serves_body self n d ->
  dict_get d "results" = None ->
  exists w',
    courses_call ENDPOINT OFFSET_SIZE self fuel 0%nat 1%nat (frame rp [] n t) =
    Some (Return [], w') /\ served w' = S n.
Proof.
  intros (r & Hc & Hb) Hd.
  unfold courses_call, bind at 1, try_except, courses_fetch, bind at 1.
  rewrite retrieve_courses_frame, Hc. unfold response_json. rewrite Hb.
  unfold bind at 1. simpl py_get. rewrite Hd. unfold ret.
  unfold bind at 1, iadd. simpl. eexists. split; reflexivity.
Qed.

(** A complete traversal. *)
Lemma courses_call_complete ds dl items fuel rp n t :
  serves_bodies self n (ds ++ [dl]) ->
  Forall (fun d => has_next d = true) ds ->
  has_next dl = false ->
  pages_items JNull (ds ++ [dl]) = Some items ->
  (length ds < fuel)%nat ->
  exists w',
    courses_call ENDPOINT OFFSET_SIZE self fuel 0%nat 1%nat (frame rp [] n t) =
    Some (Return items, w') /\ served w' = (n + S (length ds))%nat.
Proof.
  intros Hsrv Hnext Hlast Hit Hfuel.
  apply serves_bodies_app in Hsrv as [Hsrv [Hsl _]].
  assert (Hsplit : forall default items,
            pages_items default (ds ++ [dl]) = Some items ->
            exists a b, pages_items default ds = Some a /\
              page_items_or (match ds with [] => default | _ => JList [] end) dl = Some b /\
              items = a ++ b).
  { clear. induction ds as [|d ds IH]; intros default items Hit; simpl in *.
    - destruct (page_items_or default dl) as [b|]; [|discriminate].
      injection Hit as <-. exists [], b. now rewrite app_nil_r.
    - destruct (page_items_or default d) as [a|]; [|discriminate].
      destruct (pages_items (JList []) (ds ++ [dl])) as [c|] eqn:Hc; [|discriminate].
      injection Hit as <-.
      destruct (IH (JList []) c Hc) as (a' & b & Ha' & Hb & ->).
      rewrite Ha'. exists (a ++ a'), b. rewrite app_assoc. repeat split; auto.
      destruct ds; exact Hb. }
  apply Hsplit in Hit. clear Hsplit.
  change (match ds with [] => JNull | _ => JList [] end) with (default_after ds) in Hit.
  rename Hit into Hsplit.
  destruct Hsplit as (a & b & Ha & Hb & ->).
  destruct fuel as [|f]; [lia|].
  replace (S f) with (length ds + S (f - length ds))%nat by lia.
  unfold courses_call, bind at 1, try_except.
  rewrite (courses_fetch_prefix ENDPOINT OFFSET_SIZE self ds a); auto.
  rewrite (courses_fetch_last ENDPOINT OFFSET_SIZE self _ _ _ _ _ _ _ dl b); auto.
  simpl. eexists. split; [reflexivity|simpl; lia].
Qed.

End ListCalls.

Lemma next_chain_split ds : forall d0,
  next_chain d0 ds ->
  exists ds' dl, d0 :: ds = ds' ++ [dl] /\ length ds' = length ds /\
    Forall (fun d => has_next d = true) ds' /\ has_next dl = false.
Proof.
  induction ds as [|d ds IH]; intros d0 H; simpl in H.
  - exists [], d0. auto.
  - destruct H as [H0 H]. destruct (IH d H) as (ds' & dl & Heq & Hlen & Hn & Hl).
    exists (d0 :: ds'), dl.
    split; [simpl; now rewrite Heq|]. split; [simpl; now rewrite Hlen|].
    split; [constructor; auto | auto].
Qed.

Lemma pages_items_or_missing ds : forall rss,
  Forall2 (fun d rs => dict_get d "results" = Some (JList rs) \/
                       (dict_get d "results" = None /\ rs = [])) ds rss ->
  pages_items (JList []) ds = Some (concat rss).
Proof.
  induction ds as [|d ds IH]; intros rss H; inversion H as [|? rs ? rss' Hd Hrest]; subst; auto.
  simpl. rewrite (IH rss' Hrest). unfold page_items_or.
  destruct Hd as [-> | [-> ->]]; reflexivity.
Qed.

(** ** Every run of the search *)

Lemma run_ok_post {A} P (out : outcome A) evs endpoint jb p timeout :
  run_ok P out evs -> In (EvPost endpoint jb p timeout) evs -> P p.
Proof.
  assert (HF : forall l, Forall (quiet P) l -> In (EvPost endpoint jb p timeout) l -> P p).
  { intros l Hl Hin. rewrite Forall_forall in Hl.
    apply (Hl (EvPost endpoint jb p timeout)). now apply list_elem_of_In. }
  intros [H|(pre & e & -> & Hpre & _)] Hin; [eauto|].
  apply in_app_or in Hin as [Hin|[Hin|[]]]; [eauto|discriminate].
Qed.

Lemma search_call_runs ENDPOINT self cf fuel n t out w' :
  search_call ENDPOINT self cf fuel 0%nat 1%nat (frame search_params [] n t)
    = Some (out, w') ->
  exists rp' acc' n' evs,
    w' = frame rp' acc' n' (t ++ evs) /\ run_ok is_search_params out evs.
Proof.
  unfold search_call, bind at 1, try_except. intros Hrun.
  destruct (search_fetch ENDPOINT self cf fuel 0%nat 1%nat 1 (frame search_params [] n t))
    as [[out1 w1]|] eqn:Hfetch; [|discriminate].
  apply (search_fetch_runs ENDPOINT self cf fuel 1 [] n t out1 w1 ltac:(lia)) in Hfetch
    as (rp' & acc' & n' & evs & -> & Hok).
  exists rp', acc', n', evs.
  destruct out1 as [[]|e]; simpl in Hrun; injection Hrun as <- <-; split; auto.
  - left. now apply run_ok_return in Hok.
  - exact (run_ok_raise _ _ _ Hok).
Qed.

Lemma get_metadata_by_query_runs ENDPOINT fuel self cq w out w' :
  get_metadata_by_query ENDPOINT fuel self cq w = Some (out, w') ->
  exists rp' acc' evs,
    heap w' = heap w ++ [PyDict rp'; PyList acc'] /\
    trace w' = trace w ++ evs /\
    run_ok is_search_params out evs.
Proof.
  rewrite get_metadata_by_query_run. intros Hrun.
  destruct (search_call _ _ _ _ _ _ _) as [[out1 w1]|] eqn:Hcall; [|discriminate].
  apply search_call_runs in Hcall as (rp' & acc' & n' & evs & -> & Hok).
  simpl in Hrun. injection Hrun as <- <-. exists rp', acc', evs. auto.
Qed.

(** ** Request parameters *)

Lemma list_params_at_other OFFSET_SIZE rp offset i k :
  k <> "offset" -> dict_get (list_params_at OFFSET_SIZE rp offset i) k = dict_get rp k.
Proof.
  intros Hk. destruct i; simpl; auto. apply dict_get_set_ne. congruence.
Qed.

(** The requests of a list call, in the order they were made. *)
Lemma get_list_runs ENDPOINT OFFSET_SIZE self fuel rp (w : world) out w' :
  lift (heap w) (courses_call ENDPOINT OFFSET_SIZE self fuel 0%nat 1%nat
                   (frame rp [] (served w) (trace w))) = Some (out, w') ->
  exists k l tail,
    out = Return l /\
    heap w' = heap w ++ [PyDict (list_params_at OFFSET_SIZE rp 0 k); PyList l] /\
    served w' = (served w + S k)%nat /\
    trace w' =
      trace w ++ map (fun i => EvGet ENDPOINT (list_params_at OFFSET_SIZE rp 0 i)
                                 (HTTP_TIMEOUT self)) (seq 0 (S k)) ++ tail /\
    (tail = [] \/ exists e, tail = [EvDecodeError e]).
Proof.
  intros Hrun.
  destruct (courses_call _ _ _ _ _ _ _) as [res|] eqn:Hcall; [|discriminate].
  apply courses_call_runs in Hcall as (k & l & tail & -> & Htail).
  simpl in Hrun. injection Hrun as <- <-. exists k, l, tail. auto.
Qed.

(** ** Independence of calls *)

Lemma lift_inv {A} h (x : option (outcome A * world)) out w' :
  lift h x = Some (out, w') -> exists w1, x = Some (out, w1) /\ w' = rebase h w1.
Proof.
  destruct x as [[o w1]|]; simpl; [|discriminate].
  intros H. injection H as <- <-. eauto.
Qed.

Lemma caller_dict_app h h' query_params extra :
  caller_dict h query_params = Some extra ->
  caller_dict (h ++ h') query_params = Some extra.
Proof.
  destruct query_params as [q|]; simpl; auto.
  destruct (h !! q) as [o|] eqn:Hq; [|discriminate].
  now rewrite (lookup_app_l_Some _ _ _ _ Hq).
Qed.

(** ** More on the retry loop *)

Lemma total_app l1 l2 : total (l1 ++ l2) = total l1 + total l2.
Proof. unfold total. induction l1 as [|x l1 IH]; simpl; lia. Qed.

Lemma get_count_app t1 t2 : get_count (t1 ++ t2) = (get_count t1 + get_count t2)%nat.
Proof. induction t1 as [|[] t1 IH]; simpl; auto; lia. Qed.

Section RetryMore.

Variable ENDPOINT : string.
Variable self : DiscoveryApiClient.
Variable cf : json.
Variable h : list pyobj.
Variable rq : loc.
Variable rp : pydict.
Hypothesis Hrq : h !! rq = Some (PyDict rp).

(** [f] failed attempts, then a response with a status below 400: the loop
    ends on it. *)
Lemma retry_loop_recovers (f : nat) : forall fuel n t a response r,
  backoffs_sleep self (a + Z.of_nat f) -> 0 <= a ->
  a + Z.of_nat f <= MAX_RETRIES self ->
  (f < fuel)%nat ->
  (forall i, (i < f)%nat -> attempt_fails (client self (n + i)) = true) ->
  client self (n + f) = Responds r -> status_code r < 400 ->
  retry_loop ENDPOINT fuel self cf rq a response (mkWorld h n t) =
  Some (Return (Some r),
        mkWorld h (S (n + f)) (t ++ retry_events ENDPOINT self cf rp a f)).
Proof.
  induction f as [|f IH]; intros fuel n t a response r HB Ha Hf Hfuel Hfail Hc Hs;
    (destruct fuel as [|fuel]; [lia|]).
  - rewrite Nat.add_0_r in *.
    now rewrite (retry_loop_first_ok ENDPOINT self cf h rq rp Hrq fuel n t a response r).
  - rewrite (retry_loop_step ENDPOINT self cf h rq rp Hrq); cbv zeta.
    pose proof (Hfail 0%nat ltac:(lia)) as H0. rewrite Nat.add_0_r in H0.
    replace (a + 1 <=? MAX_RETRIES self) with true by (symmetry; apply Z.leb_le; lia).
    rewrite (backoff_sleeps self a (a + Z.of_nat (S f)))
      by (auto; lia).
    assert (Hrec : forall response',
      retry_loop ENDPOINT fuel self cf rq (a + 1) response'
        (mkWorld h (S n)
           (t ++ [post_event ENDPOINT self cf rp;
                  EvSleep (_calculate_backoff self (a + 1))])) =
      Some (Return (Some r),
            mkWorld h (S (n + S f)) (t ++ retry_events ENDPOINT self cf rp a (S f)))).
    { intros response'.
      rewrite (IH fuel (S n) _ (a + 1) response' r); auto; try lia.
      - replace (S n + f)%nat with (n + S f)%nat by lia.
        simpl retry_events. now rewrite <- app_assoc.
      - now replace (a + 1 + Z.of_nat f) with (a + Z.of_nat (S f)) by lia.
      - intros i Hi. replace (S n + i)%nat with (n + S i)%nat by lia.
        apply Hfail. lia.
      - now replace (S n + f)%nat with (n + S f)%nat by lia. }
    destruct (client self n) as [r0|e]; simpl in H0.
    + replace (status_code r0 <? 400) with false
        by (symmetry; apply Z.ltb_ge; apply Z.leb_le; auto).
      simpl. apply Hrec.
    + rewrite H0. apply Hrec.
Qed.

Lemma retrieve_recovers page (f : nat) n t r :
  backoffs_sleep self (Z.of_nat f) ->
  Z.of_nat f <= MAX_RETRIES self ->
  (forall i, (i < f)%nat -> attempt_fails (client self (n + i)) = true) ->
  client self (n + f) = Responds r -> status_code r < 400 ->
  _retrieve_metadata_for_content_filter ENDPOINT self cf page rq (mkWorld h n t) =
  response_json r (mkWorld h (S (n + f)) (t ++ retry_events ENDPOINT self cf rp 0 f)).
Proof.
  intros HB Hf Hfail Hc Hs. unfold _retrieve_metadata_for_content_filter, bind.
  rewrite (retry_loop_recovers f _ n t 0 None r); auto; lia.
Qed.

(** Whatever the server does, the loop ends; it makes at least one
    request and at most one per attempt that is left, sleeps only between
    two requests, and every sleep is the back-off of a failed attempt. *)
Lemma retry_loop_bounded fuel : forall n t a response,
  (Z.to_nat (MAX_RETRIES self - a) < fuel)%nat ->
  exists out evs,
    retry_loop ENDPOINT fuel self cf rq a response (mkWorld h n t) =
      Some (out, mkWorld h (n + Z.to_nat (post_count evs)) (t ++ evs)) /\
    1 <= post_count evs <= Z.max 1 (MAX_RETRIES self - a + 1) /\
    Z.of_nat (length (sleeps evs)) < post_count evs /\
    Forall (retry_event ENDPOINT self cf rp a) evs.
Proof.
  induction fuel as [|fuel IH]; intros n t a response Hfuel; [lia|].
  rewrite (retry_loop_step ENDPOINT self cf h rq rp Hrq). cbv zeta.
  assert (Hone : forall out : outcome (option Response),
    exists out' evs,
      Some (out, mkWorld h (S n) (t ++ [post_event ENDPOINT self cf rp])) =
        Some (out', mkWorld h (n + Z.to_nat (post_count evs)) (t ++ evs)) /\
      1 <= post_count evs <= Z.max 1 (MAX_RETRIES self - a + 1) /\
      Z.of_nat (length (sleeps evs)) < post_count evs /\
      Forall (retry_event ENDPOINT self cf rp a) evs).
  { intros out. exists out, [post_event ENDPOINT self cf rp]. simpl.
    replace (n + Z.to_nat (1 + 0))%nat with (S n) by lia.
    repeat split; try lia. repeat constructor. }
  assert (Hagain : forall response',
    a + 1 <= MAX_RETRIES self ->
    exists out evs,
      match sleep_error (_calculate_backoff self (a + 1)) with
      | Some e =>
          Some (Raise e, mkWorld h (S n) (t ++ [post_event ENDPOINT self cf rp]))
      | None =>
          retry_loop ENDPOINT fuel self cf rq (a + 1) response'
            (mkWorld h (S n)
               (t ++ [post_event ENDPOINT self cf rp;
                      EvSleep (_calculate_backoff self (a + 1))]))
      end =
        Some (out, mkWorld h (n + Z.to_nat (post_count evs)) (t ++ evs)) /\
      1 <= post_count evs <= Z.max 1 (MAX_RETRIES self - a + 1) /\
      Z.of_nat (length (sleeps evs)) < post_count evs /\
      Forall (retry_event ENDPOINT self cf rp a) evs).
  { intros response' Ha.
    destruct (sleep_error (_calculate_backoff self (a + 1))); [apply Hone|].
    destruct (IH (S n) (t ++ [post_event ENDPOINT self cf rp;
                              EvSleep (_calculate_backoff self (a + 1))])
                (a + 1) response') as (out & evs & Heq & Hpc & Hsl & Hevs); [lia|].
    exists out, ([post_event ENDPOINT self cf rp;
                  EvSleep (_calculate_backoff self (a + 1))] ++ evs).
    rewrite Heq, <- app_assoc. simpl.
    replace (n + Z.to_nat (1 + post_count evs))%nat
      with (S n + Z.to_nat (post_count evs))%nat by lia.
    repeat split; try lia.
    constructor; [now left|].
    constructor; [right; exists (a + 1); split; [lia|reflexivity]|].
    eapply Forall_impl; [exact Hevs|].
    intros ev [Hev|(k & Hk & Hev)]; [now left|right; exists k; split; [lia|exact Hev]]. }
  destruct (client self n) as [r|e].
  - destruct (a + 1 <=? MAX_RETRIES self) eqn:Ha; simpl; [|apply Hone].
    destruct (status_code r <? 400); simpl; [apply Hone|].
    apply Hagain. now apply Z.leb_le.
  - destruct (is_RequestException e); [|apply Hone].
    destruct (a + 1 <=? MAX_RETRIES self) eqn:Ha; [|apply Hone].
    apply Hagain. now apply Z.leb_le.
Qed.

Lemma retrieve_bounded page n t :
  exists out evs,
    _retrieve_metadata_for_content_filter ENDPOINT self cf page rq (mkWorld h n t) =
      Some (out, mkWorld h (n + Z.to_nat (post_count evs)) (t ++ evs)) /\
    1 <= post_count evs <= Z.max 1 (MAX_RETRIES self + 1) /\
    Z.of_nat (length (sleeps evs)) < post_count evs /\
    (exists evs' tail,
       evs = evs' ++ tail /\ Forall (retry_event ENDPOINT self cf rp 0) evs' /\
       (tail = [] \/ exists e, tail = [EvDecodeError e] /\ out = Raise e)).
Proof.
  unfold _retrieve_metadata_for_content_filter, bind.
  destruct (retry_loop_bounded (S (Z.to_nat (MAX_RETRIES self))) n t 0 None)
    as (out & evs & Heq & Hpc & Hsl & Hevs).
  { replace (MAX_RETRIES self - 0) with (MAX_RETRIES self) by lia. lia. }
  replace (MAX_RETRIES self - 0 + 1) with (MAX_RETRIES self + 1) in Hpc by lia.
  rewrite Heq.
  assert (Hplain : forall out' : outcome json,
    exists out'' evs0,
      Some (out', mkWorld h (n + Z.to_nat (post_count evs)) (t ++ evs)) =
        Some (out'', mkWorld h (n + Z.to_nat (post_count evs0)) (t ++ evs0)) /\
      1 <= post_count evs0 <= Z.max 1 (MAX_RETRIES self + 1) /\
      Z.of_nat (length (sleeps evs0)) < post_count evs0 /\
      (exists evs' tail,
         evs0 = evs' ++ tail /\ Forall (retry_event ENDPOINT self cf rp 0) evs' /\
         (tail = [] \/ exists e, tail = [EvDecodeError e] /\ out'' = Raise e))).
  { intros out'. exists out', evs. repeat split; try lia.
    exists evs, []. rewrite app_nil_r. auto. }
  destruct out as [[r|]|e]; try apply Hplain.
  unfold response_json. destruct (body r) as [e|j]; simpl; [|apply Hplain].
  exists (Raise e), (evs ++ [EvDecodeError e]).
  rewrite post_count_app, sleeps_app, app_assoc. simpl.
  rewrite app_nil_r, Z.add_0_r. repeat split; try lia.
  exists evs, [EvDecodeError e]. repeat split; auto. right. eauto.
Qed.

End RetryMore.

Lemma total_backoffs self (m : nat) : forall a,
  0 <= a ->
  total (map (fun i => _calculate_backoff self (a + 1 + Z.of_nat i)) (seq 0 m)) =
  BACKOFF_FACTOR self * 2 ^ a * (2 ^ Z.of_nat m - 1).
Proof.
  induction m as [|m IH]; intros a Ha.
  - simpl. lia.
  - cbn [seq map]. unfold total in *. cbn [fold_right].
    rewrite <- seq_shift, map_map.
    erewrite map_ext; [rewrite (IH (a + 1)) by lia|intros i; simpl; f_equal; lia].
    unfold _calculate_backoff.
    replace (a + 1 + Z.of_nat 0 - 1) with a by lia.
    replace (a + 1) with (Z.succ a) by lia.
    rewrite Nat2Z.inj_succ, !Z.pow_succ_r by lia. ring.
Qed.

Lemma backoffs_sleeps ENDPOINT self cf rp (m : nat) a :
  sleeps (retry_events ENDPOINT self cf rp a m) = backoffs self a m.
Proof. apply sleeps_retry_events. Qed.

Lemma total_backoffs_from_0 self (m : nat) :
  total (backoffs self 0 m) = BACKOFF_FACTOR self * (2 ^ Z.of_nat m - 1).
Proof.
  unfold backoffs. rewrite total_backoffs by lia.
  change (2 ^ 0) with 1. ring.
Qed.

Section RetryEnds.

Variable ENDPOINT : string.
Variable self : DiscoveryApiClient.
Variable cf : json.
Variable h : list pyobj.
Variable rq : loc.
Variable rp : pydict.
Hypothesis Hrq : h !! rq = Some (PyDict rp).
Hypothesis HB : backoffs_sleep self (MAX_RETRIES self).

(** The loop ends on the first attempt that does not fail, or on the
    last attempt that is allowed, with the outcome of that attempt. *)
Lemma retry_loop_ends fuel : forall n t a response,
  0 <= a ->
  (Z.to_nat (MAX_RETRIES self - a) < fuel)%nat ->
  exists f : nat,
    retry_loop ENDPOINT fuel self cf rq a response (mkWorld h n t) =
      Some (loop_outcome (client self (n + f)),
            mkWorld h (S (n + f)) (t ++ retry_events ENDPOINT self cf rp a f)) /\
    (forall i, (i < f)%nat -> attempt_fails (client self (n + i)) = true) /\
    (f = 0%nat \/ a + Z.of_nat f <= MAX_RETRIES self) /\
    (attempt_fails (client self (n + f)) = false \/ MAX_RETRIES self <= a + Z.of_nat f).
Proof.
  induction fuel as [|fuel IH]; intros n t a response Ha Hfuel; [lia|].
  rewrite (retry_loop_step ENDPOINT self cf h rq rp Hrq). cbv zeta.
  assert (Hagain : forall response',
    a + 1 <= MAX_RETRIES self ->
    attempt_fails (client self n) = true ->
    exists f : nat,
      match sleep_error (_calculate_backoff self (a + 1)) with
      | Some e =>
          Some (Raise e, mkWorld h (S n) (t ++ [post_event ENDPOINT self cf rp]))
      | None =>
          retry_loop ENDPOINT fuel self cf rq (a + 1) response'
            (mkWorld h (S n)
               (t ++ [post_event ENDPOINT self cf rp;
                      EvSleep (_calculate_backoff self (a + 1))]))
      end =
        Some (loop_outcome (client self (n + f)),
              mkWorld h (S (n + f)) (t ++ retry_events ENDPOINT self cf rp a f)) /\
      (forall i, (i < f)%nat -> attempt_fails (client self (n + i)) = true) /\
      (f = 0%nat \/ a + Z.of_nat f <= MAX_RETRIES self) /\
      (attempt_fails (client self (n + f)) = false \/ MAX_RETRIES self <= a + Z.of_nat f)).
  { intros response' Hle Hfail.
    rewrite (backoff_sleeps self a (MAX_RETRIES self)) by auto.
    destruct (IH (S n) (t ++ [post_event ENDPOINT self cf rp;
                              EvSleep (_calculate_backoff self (a + 1))])
                (a + 1) response') as (f & Heq & Hfails & Hmax & Hstop); [lia|lia|].
    exists (S f). replace (n + S f)%nat with (S n + f)%nat by lia.
    rewrite Heq. cbn [retry_events]. rewrite <- app_assoc. cbn [app].
    repeat split; auto.
    - intros [|i] Hi; [now rewrite Nat.add_0_r|].
      replace (n + S i)%nat with (S n + i)%nat by lia. apply Hfails. lia.
    - right. destruct Hmax as [->|Hmax]; lia.
    - destruct Hstop as [Hstop|Hstop]; [now left|right; lia]. }
  destruct (client self n) as [r|e] eqn:Hc.
  - destruct (a + 1 <=? MAX_RETRIES self) eqn:Hle; simpl.
    + destruct (status_code r <? 400) eqn:Hs; simpl.
      * exists 0%nat. rewrite Nat.add_0_r, Hc. simpl.
        split; [reflexivity|]. split; [intros i Hi; lia|]. split; [now left|].
        left. apply Z.leb_gt. now apply Z.ltb_lt.
      * apply Hagain; [now apply Z.leb_le|]. simpl.
        apply Z.leb_le. now apply Z.ltb_ge.
    + exists 0%nat. rewrite Nat.add_0_r, Hc. simpl.
      split; [reflexivity|]. split; [intros i Hi; lia|]. split; [now left|].
      right. apply Z.leb_gt in Hle. lia.
  - destruct (is_RequestException e) eqn:He.
    + destruct (a + 1 <=? MAX_RETRIES self) eqn:Hle.
      * apply Hagain; [now apply Z.leb_le|exact He].
      * exists 0%nat. rewrite Nat.add_0_r, Hc. simpl.
        split; [reflexivity|]. split; [intros i Hi; lia|]. split; [now left|].
        right. apply Z.leb_gt in Hle. lia.
    + exists 0%nat. rewrite Nat.add_0_r, Hc. simpl.
      split; [reflexivity|]. split; [intros i Hi; lia|]. split; [now left|].
      now left.
Qed.

Lemma retrieve_ends page n t :
  exists f : nat,
    _retrieve_metadata_for_content_filter ENDPOINT self cf page rq (mkWorld h n t) =
      Some (attempt_outcome (client self (n + f)),
            mkWorld h (S (n + f))
              (t ++ retry_events ENDPOINT self cf rp 0 f ++
               decode_events (client self (n + f)))) /\
    (forall i, (i < f)%nat -> attempt_fails (client self (n + i)) = true) /\
    (f = 0%nat \/ Z.of_nat f <= MAX_RETRIES self) /\
    (attempt_fails (client self (n + f)) = false \/ MAX_RETRIES self <= Z.of_nat f).
Proof.
  unfold _retrieve_metadata_for_content_filter, bind.
  destruct (retry_loop_ends (S (Z.to_nat (MAX_RETRIES self))) n t 0 None)
    as (f & Heq & Hfails & Hmax & Hstop); [lia| |].
  { replace (MAX_RETRIES self - 0) with (MAX_RETRIES self) by lia. lia. }
  exists f. rewrite Heq. rewrite !Z.add_0_l in *.
  repeat split; auto.
  destruct (client self (n + f)) as [r|e]; simpl.
  - unfold response_json. destruct (body r) as [e|j]; simpl.
    + now rewrite app_assoc.
    + now rewrite app_nil_r.
  - now rewrite app_nil_r.
Qed.

End RetryEnds.

(** ** The search over pages served after retries *)

Lemma script_requests_app s1 s2 :
  script_requests (s1 ++ s2) = (script_requests s1 + script_requests s2)%nat.
Proof. induction s1 as [|[f d] s1 IH]; simpl; lia. Qed.

Lemma script_events_app ENDPOINT self cf s1 : forall page s2,
  script_events ENDPOINT self cf page (s1 ++ s2) =
  script_events ENDPOINT self cf page s1 ++
  script_events ENDPOINT self cf (page + Z.of_nat (length s1)) s2.
Proof.
  induction s1 as [|[f d] s1 IH]; intros page s2.
  - simpl. now rewrite Z.add_0_r.
  - cbn [app script_events length]. rewrite IH, <- app_assoc.
    now replace (page + 1 + Z.of_nat (length s1)) with (page + Z.of_nat (S (length s1))) by lia.
Qed.

Lemma script_sleeps_app self s1 s2 :
  script_sleeps self (s1 ++ s2) = script_sleeps self s1 ++ script_sleeps self s2.
Proof.
  induction s1 as [|[f d] s1 IH]; simpl; auto. now rewrite IH, app_assoc.
Qed.

Lemma serves_script_app self s1 : forall n s2,
  serves_script self n (s1 ++ s2) <->
  serves_script self n s1 /\ serves_script self (n + script_requests s1) s2.
Proof.
  induction s1 as [|[f d] s1 IH]; intros n s2; simpl.
  - rewrite Nat.add_0_r. tauto.
  - rewrite IH.
    replace (n + S f + script_requests s1)%nat with (n + S (f + script_requests s1))%nat by lia.
    tauto.
Qed.

Lemma post_count_script_events ENDPOINT self cf script : forall page,
  post_count (script_events ENDPOINT self cf page script) = Z.of_nat (script_requests script).
Proof.
  induction script as [|[f d] script IH]; intros page; [reflexivity|].
  cbn [script_events script_requests]. rewrite post_count_app, post_count_retry_events, IH. lia.
Qed.

Lemma sleeps_script_events ENDPOINT self cf script : forall page,
  sleeps (script_events ENDPOINT self cf page script) = script_sleeps self script.
Proof.
  induction script as [|[f d] script IH]; intros page; [reflexivity|].
  cbn [script_events script_sleeps]. now rewrite sleeps_app, backoffs_sleeps, IH.
Qed.

Lemma total_script_sleeps self script :
  total (script_sleeps self script) =
  total (map (fun fd => BACKOFF_FACTOR self * (2 ^ Z.of_nat (fst fd) - 1)) script).
Proof.
  induction script as [|[f d] script IH]; [reflexivity|].
  cbn [script_sleeps map fst]. rewrite total_app, total_backoffs_from_0, IH. reflexivity.
Qed.

Section SearchScript.

Variable ENDPOINT : string.
Variable self : DiscoveryApiClient.
Variable cf : json.
Hypothesis HB : backoffs_sleep self (MAX_RETRIES self).

(** Fetching one page that is served after [f] failed attempts. *)
Lemma search_fetch_page_after fuel page rp acc n t f d items :
  Z.of_nat f <= MAX_RETRIES self ->
  serves_after self n f d ->
  page_items d = Some items ->
  search_fetch ENDPOINT self cf fuel 0%nat 1%nat page (frame rp acc n t) =
  search_pages ENDPOINT fuel self cf 0%nat 1%nat page (JDict d)
    (frame rp (acc ++ items) (S (n + f)) (t ++ retry_events ENDPOINT self cf rp 0 f)).
Proof.
  unfold page_items, page_items_or. intros Hf [Hfail (r & Hc & Hs & Hb)] Hit.
  unfold search_fetch, bind at 1. unfold frame at 1.
  rewrite (retrieve_recovers ENDPOINT self cf [PyDict rp; PyList acc] 0%nat rp eq_refl
             page f n t r (backoffs_sleep_le self _ _ HB Hf) Hf Hfail Hc Hs).
  unfold response_json. rewrite Hb. simpl.
  unfold bind at 1. simpl. unfold bind at 1, iadd. simpl. rewrite Hit. reflexivity.
Qed.

Lemma search_fetch_script (script : list (nat * pydict)) : forall rss fuel page acc n t,
  1 <= page ->
  Forall (fun fd => Z.of_nat (fst fd) <= MAX_RETRIES self) script ->
  serves_script self n script ->
  Forall (fun fd => has_next (snd fd) = true) script ->
  Forall2 (fun fd rs => page_items (snd fd) = Some rs) script rss ->
  search_fetch ENDPOINT self cf (length script + fuel) 0%nat 1%nat page
    (frame (search_params_at page) acc n t) =
  search_fetch ENDPOINT self cf fuel 0%nat 1%nat (page + Z.of_nat (length script))
    (frame (search_params_at (page + Z.of_nat (length script))) (acc ++ concat rss)
       (n + script_requests script) (t ++ script_events ENDPOINT self cf page script)).
Proof.
  induction script as [|[f d] script IH]; intros rss fuel page acc n t Hpage Hmax Hsrv Hnext Hres.
  - inversion Hres; subst. simpl.
    now rewrite Z.add_0_r, Nat.add_0_r, !app_nil_r.
  - inversion Hres as [|? rs ? rss' Hd Hres']; subst.
    inversion Hnext as [|? ? Hn Hnext']; subst.
    inversion Hmax as [|? ? Hf Hmax']; subst.
    destruct Hsrv as [Hsd Hsrv]. cbn [fst snd] in *.
    cbn [length Nat.add].
    rewrite (search_fetch_page_after _ page _ acc n t f d rs Hf Hsd Hd).
    rewrite search_pages_next by exact Hn.
    unfold bind at 1. rewrite update_frame.
    rewrite search_params_at_next by exact Hpage.
    rewrite (IH rss' fuel (page + 1)); auto; [|lia|].
    + cbn [script_events script_requests concat].
      rewrite <- !app_assoc.
      replace (page + 1 + Z.of_nat (length script))
        with (page + Z.of_nat (S (length script))) by lia.
      replace (S (n + f) + script_requests script)%nat
        with (n + (S f + script_requests script))%nat by lia.
      reflexivity.
    + now replace (S (n + f)) with (n + S f)%nat by lia.
Qed.

Lemma search_fetch_last_after fuel page rp acc n t f d rs :
  Z.of_nat f <= MAX_RETRIES self ->
  serves_after self n f d -> has_next d = false -> page_items d = Some rs ->
  search_fetch ENDPOINT self cf (S fuel) 0%nat 1%nat page (frame rp acc n t) =
  Some (Return tt,
        frame rp (acc ++ rs) (S (n + f)) (t ++ retry_events ENDPOINT self cf rp 0 f)).
Proof.
  intros Hf Hs Hn Hd. rewrite (search_fetch_page_after _ page rp acc n t f d rs Hf Hs Hd).
  now rewrite search_pages_last.
Qed.

(** A whole call over a script in which the last page alone announces no
    next page. *)
Lemma search_call_script script fl dl rss fuel n t :
  let whole := script ++ [(fl, dl)] in
  Forall (fun fd => Z.of_nat (fst fd) <= MAX_RETRIES self) whole ->
  serves_script self n whole ->
  Forall (fun fd => has_next (snd fd) = true) script ->
  has_next dl = false ->
  Forall2 (fun fd rs => page_items (snd fd) = Some rs) whole rss ->
  (length script < fuel)%nat ->
  search_call ENDPOINT self cf fuel 0%nat 1%nat (frame search_params [] n t) =
  Some (Return (concat rss),
        frame (search_params_at (1 + Z.of_nat (length script))) (concat rss)
          (n + script_requests whole) (t ++ script_events ENDPOINT self cf 1 whole)).
Proof.
  intros whole Hmax Hsrv Hnext Hlast Hres Hfuel. subst whole.
  apply Forall_app in Hmax as [Hmax Hfl].
  apply Forall_cons in Hfl as [Hfl _]. cbn [fst] in Hfl.
  apply serves_script_app in Hsrv as [Hsrv [Hsl _]].
  apply Forall2_app_inv_l in Hres as (rss1 & rss2 & Hres1 & Hres2 & ->).
  inversion Hres2 as [|? rsl ? rss3 Hdl Hnil]; subst. inversion Hnil; subst.
  cbn [snd] in Hdl.
  destruct fuel as [|fuel]; [lia|].
  replace (S fuel) with (length script + S (fuel - length script))%nat by lia.
  unfold search_call, bind at 1, try_except.
  change search_params with (search_params_at 1).
  rewrite (search_fetch_script script rss1); auto; [|lia].
  rewrite (search_fetch_last_after _ _ _ _ _ _ fl dl rsl); auto.
  simpl app at 1. unfold read_list. cbn [frame heap].
  rewrite script_requests_app, script_events_app. cbn [script_requests script_events].
  rewrite concat_app. cbn [concat]. rewrite !app_nil_r.
  change (([PyDict (search_params_at (1 + Z.of_nat (length script)));
            PyList (concat rss1 ++ rsl)] : list pyobj) !! 1%nat)
    with (Some (PyList (concat rss1 ++ rsl))).
  cbv iota beta. unfold frame. rewrite <- app_assoc.
  replace (S (n + script_requests script + fl))
    with (n + (script_requests script + (S fl + 0)))%nat by lia.
  reflexivity.
Qed.

End SearchScript.

(** ** The events of every search *)

Lemma retry_event_search ENDPOINT self cf rp ev :
  is_search_params rp ->
  retry_event ENDPOINT self cf rp 0 ev -> search_event ENDPOINT self cf ev.
Proof.
  intros Hp [-> | (k & Hk & ->)]; simpl.
  - repeat split; auto.
  - exists k. split; [lia|reflexivity].
Qed.

Section SearchEvents.

Variable ENDPOINT : string.
Variable self : DiscoveryApiClient.
Variable cf : json.

Lemma retrieve_search_events page acc n t :
  1 <= page ->
  exists out evs,
    _retrieve_metadata_for_content_filter ENDPOINT self cf page 0%nat
      (frame (search_params_at page) acc n t) =
      Some (out, frame (search_params_at page) acc (n + Z.to_nat (post_count evs)) (t ++ evs)) /\
    Forall (search_event ENDPOINT self cf) evs /\
    1 <= post_count evs /\
    Z.of_nat (length (sleeps evs)) < post_count evs.
Proof.
  intros Hpage.
  destruct (retrieve_bounded ENDPOINT self cf [PyDict (search_params_at page); PyList acc]
              0%nat (search_params_at page) eq_refl page n t)
    as (out & evs & Heq & Hpc & Hsl & evs' & tail & -> & Hevs & Htail).
  exists out, (evs' ++ tail). split; [exact Heq|]. repeat split; try lia.
  apply Forall_app. split.
  - eapply Forall_impl; [exact Hevs|]. intros ev. apply retry_event_search.
    exists page. auto.
  - destruct Htail as [-> | (e & -> & _)]; repeat constructor.
Qed.

Lemma search_fetch_events fuel : forall page acc n t out w',
  1 <= page ->
  search_fetch ENDPOINT self cf fuel 0%nat 1%nat page
    (frame (search_params_at page) acc n t) = Some (out, w') ->
  exists rp' acc' evs,
    w' = frame rp' acc' (n + Z.to_nat (post_count evs)) (t ++ evs) /\
    Forall (search_event ENDPOINT self cf) evs /\
    1 <= post_count evs /\
    Z.of_nat (length (sleeps evs)) < post_count evs.
Proof.
  induction fuel as [|fuel IH]; intros page acc n t out w' Hpage Hrun;
    unfold search_fetch, bind at 1 in Hrun;
    destruct (retrieve_search_events page acc n t Hpage)
      as (out1 & evs1 & Heq1 & Hev1 & Hpc1 & Hsl1);
    rewrite Heq1 in Hrun;
    (destruct out1 as [j|e];
     [| injection Hrun as <- <-; exists (search_params_at page), acc, evs1; auto]);
    (destruct j as [| | | | |d];
     try (injection Hrun as <- <-; exists (search_params_at page), acc, evs1; auto));
    unfold bind at 1 in Hrun; simpl py_get in Hrun; unfold ret in Hrun;
    unfold bind at 1, iadd in Hrun; simpl in Hrun;
    (destruct (iterate _) as [items|] eqn:Hit;
     [| injection Hrun as <- <-; exists (search_params_at page), acc, evs1; auto]).
  - discriminate.
  - unfold bind at 1 in Hrun. simpl in Hrun.
    destruct (truthy _) eqn:Hnext.
    + unfold bind at 1, update in Hrun. simpl in Hrun.
      change (dict_set (search_params_at page) "page" (JNum (page + 1))) with
        (dict_update (search_params_at page) [("page", JNum (page + 1))]) in Hrun.
      rewrite search_params_at_next in Hrun by exact Hpage.
      apply (IH (page + 1)) in Hrun as (rp' & acc' & evs & -> & Hev & Hpc & Hsl); [|lia].
      exists rp', acc', (evs1 ++ evs).
      rewrite post_count_app, sleeps_app, length_app, app_assoc.
      repeat split; try lia.
      * f_equal. lia.
      * apply Forall_app; auto.
    + injection Hrun as <- <-. exists (search_params_at page), (acc ++ items), evs1. auto.
Qed.

Lemma search_call_events fuel n t out w' :
  search_call ENDPOINT self cf fuel 0%nat 1%nat (frame search_params [] n t)
    = Some (out, w') ->
  exists rp' acc' evs,
    w' = frame rp' acc' (n + Z.to_nat (post_count evs)) (t ++ evs) /\
    Forall (search_event ENDPOINT self cf) evs /\
    1 <= post_count evs /\
    Z.of_nat (length (sleeps evs)) < post_count evs.
Proof.
  unfold search_call, bind at 1, try_except. intros Hrun.
  destruct (search_fetch ENDPOINT self cf fuel 0%nat 1%nat 1 (frame search_params [] n t))
    as [[out1 w1]|] eqn:Hfetch; [|discriminate].
  apply (search_fetch_events fuel 1 [] n t out1 w1 ltac:(lia)) in Hfetch
    as (rp' & acc' & evs & -> & Hok).
  exists rp', acc', evs.
  destruct out1 as [[]|e]; simpl in Hrun; injection Hrun as <- <-; split; auto.
Qed.

(** A body that cannot be read as a page ends the traversal with the
    exception of the read. *)
Lemma search_fetch_malformed fuel page rp acc n t r j e :
  client self n = Responds r -> status_code r < 400 -> body r = inr j ->
  malformed (JList []) j = Some e ->
  search_fetch ENDPOINT self cf fuel 0%nat 1%nat page (frame rp acc n t) =
  Some (Raise e, frame rp acc (S n) (t ++ [post_event ENDPOINT self cf rp])).
Proof.
  intros Hc Hs Hb Hm. unfold search_fetch, bind at 1. unfold frame at 1.
  rewrite (retrieve_first_ok ENDPOINT self cf [PyDict rp; PyList acc] 0%nat rp eq_refl
             page n t r Hc Hs).
  unfold response_json. rewrite Hb. simpl.
  unfold malformed, page_items_or in Hm.
  destruct j as [| | | | |d]; try (injection Hm as <-; reflexivity).
  unfold bind at 1. simpl. unfold bind at 1, iadd. simpl.
  destruct (iterate _); [discriminate|]. now injection Hm as <-.
Qed.

(** Against a server whose every page announces a next one, the
    traversal uses up any number of loop iterations. *)
Lemma search_fetch_endless fuel : forall page rp acc n t,
  (forall i, exists d rs, serves_page self (n + i) d /\ has_next d = true /\
                          page_items d = Some rs) ->
  search_fetch ENDPOINT self cf fuel 0%nat 1%nat page (frame rp acc n t) = None.
Proof.
  induction fuel as [|fuel IH]; intros page rp acc n t Hall;
    destruct (Hall 0%nat) as (d & rs & Hs & Hn & Hd); rewrite Nat.add_0_r in Hs;
    rewrite (search_fetch_page ENDPOINT self cf _ page rp acc n t d rs Hs Hd).
  - reflexivity.
  - rewrite search_pages_next by exact Hn.
    unfold bind at 1. rewrite update_frame. apply IH.
    intros i. replace (S n + i)%nat with (n + S i)%nat by lia. apply Hall.
Qed.

End SearchEvents.

(** ** More on the list endpoints *)

Lemma sleeps_gets {A} (g : A -> event) l :
  (forall x, exists endpoint p timeout, g x = EvGet endpoint p timeout) ->
  sleeps (map g l) = [] /\ post_count (map g l) = 0 /\ get_count (map g l) = length l.
Proof.
  intros Hg. induction l as [|x l (IH1 & IH2 & IH3)]; [auto|].
  simpl. destruct (Hg x) as (endpoint & p & timeout & ->). simpl. auto.
Qed.

Section ListMore.

Variable ENDPOINT : string.
Variable OFFSET_SIZE : Z.
Variable self : DiscoveryApiClient.

Lemma courses_fetch_malformed default fuel offset rp acc n t r j e :
  client self n = Responds r -> body r = inr j ->
  malformed default j = Some e ->
  courses_fetch ENDPOINT OFFSET_SIZE self default fuel 0%nat 1%nat offset (frame rp acc n t) =
  Some (Raise e, frame rp acc (S n) (t ++ [get_event ENDPOINT self rp])).
Proof.
  intros Hc Hb Hm. unfold courses_fetch, bind at 1.
  rewrite retrieve_courses_frame, Hc. unfold response_json. rewrite Hb.
  unfold malformed, page_items_or in Hm.
  destruct j as [| | | | |d]; try (injection Hm as <-; reflexivity).
  unfold bind at 1. simpl py_get. unfold ret. unfold bind at 1, iadd. simpl.
  destruct (iterate _); [discriminate|]. now injection Hm as <-.
Qed.

Lemma courses_call_malformed ds items r j e fuel rp n t :
  serves_bodies self n ds ->
  Forall (fun d => has_next d = true) ds ->
  pages_items JNull ds = Some items ->
  client self (n + length ds) = Responds r -> body r = inr j ->
  malformed (default_after ds) j = Some e ->
  (length ds <= fuel)%nat ->
  exists w',
    courses_call ENDPOINT OFFSET_SIZE self fuel 0%nat 1%nat (frame rp [] n t) =
    Some (Return items, w') /\ served w' = (n + S (length ds))%nat /\
    sleeps (trace w') = sleeps t.
Proof.
  intros Hsrv Hnext Hit Hc Hb Hm Hfuel.
  replace fuel with (length ds + (fuel - length ds))%nat by lia.
  unfold courses_call, bind at 1, try_except.
  rewrite (courses_fetch_prefix ENDPOINT OFFSET_SIZE self ds items); auto.
  rewrite (courses_fetch_malformed _ _ _ _ _ _ _ r j e Hc Hb Hm).
  assert (Hsl : forall k rp0 offset,
            sleeps (snd (courses_walk ENDPOINT OFFSET_SIZE self rp0 offset k)) = []).
  { induction k as [|k IH]; intros rp0 offset; [reflexivity|].
    cbn [courses_walk].
    specialize (IH (dict_update rp0 [("offset", JNum (offset + OFFSET_SIZE))])
                  (offset + OFFSET_SIZE)).
    destruct (courses_walk _ _ _ _ _ _) as [rp' evs]. exact IH. }
  destruct e; simpl; eexists;
    (split; [reflexivity|split; [simpl; lia|]]);
    simpl; rewrite !sleeps_app, Hsl; simpl; now rewrite !app_nil_r.
Qed.

Lemma courses_fetch_endless fuel : forall default offset rp acc n t,
  (forall i, exists d rs, serves_body self (n + i) d /\ has_next d = true /\
                          dict_get d "results" = Some (JList rs)) ->
  courses_fetch ENDPOINT OFFSET_SIZE self default fuel 0%nat 1%nat offset (frame rp acc n t)
  = None.
Proof.
  induction fuel as [|fuel IH]; intros default offset rp acc n t Hall;
    destruct (Hall 0%nat) as (d & rs & Hs & Hn & Hd); rewrite Nat.add_0_r in Hs;
    (rewrite (courses_fetch_page ENDPOINT OFFSET_SIZE self default _ offset rp acc n t d rs Hs);
     [|unfold page_items_or; now rewrite Hd]).
  - reflexivity.
  - rewrite courses_pages_next by exact Hn.
    unfold bind at 1. rewrite update_frame. apply IH.
    intros i. replace (S n + i)%nat with (n + S i)%nat by lia. apply Hall.
Qed.

End ListMore.

(** ** Whole calls of the search *)

Lemma dict_get_search_params_page page :
  dict_get (search_params_at page) "page" = if page =? 1 then None else Some (JNum page).
Proof. unfold search_params_at. destruct (page =? 1); reflexivity. Qed.

Lemma Forall2_results_or_missing ds rss :
  Forall2 (fun d rs => dict_get d "results" = Some (JList rs) \/
                       (dict_get d "results" = None /\ rs = [])) ds rss ->
  Forall2 (fun d rs => page_items d = Some rs) ds rss.
Proof.
  intros H. eapply Forall2_impl; [exact H|].
  intros d rs [Hd | [Hd ->]]; unfold page_items, page_items_or; now rewrite Hd.
Qed.

Section SearchCalls.

Variable ENDPOINT : string.
Variable self : DiscoveryApiClient.
Variable cf : json.

(** A complete traversal, every page answered at its first attempt. *)
Lemma search_call_pages ds dl rss fuel n t :
  serves_pages self n (ds ++ [dl]) ->
  Forall (fun d => has_next d = true) ds ->
  has_next dl = false ->
  Forall2 (fun d rs => page_items d = Some rs) (ds ++ [dl]) rss ->
  (length ds < fuel)%nat ->
  exists w',
    search_call ENDPOINT self cf fuel 0%nat 1%nat (frame search_params [] n t) =
    Some (Return (concat rss), w') /\ served w' = (n + S (length ds))%nat.
Proof.
  intros Hsrv Hnext Hlast Hres Hfuel.
  apply serves_pages_app in Hsrv as [Hsrv [Hsl _]].
  apply Forall2_app_inv_l in Hres as (rss1 & rss2 & Hres1 & Hres2 & ->).
  inversion Hres2 as [|? rsl ? rss3 Hdl Hnil]; subst. inversion Hnil; subst.
  destruct fuel as [|fuel]; [lia|].
  replace (S fuel) with (length ds + S (fuel - length ds))%nat by lia.
  unfold search_call, bind at 1, try_except.
  rewrite (search_fetch_walk ENDPOINT self cf ds rss1); auto.
  rewrite (search_fetch_last ENDPOINT self cf _ _ _ _ _ _ dl rsl); auto.
  rewrite concat_app. cbn [concat]. rewrite app_nil_r.
  eexists. split; [reflexivity|]. simpl. lia.
Qed.

(** Pages fetched normally, then a body that cannot be read as a page. *)
Lemma search_call_malformed ds rss r j e fuel n t :
  serves_pages self n ds ->
  Forall (fun d => has_next d = true) ds ->
  Forall2 (fun d rs => page_items d = Some rs) ds rss ->
  client self (n + length ds) = Responds r -> status_code r < 400 -> body r = inr j ->
  malformed (JList []) j = Some e ->
  (length ds <= fuel)%nat ->
  exists rp evs,
    search_call ENDPOINT self cf fuel 0%nat 1%nat (frame search_params [] n t) =
    Some (Raise e, frame rp (concat rss) (n + S (length ds)) (t ++ evs)) /\
    sleeps evs = [] /\ post_count evs = Z.of_nat (length ds) + 1.
Proof.
  intros Hsrv Hnext Hres Hc Hs Hb Hm Hfuel.
  replace fuel with (length ds + (fuel - length ds))%nat by lia.
  unfold search_call, bind at 1, try_except.
  rewrite (search_fetch_walk ENDPOINT self cf ds rss); auto.
  rewrite (search_fetch_malformed ENDPOINT self cf _ _ _ _ _ _ r j e Hc Hs Hb Hm).
  unfold raise.
  exists (fst (search_walk ENDPOINT self cf search_params 1 (length ds))),
    (snd (search_walk ENDPOINT self cf search_params 1 (length ds)) ++
     [post_event ENDPOINT self cf
        (fst (search_walk ENDPOINT self cf search_params 1 (length ds)))]).
  rewrite sleeps_app, post_count_app, sleeps_search_walk, post_count_search_walk.
  rewrite <- app_assoc. cbn [app].
  replace (S (n + length ds)) with (n + S (length ds))%nat by lia.
  repeat split; simpl; lia.
Qed.

(** A failed first attempt whose back-off [time.sleep] refuses. *)
Lemma search_call_unslept fuel n t e :
  sleep_error (_calculate_backoff self 1) = Some e -> 1 <= MAX_RETRIES self ->
  attempt_fails (client self n) = true ->
  search_call ENDPOINT self cf fuel 0%nat 1%nat (frame search_params [] n t) =
  Some (Raise e,
        frame search_params [] (S n) (t ++ [post_event ENDPOINT self cf search_params])).
Proof.
  intros HB HM Hfail.
  unfold search_call, bind at 1, try_except, search_fetch, bind at 1.
  unfold _retrieve_metadata_for_content_filter, bind at 1. unfold frame at 1.
  rewrite (retry_loop_step ENDPOINT self cf [PyDict search_params; PyList []] 0%nat
             search_params eq_refl). cbv zeta.
  change (_calculate_backoff self (0 + 1)) with (_calculate_backoff self 1). rewrite HB.
  replace (0 + 1 <=? MAX_RETRIES self) with true by (symmetry; apply Z.leb_le; lia).
  destruct (client self n) as [r|e']; simpl in Hfail.
  - replace (status_code r <? 400) with false
      by (symmetry; apply Z.ltb_ge; now apply Z.leb_le).
    reflexivity.
  - rewrite Hfail. reflexivity.
Qed.

End SearchCalls.

Lemma backoff_first self : _calculate_backoff self 1 = BACKOFF_FACTOR self.
Proof. unfold _calculate_backoff. change (2 ^ (1 - 1)) with 1. lia. Qed.

Lemma sleep_error_negative s : - SLEEP_MAX <= s < 0 -> sleep_error s = Some ValueError.
Proof.
  intros Hs. unfold sleep_error.
  destruct (Z.ltb_spec s (- SLEEP_MAX)); [lia|].
  destruct (Z.ltb_spec SLEEP_MAX s); [unfold SLEEP_MAX in *; lia|].
  destruct (Z.ltb_spec s 0); [reflexivity|lia].
Qed.

Lemma sleep_error_overflow s :
  s < - SLEEP_MAX \/ SLEEP_MAX < s -> sleep_error s = Some OverflowError.
Proof.
  intros Hs. unfold sleep_error.
  destruct (Z.ltb_spec s (- SLEEP_MAX)); [reflexivity|].
  destruct (Z.ltb_spec SLEEP_MAX s); [reflexivity|lia].
Qed.

Lemma retrieve_unslept ENDPOINT self cf h rq rp page n t e :
  h !! rq = Some (PyDict rp) ->
  sleep_error (_calculate_backoff self 1) = Some e -> 1 <= MAX_RETRIES self ->
  attempt_fails (client self n) = true ->
  _retrieve_metadata_for_content_filter ENDPOINT self cf page rq (mkWorld h n t) =
  Some (Raise e, mkWorld h (S n) (t ++ [post_event ENDPOINT self cf rp])).
Proof.
  intros Hrq HB HM Hfail.
  unfold _retrieve_metadata_for_content_filter, bind at 1.
  rewrite (retry_loop_step ENDPOINT self cf h rq rp Hrq). cbv zeta.
  change (_calculate_backoff self (0 + 1)) with (_calculate_backoff self 1). rewrite HB.
  replace (0 + 1 <=? MAX_RETRIES self) with true by (symmetry; apply Z.leb_le; lia).
  destruct (client self n) as [r|e']; simpl in Hfail.
  - replace (status_code r <? 400) with false
      by (symmetry; apply Z.ltb_ge; now apply Z.leb_le).
    reflexivity.
  - rewrite Hfail. reflexivity.
Qed.

(** ** Building a [CatalogQueryMetadata] *)

Lemma init_run ENDPOINT fuel new_client cq w :
  __init__ ENDPOINT fuel new_client cq w =
  match get_metadata_by_query ENDPOINT fuel new_client cq w with
  | Some (Return l, w') => Some (Return (mkCatalogQueryMetadata cq l), w')
  | Some (Raise e, w') => Some (Raise e, w')
  | None => None
  end.
Proof.
  unfold __init__, _get_catalog_query_metadata, bind, ret.
  destruct (get_metadata_by_query ENDPOINT fuel new_client cq w) as [[[l|e] w']|]; reflexivity.
Qed.

(** A response with a status below 400 whose body does not parse. *)
Lemma search_fetch_garbled ENDPOINT self cf fuel page rp acc n t r e :
  client self n = Responds r -> status_code r < 400 -> body r = inl e ->
  search_fetch ENDPOINT self cf fuel 0%nat 1%nat page (frame rp acc n t) =
  Some (Raise e,
        frame rp acc (S n) (t ++ [post_event ENDPOINT self cf rp; EvDecodeError e])).
Proof.
  intros Hc Hs Hb. unfold search_fetch, bind at 1. unfold frame at 1.
  rewrite (retrieve_first_ok ENDPOINT self cf [PyDict rp; PyList acc] 0%nat rp eq_refl
             page n t r Hc Hs).
  unfold response_json. rewrite Hb. cbn [heap served trace].
  now rewrite <- app_assoc.
Qed.

Lemma search_call_first_page_fails ENDPOINT self cf fuel n t e :
  0 <= MAX_RETRIES self -> backoffs_sleep self (MAX_RETRIES self) ->
  (forall i, (i <= Z.to_nat (MAX_RETRIES self))%nat ->
             attempt_fails (client self (n + i)) = true) ->
  client self (n + Z.to_nat (MAX_RETRIES self)) = Fails e ->
  search_call ENDPOINT self cf fuel 0%nat 1%nat (frame search_params [] n t) =
  Some (Raise e,
        frame search_params [] (S (n + Z.to_nat (MAX_RETRIES self)))
          (t ++ retry_events ENDPOINT self cf search_params 0 (Z.to_nat (MAX_RETRIES self)))).
Proof.
  intros HM HB Hfail Hlast.
  unfold search_call, bind at 1, try_except, search_fetch, bind at 1.
  rewrite (search_retrieve_all_fail ENDPOINT self cf 1 search_params [] n t HM HB Hfail).
  cbv zeta. rewrite Hlast. reflexivity.
Qed.

(** The events of a list call are its GET requests and at most a failed
    decode. *)
Lemma list_events_counts {A} (g : A -> event) l tail :
  (forall x, exists endpoint p timeout, g x = EvGet endpoint p timeout) ->
  tail = [] \/ (exists e, tail = [EvDecodeError e]) ->
  sleeps (map g l ++ tail) = [] /\
  post_count (map g l ++ tail) = 0 /\
  get_count (map g l ++ tail) = length l.
Proof.
  intros Hg Htail. destruct (sleeps_gets g l Hg) as (H1 & H2 & H3).
  rewrite sleeps_app, post_count_app, get_count_app, H1, H2, H3.
  destruct Htail as [-> | [e ->]]; simpl; repeat split; lia.
Qed.

(** * The tests of the repository, replayed on the embedding *)

Example test_get_metadata_by_query_with_results :
  let run := get_metadata_by_query search_endpoint 1 mock_results a_query test_world in
  result run = Some (Return [fakeX]) /\ requests_made run = Some 1%nat.
Proof. split; reflexivity. Qed.

Example test_get_metadata_by_query_with_retry_and_error :
  let run := get_metadata_by_query search_endpoint 1 mock_400 a_query test_world in
  result run = Some (Return []) /\ requests_made run = Some 5%nat.
Proof. split; reflexivity. Qed.

Example test_get_metadata_by_query_with_retry_and_exception :
  let run := get_metadata_by_query search_endpoint 1 mock_chunked a_query test_world in
  result run = Some (Raise (RequestException "ChunkedEncodingError")).
Proof. reflexivity. Qed.

Example test_get_metadata_by_query_with_error :
  let run := get_metadata_by_query search_endpoint 1 mock_decode_error a_query test_world in
  result run = Some (Raise JSONDecodeError) /\ requests_made run = Some 1%nat.
Proof. split; reflexivity. Qed.

Example test_get_courses_with_results :
  let run := get_courses courses_endpoint 100 1 mock_results (Some 0%nat) test_world in
  result run = Some (Return [fakeX]) /\ requests_made run = Some 1%nat.
Proof. split; reflexivity. Qed.

Example test_get_courses_with_error :
  let run := get_courses courses_endpoint 100 1 mock_decode_error (Some 0%nat) test_world in
  result run = Some (Return []) /\ requests_made run = Some 1%nat.
Proof. split; reflexivity. Qed.

(** * The properties of the fetch operations *)

(** C1. When the server answers with a sequence of pages in which every
    page but the last has a truthy ['next'], each fetch operation returns
    the concatenation of the pages' ['results'], in page order and then in
    the order within the page, after one request per page. With a single
    page ([ds = []]) this is that page's ['results']. *)
Theorem pages_concatenated :
  forall SEARCH COURSES PROGRAMS OFFSET_SIZE self cq query_params extra
         (w : world) (ds : list pydict) (dl : pydict) (rss : list (list json)) fuel,
    Forall (fun d => has_next d = true) ds ->
    has_next dl = false ->
    Forall2 (fun d rs => dict_get d "results" = Some (JList rs)) (ds ++ [dl]) rss ->
    (length ds < fuel)%nat ->
    (serves_pages self (served w) (ds ++ [dl]) ->
     exists w',
       get_metadata_by_query SEARCH fuel self cq w = Some (Return (concat rss), w') /\
       served w' = (served w + S (length ds))%nat) /\
    (serves_bodies self (served w) (ds ++ [dl]) ->
     caller_dict (heap w) query_params = Some extra ->
     (exists w',
        get_courses COURSES OFFSET_SIZE fuel self query_params w
          = Some (Return (concat rss), w') /\
        served w' = (served w + S (length ds))%nat) /\
     (exists w',
        get_programs PROGRAMS OFFSET_SIZE fuel self query_params w
          = Some (Return (concat rss), w') /\
        served w' = (served w + S (length ds))%nat)).
Proof.
  intros SEARCH COURSES PROGRAMS SIZE self cq qp extra w ds dl rss fuel
         Hnext Hlast Hres Hfuel.
  apply Forall2_app_inv_l in Hres as (rss1 & rss2 & Hres1 & Hres2 & ->).
  inversion Hres2 as [|? rl ? ? Hrl Hnil]; subst. inversion Hnil; subst.
  rewrite concat_app. simpl concat. rewrite app_nil_r.
  destruct fuel as [|f]; [lia|].
  replace (S f) with (length ds + S (f - length ds))%nat by lia.
  split.
  - intros Hsrv. apply serves_pages_app in Hsrv as [Hsrv [Hsl _]].
    rewrite get_metadata_by_query_run. unfold search_call, bind at 1, try_except.
    rewrite (search_fetch_walk SEARCH self _ ds rss1); auto using Forall2_results_items.
    rewrite (search_fetch_last SEARCH self _ _ _ _ _ _ _ dl rl);
      auto using page_items_results.
    simpl. eexists; split; [reflexivity|]. simpl. lia.
  - intros Hsrv Hq. apply serves_bodies_app in Hsrv as [Hsrv [Hsl _]].
    assert (Hrun : forall E rp0,
      courses_call E SIZE self (length ds + S (f - length ds)) 0%nat 1%nat
        (frame rp0 [] (served w) (trace w)) =
      Some (Return (concat rss1 ++ rl),
            frame (fst (courses_walk E SIZE self rp0 0 (length ds))) (concat rss1 ++ rl)
              (S (served w + length ds))
              ((trace w ++ snd (courses_walk E SIZE self rp0 0 (length ds)))
                 ++ [get_event E self (fst (courses_walk E SIZE self rp0 0 (length ds)))]))).
    { intros E rp0. unfold courses_call, bind at 1, try_except.
      rewrite (courses_fetch_prefix E SIZE self ds (concat rss1));
        auto using pages_items_results.
      rewrite (courses_fetch_last E SIZE self _ _ _ _ _ _ _ dl rl); auto.
      unfold page_items_or. now rewrite Hrl. }
    split.
    + rewrite (get_courses_run _ _ _ _ _ extra) by exact Hq. rewrite Hrun.
      simpl. eexists; split; [reflexivity|]. simpl. lia.
    + rewrite (get_programs_run _ _ _ _ _ extra) by exact Hq. rewrite Hrun.
      simpl. eexists; split; [reflexivity|]. simpl. lia.
Qed.

Lemma pages_concatenated_witness :
  (exists w',
     get_metadata_by_query search_endpoint 2 two_pages a_query caller_world
       = Some (Return [fakeX; fakeY], w') /\ served w' = 2%nat) /\
  (exists w',
     get_courses courses_endpoint 100 2 two_pages (Some 0%nat) caller_world
       = Some (Return [fakeX; fakeY], w') /\ served w' = 2%nat) /\
  (exists w',
     get_programs programs_endpoint 100 2 two_pages (Some 0%nat) caller_world
       = Some (Return [fakeX; fakeY], w') /\ served w' = 2%nat).
Proof.
  destruct (pages_concatenated search_endpoint courses_endpoint programs_endpoint 100
              two_pages a_query (Some 0%nat) [("limit", JNum 50)] caller_world
              [body1] body2 [[fakeX]; [fakeY]] 2%nat)
    as [Hsearch Hlist].
  - repeat constructor.
  - reflexivity.
  - repeat constructor.
  - simpl. lia.
  - split; [apply Hsearch | apply Hlist]; try reflexivity;
      simpl; repeat split; eexists; repeat split; reflexivity.
Defined.

(** C2. In the retry loop of the search path, on a page whose every
    attempt fails (a transport exception or a status code of 400 or more),
    exactly [MAX_RETRIES + 1] requests are made, [MAX_RETRIES] sleeps
    happen, one after each failed attempt but the last, and the sleep
    before retry [k] lasts [BACKOFF_FACTOR * 2 ^ (k - 1)] seconds. The
    settings are a count and lengths that [time.sleep] takes: neither is
    negative and the longest back-off, that of attempt [MAX_RETRIES], is
    at most [SLEEP_SAFE] seconds. *)
Theorem retry_backoff_schedule :
  forall ENDPOINT self cf page rq rp (w : world),
    0 <= MAX_RETRIES self ->
    0 <= BACKOFF_FACTOR self ->
    _calculate_backoff self (MAX_RETRIES self) <= SLEEP_SAFE ->
    heap w !! rq = Some (PyDict rp) ->
    (forall i, (i <= Z.to_nat (MAX_RETRIES self))%nat ->
               attempt_fails (client self (served w + i)) = true) ->
    exists out evs tail,
      _retrieve_metadata_for_content_filter ENDPOINT self cf page rq w =
        Some (out, mkWorld (heap w) (S (served w + Z.to_nat (MAX_RETRIES self)))
                     (trace w ++ evs)) /\
      evs = retry_events ENDPOINT self cf rp 0 (Z.to_nat (MAX_RETRIES self)) ++ tail /\
      (tail = [] \/ exists e, tail = [EvDecodeError e]) /\
      post_count evs = MAX_RETRIES self + 1 /\
      length (sleeps evs) = Z.to_nat (MAX_RETRIES self) /\
      forall k, 1 <= k <= MAX_RETRIES self ->
        sleeps evs !! Z.to_nat (k - 1) = Some (BACKOFF_FACTOR self * 2 ^ (k - 1)).
Proof.
  intros E self cf page rq rp [h n t] HM HB HS Hrq Hfail; simpl in *.
  pose proof (retrieve_all_fail E self cf h rq rp Hrq page n t HM (conj HB HS) Hfail) as Hrun.
  cbv zeta in Hrun.
  set (m := Z.to_nat (MAX_RETRIES self)) in *.
  assert (Hobs : forall tail, sleeps tail = [] -> post_count tail = 0 ->
    post_count (retry_events E self cf rp 0 m ++ tail) = MAX_RETRIES self + 1 /\
    length (sleeps (retry_events E self cf rp 0 m ++ tail)) = m /\
    forall k, 1 <= k <= MAX_RETRIES self ->
      sleeps (retry_events E self cf rp 0 m ++ tail) !! Z.to_nat (k - 1) =
      Some (BACKOFF_FACTOR self * 2 ^ (k - 1))).
  { intros tail Hs Hp.
    rewrite post_count_app, sleeps_app, Hs, Hp, app_nil_r.
    rewrite post_count_retry_events, sleeps_retry_events.
    split; [subst m; lia|]. split; [now rewrite length_map, length_seq|].
    intros k Hk. rewrite list_lookup_fmap.
    rewrite lookup_seq_lt by (subst m; lia). simpl.
    unfold _calculate_backoff. do 3 f_equal. lia. }
  assert (Hfin : forall out tail,
    _retrieve_metadata_for_content_filter E self cf page rq (mkWorld h n t) =
      Some (out, mkWorld h (S (n + m)) (t ++ retry_events E self cf rp 0 m ++ tail)) ->
    sleeps tail = [] -> post_count tail = 0 ->
    tail = [] \/ (exists e, tail = [EvDecodeError e]) ->
    exists out evs tail,
      _retrieve_metadata_for_content_filter E self cf page rq (mkWorld h n t) =
        Some (out, mkWorld h (S (n + m)) (t ++ evs)) /\
      evs = retry_events E self cf rp 0 m ++ tail /\
      (tail = [] \/ exists e, tail = [EvDecodeError e]) /\
      post_count evs = MAX_RETRIES self + 1 /\
      length (sleeps evs) = m /\
      forall k, 1 <= k <= MAX_RETRIES self ->
        sleeps evs !! Z.to_nat (k - 1) = Some (BACKOFF_FACTOR self * 2 ^ (k - 1))).
  { intros out tail Heq Hs Hp Htail.
    exists out, (retry_events E self cf rp 0 m ++ tail), tail.
    split; [exact Heq|]. split; [reflexivity|]. split; [exact Htail|].
    apply Hobs; assumption. }
  destruct (client self (n + m)) as [r|e].
  - unfold response_json in Hrun. destruct (body r) as [e|j]; simpl in Hrun.
    + apply (Hfin (Raise e) [EvDecodeError e]); eauto.
      now rewrite Hrun, <- app_assoc.
    + apply (Hfin (Return j) []); auto. now rewrite Hrun, app_nil_r.
  - apply (Hfin (Raise e) []); auto. now rewrite Hrun, app_nil_r.
Qed.

Lemma retry_backoff_schedule_witness :
  exists out evs tail,
    _retrieve_metadata_for_content_filter search_endpoint always_400 JNull 1 0%nat
      (mkWorld [PyDict search_params] 0 []) =
      Some (out, mkWorld [PyDict search_params] 5 ([] ++ evs)) /\
    evs = retry_events search_endpoint always_400 JNull search_params 0 4 ++ tail /\
    (tail = [] \/ exists e, tail = [EvDecodeError e]) /\
    post_count evs = 5 /\
    length (sleeps evs) = 4%nat /\
    forall k, 1 <= k <= 4 -> sleeps evs !! Z.to_nat (k - 1) = Some (2 * 2 ^ (k - 1)).
Proof.
  apply (retry_backoff_schedule search_endpoint always_400 JNull 1 0%nat search_params
           (mkWorld [PyDict search_params] 0 [])).
  - simpl. lia.
  - simpl. lia.
  - vm_compute. discriminate.
  - reflexivity.
  - intros i Hi. reflexivity.
Defined.

(** C3. When, after any number of pages fetched (each answered with a
    status below 400, at once or after failed attempts that were retried),
    the POST of a page raises a transport exception on each of its
    [MAX_RETRIES + 1] attempts, [get_metadata_by_query] raises the
    exception of the last attempt (the same one when all attempts raise
    the same) after exactly [MAX_RETRIES + 1] requests for that page; the
    outcome is the exception alone: the results accumulated so far stay in
    the list of the call, which the caller never gets. The settings are
    not negative and the longest back-off is at most [SLEEP_SAFE]
    seconds. *)
Theorem transport_failure_propagates :
  forall SEARCH self cq (w : world) (script : list (nat * pydict))
         (rss : list (list json)) (err : nat -> exn) fuel,
    0 <= MAX_RETRIES self ->
    0 <= BACKOFF_FACTOR self ->
    _calculate_backoff self (MAX_RETRIES self) <= SLEEP_SAFE ->
    Forall (fun fd => Z.of_nat (fst fd) <= MAX_RETRIES self) script ->
    serves_script self (served w) script ->
    Forall (fun fd => has_next (snd fd) = true) script ->
    Forall2 (fun fd rs => page_items (snd fd) = Some rs) script rss ->
    (forall i, (i <= Z.to_nat (MAX_RETRIES self))%nat ->
       client self (served w + script_requests script + i) = Fails (err i) /\
       is_RequestException (err i) = true) ->
    (length script <= fuel)%nat ->
    exists w' evs,
      get_metadata_by_query SEARCH fuel self cq w
        = Some (Raise (err (Z.to_nat (MAX_RETRIES self))), w') /\
      trace w' = trace w ++ evs /\
      post_count evs = Z.of_nat (script_requests script) + (MAX_RETRIES self + 1) /\
      served w' =
        (served w + script_requests script + S (Z.to_nat (MAX_RETRIES self)))%nat /\
      exists rp, heap w' = heap w ++ [PyDict rp; PyList (concat rss)].
Proof.
  intros SEARCH self cq w script rss err fuel HM HB HS Hmax Hsrv Hnext Hres Herr Hfuel.
  replace fuel with (length script + (fuel - length script))%nat by lia.
  rewrite get_metadata_by_query_run. unfold search_call, bind at 1, try_except.
  change search_params with (search_params_at 1).
  rewrite (search_fetch_script SEARCH self _ (conj HB HS) script rss); auto; [|lia].
  unfold search_fetch at 1, bind at 1.
  rewrite (search_retrieve_all_fail SEARCH self _ _ _ _ _ _ HM (conj HB HS)).
  - destruct (Herr (Z.to_nat (MAX_RETRIES self)) ltac:(lia)) as [-> _].
    simpl. eexists. eexists. split; [reflexivity|]. simpl.
    split; [now rewrite <- app_assoc|].
    split; [|split; [lia|eauto]].
    rewrite post_count_app, post_count_script_events, post_count_retry_events. lia.
  - intros i Hi. destruct (Herr i Hi) as [-> Hre]. exact Hre.
Qed.

Lemma transport_failure_propagates_witness :
  exists w' evs,
    get_metadata_by_query search_endpoint 1 flaky_then_down a_query caller_world
      = Some (Raise (RequestException "ChunkedEncodingError"), w') /\
    trace w' = [] ++ evs /\
    post_count evs = 2 + (4 + 1) /\
    served w' = 7%nat /\
    exists rp, heap w' = heap caller_world ++ [PyDict rp; PyList [fakeX]].
Proof.
  apply (transport_failure_propagates search_endpoint flaky_then_down a_query caller_world
           [(1%nat, body1)] [[fakeX]] (fun _ => RequestException "ChunkedEncodingError")
           1%nat).
  - simpl. lia.
  - simpl. lia.
  - vm_compute. discriminate.
  - repeat constructor; simpl; lia.
  - split; [split|exact I].
    + intros [|i] Hi; [reflexivity|lia].
    + eexists. split; [reflexivity|]. split; [simpl; lia|reflexivity].
  - repeat constructor.
  - repeat constructor.
  - intros i Hi. split; reflexivity.
  - simpl. lia.
Defined.



(** C5 (as the code has it). When every attempt for a page of the
    search returns a response with a status code of 400 or more, and none
    raises, [_retrieve_metadata_for_content_filter] makes exactly
    [MAX_RETRIES + 1] requests and then reads the body of the last
    response. When that body parses, it is returned as it is;
    [get_metadata_by_query] then takes the ['results'] of that body (none
    when the body is [{}]) and, the body announcing no next page, returns
    what it has accumulated. When that body does not parse, the decode
    error is raised, by [_retrieve_metadata_for_content_filter] and by
    [get_metadata_by_query], after the [MAX_RETRIES + 1] requests. The
    settings are not negative and the longest back-off is at most
    [SLEEP_SAFE] seconds. *)
Theorem bad_status_falls_through :
  (forall ENDPOINT self cf page rq rp (w : world) r j,
     0 <= MAX_RETRIES self ->
     0 <= BACKOFF_FACTOR self ->
     _calculate_backoff self (MAX_RETRIES self) <= SLEEP_SAFE ->
     heap w !! rq = Some (PyDict rp) ->
     (forall i, (i <= Z.to_nat (MAX_RETRIES self))%nat ->
        exists r', client self (served w + i) = Responds r' /\ 400 <= status_code r') ->
     client self (served w + Z.to_nat (MAX_RETRIES self)) = Responds r ->
     body r = inr j ->
     exists evs,
       _retrieve_metadata_for_content_filter ENDPOINT self cf page rq w =
         Some (Return j, mkWorld (heap w) (S (served w + Z.to_nat (MAX_RETRIES self)))
                           (trace w ++ evs)) /\
       post_count evs = MAX_RETRIES self + 1) /\
  (forall SEARCH self cq (w : world) (ds : list pydict) (rss : list (list json))
          r d rs fuel,
     0 <= MAX_RETRIES self ->
     0 <= BACKOFF_FACTOR self ->
     _calculate_backoff self (MAX_RETRIES self) <= SLEEP_SAFE ->
     serves_pages self (served w) ds ->
     Forall (fun d => has_next d = true) ds ->
     Forall2 (fun d rs => page_items d = Some rs) ds rss ->
     (forall i, (i <= Z.to_nat (MAX_RETRIES self))%nat ->
        exists r', client self (served w + length ds + i) = Responds r' /\
                   400 <= status_code r') ->
     client self (served w + length ds + Z.to_nat (MAX_RETRIES self)) = Responds r ->
     body r = inr (JDict d) ->
     has_next d = false ->
     page_items d = Some rs ->
     (length ds < fuel)%nat ->
     exists w' evs,
       get_metadata_by_query SEARCH fuel self cq w = Some (Return (concat rss ++ rs), w') /\
       trace w' = trace w ++ evs /\
       post_count evs = Z.of_nat (length ds) + (MAX_RETRIES self + 1)) /\
  (forall ENDPOINT self cf page rq rp (w : world) r e,
     0 <= MAX_RETRIES self ->
     0 <= BACKOFF_FACTOR self ->
     _calculate_backoff self (MAX_RETRIES self) <= SLEEP_SAFE ->
     heap w !! rq = Some (PyDict rp) ->
     (forall i, (i <= Z.to_nat (MAX_RETRIES self))%nat ->
        exists r', client self (served w + i) = Responds r' /\ 400 <= status_code r') ->
     client self (served w + Z.to_nat (MAX_RETRIES self)) = Responds r ->
     body r = inl e ->
     exists evs,
       _retrieve_metadata_for_content_filter ENDPOINT self cf page rq w =
         Some (Raise e, mkWorld (heap w) (S (served w + Z.to_nat (MAX_RETRIES self)))
                          (trace w ++ evs)) /\
       post_count evs = MAX_RETRIES self + 1) /\
  (forall SEARCH self cq (w : world) (ds : list pydict) (rss : list (list json))
          r e fuel,
     0 <= MAX_RETRIES self ->
     0 <= BACKOFF_FACTOR self ->
     _calculate_backoff self (MAX_RETRIES self) <= SLEEP_SAFE ->
     serves_pages self (served w) ds ->
     Forall (fun d => has_next d = true) ds ->
     Forall2 (fun d rs => page_items d = Some rs) ds rss ->
     (forall i, (i <= Z.to_nat (MAX_RETRIES self))%nat ->
        exists r', client self (served w + length ds + i) = Responds r' /\
                   400 <= status_code r') ->
     client self (served w + length ds + Z.to_nat (MAX_RETRIES self)) = Responds r ->
     body r = inl e ->
     (length ds <= fuel)%nat ->
     exists w' evs,
       get_metadata_by_query SEARCH fuel self cq w = Some (Raise e, w') /\
       trace w' = trace w ++ evs /\
       post_count evs = Z.of_nat (length ds) + (MAX_RETRIES self + 1)).
Proof.
  assert (Hfails : forall self n,
    (forall i, (i <= Z.to_nat (MAX_RETRIES self))%nat ->
       exists r', client self (n + i) = Responds r' /\ 400 <= status_code r') ->
    forall i, (i <= Z.to_nat (MAX_RETRIES self))%nat ->
      attempt_fails (client self (n + i)) = true).
  { intros self n Hbad i Hi. destruct (Hbad i Hi) as (r' & -> & Hst).
    simpl. now apply Z.leb_le. }
  split; [|split; [|split]].
  - intros E self cf page rq rp [h n t] r j HM HB HS Hrq Hbad Hlast Hbody; simpl in *.
    pose proof (retrieve_all_fail E self cf h rq rp Hrq page n t HM (conj HB HS)
                  (Hfails self n Hbad)) as Hrun.
    cbv zeta in Hrun. rewrite Hlast in Hrun. unfold response_json in Hrun.
    rewrite Hbody in Hrun. eexists. split; [exact Hrun|].
    rewrite post_count_retry_events. lia.
  - intros SEARCH self cq w ds rss r d rs fuel HM HB HS Hsrv Hnext Hres Hbad Hlast Hbody
           Hnx Hrs Hfuel.
    destruct fuel as [|f]; [lia|].
    replace (S f) with (length ds + S (f - length ds))%nat by lia.
    rewrite get_metadata_by_query_run. unfold search_call, bind at 1, try_except.
    rewrite (search_fetch_walk SEARCH self _ ds rss); auto.
    unfold search_fetch at 1, bind at 1.
    rewrite (search_retrieve_all_fail SEARCH self _ _ _ _ _ _ HM (conj HB HS)
               (Hfails self _ Hbad)).
    rewrite Hlast. unfold response_json. rewrite Hbody.
    remember (S (f - length ds)) as f' eqn:Hf'.
    unfold bind at 1. simpl py_get. unfold ret.
    unfold bind at 1, iadd. simpl.
    unfold page_items, page_items_or in Hrs. rewrite Hrs. subst f'.
    rewrite search_pages_last by exact Hnx.
    simpl. eexists. eexists. split; [reflexivity|]. simpl.
    split; [now rewrite <- app_assoc|].
    rewrite post_count_app, post_count_search_walk, post_count_retry_events. lia.
  - intros E self cf page rq rp [h n t] r e HM HB HS Hrq Hbad Hlast Hbody; simpl in *.
    pose proof (retrieve_all_fail E self cf h rq rp Hrq page n t HM (conj HB HS)
                  (Hfails self n Hbad)) as Hrun.
    cbv zeta in Hrun. rewrite Hlast in Hrun. unfold response_json in Hrun.
    rewrite Hbody in Hrun. cbn [heap served trace] in Hrun.
    rewrite <- app_assoc in Hrun.
    eexists. split; [exact Hrun|].
    rewrite post_count_app, post_count_retry_events. simpl. lia.
  - intros SEARCH self cq w ds rss r e fuel HM HB HS Hsrv Hnext Hres Hbad Hlast Hbody
           Hfuel.
    replace fuel with (length ds + (fuel - length ds))%nat by lia.
    rewrite get_metadata_by_query_run. unfold search_call, bind at 1, try_except.
    rewrite (search_fetch_walk SEARCH self _ ds rss); auto.
    unfold search_fetch at 1, bind at 1.
    rewrite (search_retrieve_all_fail SEARCH self _ _ _ _ _ _ HM (conj HB HS)
               (Hfails self _ Hbad)).
    rewrite Hlast. unfold response_json. rewrite Hbody.
    simpl. eexists. eexists. split; [reflexivity|]. simpl.
    split; [now rewrite <- !app_assoc|].
    rewrite !post_count_app, post_count_search_walk, post_count_retry_events.
    simpl. lia.
Qed.

Lemma bad_status_falls_through_witness :
  (exists evs,
     _retrieve_metadata_for_content_filter search_endpoint always_400 JNull 1 0%nat
       (mkWorld [PyDict search_params] 0 []) =
       Some (Return (JDict []), mkWorld [PyDict search_params] 5 ([] ++ evs)) /\
     post_count evs = 4 + 1) /\
  (exists w' evs,
     get_metadata_by_query search_endpoint 1 always_400 a_query caller_world
       = Some (Return ([] ++ []), w') /\
     trace w' = [] ++ evs /\
     post_count evs = 0 + (4 + 1)) /\
  (exists w' evs,
     get_metadata_by_query search_endpoint 1 error_html a_query caller_world
       = Some (Raise JSONDecodeError, w') /\
     trace w' = [] ++ evs /\
     post_count evs = 0 + (4 + 1)).
Proof.
  destruct bad_status_falls_through as (Hretrieve & Hquery & _ & Hraises).
  split; [|split].
  - apply (Hretrieve search_endpoint always_400 JNull 1 0%nat search_params
             (mkWorld [PyDict search_params] 0 []) (mkResponse 400 (inr (JDict []))) (JDict [])).
    + simpl. lia.
    + simpl. lia.
    + vm_compute. discriminate.
    + reflexivity.
    + intros i Hi. eexists. split; [reflexivity|]. simpl. lia.
    + reflexivity.
    + reflexivity.
  - apply (Hquery search_endpoint always_400 a_query caller_world [] []
             (mkResponse 400 (inr (JDict []))) [] [] 1%nat).
    + simpl. lia.
    + simpl. lia.
    + vm_compute. discriminate.
    + exact I.
    + constructor.
    + constructor.
    + intros i Hi. eexists. split; [reflexivity|]. simpl. lia.
    + reflexivity.
    + reflexivity.
    + reflexivity.
    + reflexivity.
    + simpl. lia.
  - apply (Hraises search_endpoint error_html a_query caller_world [] []
             (mkResponse 503 (inl JSONDecodeError)) JSONDecodeError 1%nat).
    + simpl. lia.
    + simpl. lia.
    + vm_compute. discriminate.
    + exact I.
    + constructor.
    + constructor.
    + intros i Hi. eexists. split; [reflexivity|]. simpl. lia.
    + reflexivity.
    + reflexivity.
    + simpl. lia.
Defined.

(** Every attempt is answered with status 503 and a body that is not
    JSON: after the five requests the call raises the decode error, it
    does not return a body. *)
Lemma error_body_raises :
  result (_retrieve_metadata_for_content_filter search_endpoint error_html JNull 1 0%nat
            (mkWorld [PyDict search_params] 0 [])) = Some (Raise JSONDecodeError) /\
  requests_made (_retrieve_metadata_for_content_filter search_endpoint error_html JNull 1
                   0%nat (mkWorld [PyDict search_params] 0 [])) = Some 5%nat /\
  result (get_metadata_by_query search_endpoint 1 error_html a_query caller_world)
    = Some (Raise JSONDecodeError) /\
  requests_made (get_metadata_by_query search_endpoint 1 error_html a_query caller_world)
    = Some 5%nat.
Proof. repeat split. Qed.

(** C6. In [get_metadata_by_query] a decode error is not retried. When,
    after any number of pages fetched normally, a response with a status
    below 400 has a body that does not parse, the call raises the decode
    error after this one request for the page, without a sleep. In every
    run, a body that does not parse ends the call: the failed decode is
    the last thing the call does (no sleep and no request follow it), and
    its exception is what the caller gets. And when the request itself
    raises an exception that is not a [RequestException], as a
    [JSONDecodeError] is, the call raises it after that one request,
    without any sleep. *)
Theorem decode_error_not_retried :
  (forall SEARCH fuel self cq (w : world) (ds : list pydict) (rss : list (list json)) r e,
     serves_pages self (served w) ds ->
     Forall (fun d => has_next d = true) ds ->
     Forall2 (fun d rs => page_items d = Some rs) ds rss ->
     client self (served w + length ds) = Responds r ->
     status_code r < 400 ->
     body r = inl e ->
     (length ds <= fuel)%nat ->
     exists w' evs,
       get_metadata_by_query SEARCH fuel self cq w = Some (Raise e, w') /\
       trace w' = trace w ++ evs /\
       sleeps evs = [] /\
       post_count evs = Z.of_nat (length ds) + 1 /\
       served w' = (served w + S (length ds))%nat) /\
  (forall SEARCH fuel self cq (w : world) out w' pre e post,
     get_metadata_by_query SEARCH fuel self cq w = Some (out, w') ->
     trace w' = trace w ++ pre ++ EvDecodeError e :: post ->
     post = [] /\ out = Raise e) /\
  (forall SEARCH fuel self cq (w : world) (ds : list pydict) (rss : list (list json)) e,
     serves_pages self (served w) ds ->
     Forall (fun d => has_next d = true) ds ->
     Forall2 (fun d rs => page_items d = Some rs) ds rss ->
     client self (served w + length ds) = Fails e ->
     is_RequestException e = false ->
     (length ds <= fuel)%nat ->
     exists w' evs,
       get_metadata_by_query SEARCH fuel self cq w = Some (Raise e, w') /\
       trace w' = trace w ++ evs /\
       sleeps evs = [] /\
       post_count evs = Z.of_nat (length ds) + 1 /\
       served w' = (served w + S (length ds))%nat).
Proof.
  split; [|split].
  - intros SEARCH fuel self cq w ds rss r e Hsrv Hnext Hres Hc Hs Hb Hfuel.
    replace fuel with (length ds + (fuel - length ds))%nat by lia.
    rewrite get_metadata_by_query_run. unfold search_call, bind at 1, try_except.
    rewrite (search_fetch_walk SEARCH self _ ds rss); auto.
    rewrite (search_fetch_garbled SEARCH self _ _ _ _ _ _ _ r e Hc Hs Hb).
    simpl. eexists. eexists. split; [reflexivity|]. simpl.
    split; [now rewrite <- app_assoc|].
    rewrite sleeps_app, post_count_app, sleeps_search_walk, post_count_search_walk.
    simpl. repeat split; lia.
  - intros SEARCH fuel self cq w out w' pre e post Hrun Htrace.
    apply get_metadata_by_query_runs in Hrun as (rp' & acc' & evs & _ & Hevs & Hok).
    rewrite Hevs in Htrace. apply app_inv_head in Htrace.
    exact (run_ok_decode_last _ _ _ _ _ _ Hok Htrace).
  - intros SEARCH fuel self cq w ds rss e Hsrv Hnext Hres Hc He Hfuel.
    replace fuel with (length ds + (fuel - length ds))%nat by lia.
    rewrite get_metadata_by_query_run. unfold search_call, bind at 1, try_except.
    rewrite (search_fetch_walk SEARCH self _ ds rss); auto.
    unfold search_fetch at 1, bind at 1.
    rewrite (search_retrieve_raises SEARCH self _ _ _ _ _ _ e Hc He).
    simpl. eexists. eexists. split; [reflexivity|]. simpl.
    split; [now rewrite <- app_assoc|].
    rewrite sleeps_app, post_count_app, sleeps_search_walk, post_count_search_walk.
    simpl. repeat split; lia.
Qed.

Lemma decode_error_not_retried_witness :
  (exists w' evs,
     get_metadata_by_query search_endpoint 1 always_garbled a_query caller_world
       = Some (Raise JSONDecodeError, w') /\
     trace w' = [] ++ evs /\
     sleeps evs = [] /\
     post_count evs = 0 + 1 /\
     served w' = 1%nat) /\
  ((@nil event) = [] /\
   (Raise JSONDecodeError : outcome (list json)) = Raise JSONDecodeError) /\
  (exists w' evs,
     get_metadata_by_query search_endpoint 1 mock_decode_error a_query caller_world
       = Some (Raise JSONDecodeError, w') /\
     trace w' = [] ++ evs /\
     sleeps evs = [] /\
     post_count evs = 0 + 1 /\
     served w' = 1%nat).
Proof.
  destruct decode_error_not_retried as (Hbody & Hdecode & Hraise). split; [|split].
  - apply (Hbody search_endpoint 1%nat always_garbled a_query caller_world
             [] [] (mkResponse 200 (inl JSONDecodeError)) JSONDecodeError).
    + exact I.
    + constructor.
    + constructor.
    + reflexivity.
    + simpl. lia.
    + reflexivity.
    + simpl. lia.
  - apply (Hdecode search_endpoint 1%nat always_garbled a_query caller_world
             (Raise JSONDecodeError)
             (mkWorld [PyDict [("limit", JNum 50)]; PyDict search_params; PyList []] 1
                [EvPost search_endpoint (content_filter a_query) search_params 15;
                 EvDecodeError JSONDecodeError])
             [EvPost search_endpoint (content_filter a_query) search_params 15]
             JSONDecodeError []).
    + reflexivity.
    + reflexivity.
  - apply (Hraise search_endpoint 1%nat mock_decode_error a_query caller_world
             [] [] JSONDecodeError).
    + exact I.
    + constructor.
    + constructor.
    + reflexivity.
    + reflexivity.
    + simpl. lia.
Defined.

(** C7 (as the code has it). Every search request sends
    [exclude_expired_course_run=True], [page_size=100],
    [ordering='aggregation_key,start'] and [include_learner_pathways=True]:
    its parameters are these four, with ['page'] added on the pages after
    the first; [get_metadata_by_query] takes no query parameters from its
    caller. The first request of [get_courses] sends [ordering='key'] and
    [limit=DISCOVERY_OFFSET_SIZE], that of [get_programs] these and
    [extended='True'], each overridden by the caller's parameter of the
    same name, with the caller's other parameters sent along, an
    ['offset'] among them. The requests after the first send the same,
    except ['offset']: the request of rank [i] sends the traversal's own,
    [i * DISCOVERY_OFFSET_SIZE], whatever the caller supplied. *)
Theorem request_parameters_sent :
  (forall SEARCH fuel self cq (w : world) out w' evs endpoint jb p timeout,
     get_metadata_by_query SEARCH fuel self cq w = Some (out, w') ->
     trace w' = trace w ++ evs ->
     In (EvPost endpoint jb p timeout) evs ->
     (exists page, 1 <= page /\ p = search_params_at page) /\
     dict_get p "exclude_expired_course_run" = Some (JBool true) /\
     dict_get p "page_size" = Some (JNum 100) /\
     dict_get p "ordering" = Some (JStr "aggregation_key,start") /\
     dict_get p "include_learner_pathways" = Some (JBool true)) /\
  (forall COURSES PROGRAMS OFFSET_SIZE fuel self query_params extra (w : world),
     caller_dict (heap w) query_params = Some extra ->
     NoDup (map fst extra) ->
     (forall out w' evs i endpoint p timeout,
        get_courses COURSES OFFSET_SIZE fuel self query_params w = Some (out, w') ->
        trace w' = trace w ++ evs ->
        evs !! i = Some (EvGet endpoint p timeout) ->
        (i = 0%nat ->
         forall k, dict_get p k = match dict_get extra k with
                                  | Some v => Some v
                                  | None => dict_get (courses_params OFFSET_SIZE) k
                                  end) /\
        (i <> 0%nat ->
         dict_get p "offset" = Some (JNum (Z.of_nat i * OFFSET_SIZE)) /\
         forall k, k <> "offset" ->
           dict_get p k = match dict_get extra k with
                          | Some v => Some v
                          | None => dict_get (courses_params OFFSET_SIZE) k
                          end)) /\
     (forall out w' evs i endpoint p timeout,
        get_programs PROGRAMS OFFSET_SIZE fuel self query_params w = Some (out, w') ->
        trace w' = trace w ++ evs ->
        evs !! i = Some (EvGet endpoint p timeout) ->
        (i = 0%nat ->
         forall k, dict_get p k = match dict_get extra k with
                                  | Some v => Some v
                                  | None => dict_get (programs_params OFFSET_SIZE) k
                                  end) /\
        (i <> 0%nat ->
         dict_get p "offset" = Some (JNum (Z.of_nat i * OFFSET_SIZE)) /\
         forall k, k <> "offset" ->
           dict_get p k = match dict_get extra k with
                          | Some v => Some v
                          | None => dict_get (programs_params OFFSET_SIZE) k
                          end))).
Proof.
  split.
  - intros SEARCH fuel self cq w out w' evs endpoint jb p timeout Hrun Htrace Hin.
    apply get_metadata_by_query_runs in Hrun as (rp' & acc' & evs' & _ & Hevs & Hok).
    rewrite Hevs in Htrace. apply app_inv_head in Htrace. subst evs'.
    destruct (run_ok_post _ _ _ _ _ _ _ Hok Hin) as (page & Hpage & ->).
    split; [eauto|]. unfold search_params_at. destruct (page =? 1); repeat split.
  - intros COURSES PROGRAMS SIZE fuel self qp extra w Hq Hnd.
    assert (Hlist : forall E defaults out w' evs i endpoint p timeout,
      lift (heap w) (courses_call E SIZE self fuel 0%nat 1%nat
                       (frame (dict_update defaults extra) [] (served w) (trace w)))
        = Some (out, w') ->
      trace w' = trace w ++ evs ->
      evs !! i = Some (EvGet endpoint p timeout) ->
      (i = 0%nat ->
       forall k, dict_get p k = match dict_get extra k with
                                | Some v => Some v
                                | None => dict_get defaults k
                                end) /\
      (i <> 0%nat ->
       dict_get p "offset" = Some (JNum (Z.of_nat i * SIZE)) /\
       forall k, k <> "offset" ->
         dict_get p k = match dict_get extra k with
                        | Some v => Some v
                        | None => dict_get defaults k
                        end)).
    { intros E defaults out w' evs i endpoint p timeout Hrun Htrace Hi.
      apply get_list_runs in Hrun as (n & l & tail & _ & _ & _ & Hevs & Htail).
      rewrite Hevs in Htrace. apply app_inv_head in Htrace. subst evs.
      assert (Hp : p = list_params_at SIZE (dict_update defaults extra) 0 i).
      { destruct (Nat.lt_ge_cases i (S n)) as [Hlt|Hge].
        - rewrite lookup_app_l in Hi by (now rewrite length_map, length_seq).
          rewrite list_lookup_fmap, lookup_seq_lt in Hi by exact Hlt.
          simpl in Hi. now injection Hi as _ <- _.
        - rewrite lookup_app_r in Hi by (now rewrite length_map, length_seq).
          destruct Htail as [-> | [e ->]].
          + now rewrite lookup_nil in Hi.
          + destruct (i - length _)%nat; simpl in Hi; [discriminate|].
            now rewrite lookup_nil in Hi. }
      subst p. split.
      - intros ->. intros k. simpl. now apply dict_get_update_caller.
      - intros Hne. destruct i as [|i]; [congruence|]. split.
        + unfold list_params_at. now rewrite dict_get_set_eq.
        + intros k Hk. rewrite list_params_at_other by exact Hk.
          now apply dict_get_update_caller. }
    split.
    + intros out w' evs i endpoint p timeout.
      rewrite (get_courses_run _ _ _ _ _ extra) by exact Hq. apply Hlist.
    + intros out w' evs i endpoint p timeout.
      rewrite (get_programs_run _ _ _ _ _ extra) by exact Hq. apply Hlist.
Qed.

Lemma request_parameters_sent_witness :
  (dict_get (dict_set search_params "page" (JNum 2)) "page_size" = Some (JNum 100)) /\
  (dict_get [("ordering", JStr "key"); ("limit", JNum 100); ("offset", JNum 7)] "offset" =
   match dict_get [("offset", JNum 7)] "offset" with
   | Some v => Some v
   | None => dict_get (courses_params 100) "offset"
   end) /\
  (dict_get [("ordering", JStr "key"); ("limit", JNum 100); ("offset", JNum 100)] "offset"
   = Some (JNum (Z.of_nat 1 * 100))).
Proof.
  destruct request_parameters_sent as [Hsearch Hlist]. split; [|split].
  - destruct (Hsearch search_endpoint 2%nat two_pages a_query caller_world
                (Return [fakeX; fakeY])
                (mkWorld [PyDict [("limit", JNum 50)];
                          PyDict (dict_set search_params "page" (JNum 2));
                          PyList [fakeX; fakeY]] 2
                   [EvPost search_endpoint (content_filter a_query) search_params 15;
                    EvPost search_endpoint (content_filter a_query)
                      (dict_set search_params "page" (JNum 2)) 15])
                _ search_endpoint (content_filter a_query)
                (dict_set search_params "page" (JNum 2)) 15
                eq_refl eq_refl ltac:(right; left; reflexivity))
      as (_ & _ & Hsize & _).
    exact Hsize.
  - destruct (Hlist courses_endpoint programs_endpoint 100 2%nat two_pages
                (Some 0%nat) [("offset", JNum 7)] offset_world eq_refl
                ltac:(repeat constructor; intros H; inversion H)) as [Hcourses _].
    destruct (Hcourses (Return [fakeX; fakeY])
                (mkWorld [PyDict [("offset", JNum 7)];
                          PyDict [("ordering", JStr "key"); ("limit", JNum 100);
                                  ("offset", JNum 100)];
                          PyList [fakeX; fakeY]] 2
                   [EvGet courses_endpoint
                      [("ordering", JStr "key"); ("limit", JNum 100); ("offset", JNum 7)] 15;
                    EvGet courses_endpoint
                      [("ordering", JStr "key"); ("limit", JNum 100); ("offset", JNum 100)]
                      15])
                _ 0%nat courses_endpoint
                [("ordering", JStr "key"); ("limit", JNum 100); ("offset", JNum 7)] 15
                eq_refl eq_refl eq_refl) as [Hfirst _].
    exact (Hfirst eq_refl "offset").
  - destruct (Hlist courses_endpoint programs_endpoint 100 2%nat two_pages
                (Some 0%nat) [("offset", JNum 7)] offset_world eq_refl
                ltac:(repeat constructor; intros H; inversion H)) as [Hcourses _].
    destruct (Hcourses (Return [fakeX; fakeY])
                (mkWorld [PyDict [("offset", JNum 7)];
                          PyDict [("ordering", JStr "key"); ("limit", JNum 100);
                                  ("offset", JNum 100)];
                          PyList [fakeX; fakeY]] 2
                   [EvGet courses_endpoint
                      [("ordering", JStr "key"); ("limit", JNum 100); ("offset", JNum 7)] 15;
                    EvGet courses_endpoint
                      [("ordering", JStr "key"); ("limit", JNum 100); ("offset", JNum 100)]
                      15])
                _ 1%nat courses_endpoint
                [("ordering", JStr "key"); ("limit", JNum 100); ("offset", JNum 100)] 15
                eq_refl eq_refl eq_refl) as [_ Hlater].
    destruct (Hlater ltac:(discriminate)) as [Hoffset _].
    exact Hoffset.
Defined.

(** The caller of [get_courses] asks for [offset=7]: the first request
    sends it, the second request of the traversal sends [offset=100], the
    traversal's own, and not the caller's parameter. *)
Lemma caller_offset_replaced :
  caller_dict (heap offset_world) (Some 0%nat) = Some [("offset", JNum 7)] /\
  sent_param (get_courses courses_endpoint 100 2 two_pages (Some 0%nat) offset_world)
    0 "offset" = Some (JNum 7) /\
  sent_param (get_courses courses_endpoint 100 2 two_pages (Some 0%nat) offset_world)
    1 "offset" = Some (JNum 100).
Proof. repeat split. Qed.

(** C8 (as the code has it). In every [get_courses] and [get_programs]
    traversal the offset starts at 0 and grows by [DISCOVERY_OFFSET_SIZE]
    with each further request: the request of rank [i >= 1] sends
    [offset = i * DISCOVERY_OFFSET_SIZE]. The first request sends the
    defaults merged with the caller's parameters as they are: the
    traversal adds no ['offset'] to it, so it carries one only when the
    caller supplied it. *)
Theorem offset_traversal :
  forall COURSES PROGRAMS OFFSET_SIZE fuel self query_params extra (w : world),
    caller_dict (heap w) query_params = Some extra ->
    (forall out w',
       get_courses COURSES OFFSET_SIZE fuel self query_params w = Some (out, w') ->
       exists k tail,
         trace w' =
           trace w ++
           map (fun i => EvGet COURSES
                           (list_params_at OFFSET_SIZE
                              (dict_update (courses_params OFFSET_SIZE) extra) 0 i)
                           (HTTP_TIMEOUT self)) (seq 0 (S k)) ++ tail /\
         (tail = [] \/ exists e, tail = [EvDecodeError e])) /\
    (forall out w',
       get_programs PROGRAMS OFFSET_SIZE fuel self query_params w = Some (out, w') ->
       exists k tail,
         trace w' =
           trace w ++
           map (fun i => EvGet PROGRAMS
                           (list_params_at OFFSET_SIZE
                              (dict_update (programs_params OFFSET_SIZE) extra) 0 i)
                           (HTTP_TIMEOUT self)) (seq 0 (S k)) ++ tail /\
         (tail = [] \/ exists e, tail = [EvDecodeError e])) /\
    (forall base, list_params_at OFFSET_SIZE base 0 0 = base) /\
    (forall base i,
       dict_get (list_params_at OFFSET_SIZE base 0 (S i)) "offset"
         = Some (JNum (Z.of_nat (S i) * OFFSET_SIZE))) /\
    (dict_get extra "offset" = None ->
     dict_get (dict_update (courses_params OFFSET_SIZE) extra) "offset" = None /\
     dict_get (dict_update (programs_params OFFSET_SIZE) extra) "offset" = None).
Proof.
  intros COURSES PROGRAMS SIZE fuel self qp extra w Hq.
  split; [|split; [|split; [|split]]].
  - intros out w'. rewrite (get_courses_run _ _ _ _ _ extra) by exact Hq. intros Hrun.
    apply get_list_runs in Hrun as (k & l & tail & _ & _ & _ & Hevs & Htail). eauto.
  - intros out w'. rewrite (get_programs_run _ _ _ _ _ extra) by exact Hq. intros Hrun.
    apply get_list_runs in Hrun as (k & l & tail & _ & _ & _ & Hevs & Htail). eauto.
  - reflexivity.
  - intros base i. unfold list_params_at. now rewrite dict_get_set_eq.
  - intros Hnone. rewrite !dict_get_update, (dict_get_rev_none _ _ Hnone). auto.
Qed.

Lemma offset_traversal_witness :
  (exists k tail,
     [EvGet courses_endpoint [("ordering", JStr "key"); ("limit", JNum 50)] 15;
      EvGet courses_endpoint
        [("ordering", JStr "key"); ("limit", JNum 50); ("offset", JNum 100)] 15] =
     [] ++
     map (fun i => EvGet courses_endpoint
                     (list_params_at 100
                        (dict_update (courses_params 100) [("limit", JNum 50)]) 0 i) 15)
       (seq 0 (S k)) ++ tail /\
     (tail = [] \/ exists e, tail = [EvDecodeError e])) /\
  dict_get (dict_update (courses_params 100) [("limit", JNum 50)]) "offset" = None.
Proof.
  destruct (offset_traversal courses_endpoint programs_endpoint 100 2%nat two_pages
              (Some 0%nat) [("limit", JNum 50)] caller_world eq_refl)
    as (Hcourses & _ & _ & _ & Hfirst).
  split.
  - apply (Hcourses (Return [fakeX; fakeY])
             (mkWorld [PyDict [("limit", JNum 50)];
                       PyDict [("ordering", JStr "key"); ("limit", JNum 50);
                               ("offset", JNum 100)];
                       PyList [fakeX; fakeY]] 2
                [EvGet courses_endpoint [("ordering", JStr "key"); ("limit", JNum 50)] 15;
                 EvGet courses_endpoint
                   [("ordering", JStr "key"); ("limit", JNum 50); ("offset", JNum 100)] 15])
             eq_refl).
  - apply Hfirst. reflexivity.
Defined.

(** The caller asks for [offset=7]: the first request carries it. *)
Lemma first_request_with_offset :
  caller_dict (heap offset_world) (Some 0%nat) = Some [("offset", JNum 7)] /\
  sent_param (get_programs programs_endpoint 100 1 no_results (Some 0%nat) offset_world)
    0 "offset" = Some (JNum 7).
Proof. split; reflexivity. Qed.

(** C9. Two calls with the same arguments against the same sequence of
    server outcomes give the same result: a call leaves every object that
    was in the store as it was (the caller's [query_params] among them),
    works on a parameter dict and a list of its own, allocated afresh, and
    run again in the store it left, with the server replaying its
    outcomes, it ends the same way after the same requests. *)
Theorem calls_are_independent :
  forall SEARCH COURSES PROGRAMS OFFSET_SIZE fuel self cq query_params extra (w : world),
    (forall out w',
       get_metadata_by_query SEARCH fuel self cq w = Some (out, w') ->
       (exists rp acc, heap w' = heap w ++ [PyDict rp; PyList acc]) /\
       exists w'',
         get_metadata_by_query SEARCH fuel self cq
           (mkWorld (heap w') (served w) (trace w)) = Some (out, w'') /\
         trace w'' = trace w' /\ served w'' = served w') /\
    (caller_dict (heap w) query_params = Some extra ->
     (forall out w',
        get_courses COURSES OFFSET_SIZE fuel self query_params w = Some (out, w') ->
        (exists rp acc, heap w' = heap w ++ [PyDict rp; PyList acc]) /\
        exists w'',
          get_courses COURSES OFFSET_SIZE fuel self query_params
            (mkWorld (heap w') (served w) (trace w)) = Some (out, w'') /\
          trace w'' = trace w' /\ served w'' = served w') /\
     (forall out w',
        get_programs PROGRAMS OFFSET_SIZE fuel self query_params w = Some (out, w') ->
        (exists rp acc, heap w' = heap w ++ [PyDict rp; PyList acc]) /\
        exists w'',
          get_programs PROGRAMS OFFSET_SIZE fuel self query_params
            (mkWorld (heap w') (served w) (trace w)) = Some (out, w'') /\
          trace w'' = trace w' /\ served w'' = served w')).
Proof.
  intros SEARCH COURSES PROGRAMS SIZE fuel self cq qp extra w. split.
  - intros out w' Hrun.
    destruct (get_metadata_by_query_runs _ _ _ _ _ _ _ Hrun)
      as (rp & acc & evs & Hheap & _ & _).
    split; [eauto|].
    rewrite get_metadata_by_query_run in Hrun.
    apply lift_inv in Hrun as (w1 & Hcall & ->).
    rewrite get_metadata_by_query_run. simpl. rewrite Hcall. simpl. eauto.
  - intros Hq.
    assert (Hlist : forall E defaults out w',
      lift (heap w) (courses_call E SIZE self fuel 0%nat 1%nat
                       (frame (dict_update defaults extra) [] (served w) (trace w)))
        = Some (out, w') ->
      (exists rp acc, heap w' = heap w ++ [PyDict rp; PyList acc]) /\
      caller_dict (heap w') qp = Some extra /\
      exists w'',
        lift (heap w') (courses_call E SIZE self fuel 0%nat 1%nat
                          (frame (dict_update defaults extra) [] (served w) (trace w)))
          = Some (out, w'') /\
        trace w'' = trace w' /\ served w'' = served w').
    { intros E defaults out w' Hrun.
      destruct (get_list_runs _ _ _ _ _ _ _ _ Hrun)
        as (k & l & tail & _ & Hheap & _ & _ & _).
      split; [eauto|]. split; [rewrite Hheap; now apply caller_dict_app|].
      apply lift_inv in Hrun as (w1 & Hcall & ->).
      rewrite Hcall. simpl. eauto. }
    split.
    + intros out w'. rewrite (get_courses_run _ _ _ _ _ extra) by exact Hq.
      intros Hrun. destruct (Hlist _ _ _ _ Hrun) as (Hheap & Hq' & Hagain).
      split; [exact Hheap|].
      now rewrite (get_courses_run _ _ _ _ _ extra) by exact Hq'.
    + intros out w'. rewrite (get_programs_run _ _ _ _ _ extra) by exact Hq.
      intros Hrun. destruct (Hlist _ _ _ _ Hrun) as (Hheap & Hq' & Hagain).
      split; [exact Hheap|].
      now rewrite (get_programs_run _ _ _ _ _ extra) by exact Hq'.
Qed.

Lemma calls_are_independent_witness :
  (exists w'',
     get_courses courses_endpoint 100 2 two_pages (Some 0%nat)
       (mkWorld [PyDict [("limit", JNum 50)];
                 PyDict [("ordering", JStr "key"); ("limit", JNum 50); ("offset", JNum 100)];
                 PyList [fakeX; fakeY]] 0 [])
       = Some (Return [fakeX; fakeY], w'') /\
     trace w'' =
       [EvGet courses_endpoint [("ordering", JStr "key"); ("limit", JNum 50)] 15;
        EvGet courses_endpoint
          [("ordering", JStr "key"); ("limit", JNum 50); ("offset", JNum 100)] 15] /\
     served w'' = 2%nat).
Proof.
  destruct (calls_are_independent search_endpoint courses_endpoint programs_endpoint 100
              2%nat two_pages a_query (Some 0%nat) [("limit", JNum 50)] caller_world)
    as [_ Hlist].
  destruct (Hlist eq_refl) as [Hcourses _].
  destruct (Hcourses (Return [fakeX; fakeY])
              (mkWorld [PyDict [("limit", JNum 50)];
                        PyDict [("ordering", JStr "key"); ("limit", JNum 50);
                                ("offset", JNum 100)];
                        PyList [fakeX; fakeY]] 2
                 [EvGet courses_endpoint [("ordering", JStr "key"); ("limit", JNum 50)] 15;
                  EvGet courses_endpoint
                    [("ordering", JStr "key"); ("limit", JNum 50); ("offset", JNum 100)] 15])
              eq_refl) as [_ Hagain].
  exact Hagain.
Defined.

(** C10. In [get_courses] and [get_programs] the first page is read with
    [response.get('results')] and the later ones with
    [response.get('results', [])]. When the body of the first page has no
    ['results'] the call returns [[]] after that one request. When a later
    page has none, it adds nothing and the traversal goes on as long as
    ['next'] is truthy: the call returns the results of the other pages. *)
Theorem first_page_without_default :
  forall COURSES PROGRAMS OFFSET_SIZE self query_params extra (w : world) fuel,
    caller_dict (heap w) query_params = Some extra ->
    (forall d,
       serves_body self (served w) d ->
       dict_get d "results" = None ->
       (exists w',
          get_courses COURSES OFFSET_SIZE fuel self query_params w = Some (Return [], w') /\
          served w' = S (served w)) /\
       (exists w',
          get_programs PROGRAMS OFFSET_SIZE fuel self query_params w = Some (Return [], w') /\
          served w' = S (served w))) /\
    (forall d0 rs0 (ds : list pydict) (rss : list (list json)),
       dict_get d0 "results" = Some (JList rs0) ->
       Forall2 (fun d rs => dict_get d "results" = Some (JList rs) \/
                            (dict_get d "results" = None /\ rs = [])) ds rss ->
       serves_bodies self (served w) (d0 :: ds) ->
       next_chain d0 ds ->
       (length ds < fuel)%nat ->
       (exists w',
          get_courses COURSES OFFSET_SIZE fuel self query_params w
            = Some (Return (rs0 ++ concat rss), w') /\
          served w' = (served w + S (length ds))%nat) /\
       (exists w',
          get_programs PROGRAMS OFFSET_SIZE fuel self query_params w
            = Some (Return (rs0 ++ concat rss), w') /\
          served w' = (served w + S (length ds))%nat)).
Proof.
  intros COURSES PROGRAMS SIZE self qp extra w fuel Hq. split.
  - intros d Hs Hd. split.
    + rewrite (get_courses_run _ _ _ _ _ extra) by exact Hq.
      destruct (courses_call_no_results COURSES SIZE self d fuel
                  (dict_update (courses_params SIZE) extra) (served w) (trace w) Hs Hd)
        as (w1 & -> & Hn).
      simpl. eexists. split; [reflexivity|exact Hn].
    + rewrite (get_programs_run _ _ _ _ _ extra) by exact Hq.
      destruct (courses_call_no_results PROGRAMS SIZE self d fuel
                  (dict_update (programs_params SIZE) extra) (served w) (trace w) Hs Hd)
        as (w1 & -> & Hn).
      simpl. eexists. split; [reflexivity|exact Hn].
  - intros d0 rs0 ds rss Hd0 Hrss Hsrv Hchain Hfuel.
    assert (Hit : pages_items JNull (d0 :: ds) = Some (rs0 ++ concat rss)).
    { simpl. unfold page_items_or. rewrite Hd0. simpl.
      now rewrite (pages_items_or_missing ds rss Hrss). }
    destruct (next_chain_split ds d0 Hchain) as (ds' & dl & Heq & Hlen & Hnext & Hlast).
    rewrite Heq in Hsrv, Hit.
    rewrite <- Hlen in *. split.
    + rewrite (get_courses_run _ _ _ _ _ extra) by exact Hq.
      destruct (courses_call_complete COURSES SIZE self ds' dl _ fuel
                  (dict_update (courses_params SIZE) extra) (served w) (trace w)
                  Hsrv Hnext Hlast Hit Hfuel) as (w1 & -> & Hn).
      simpl. eexists. split; [reflexivity|exact Hn].
    + rewrite (get_programs_run _ _ _ _ _ extra) by exact Hq.
      destruct (courses_call_complete PROGRAMS SIZE self ds' dl _ fuel
                  (dict_update (programs_params SIZE) extra) (served w) (trace w)
                  Hsrv Hnext Hlast Hit Hfuel) as (w1 & -> & Hn).
      simpl. eexists. split; [reflexivity|exact Hn].
Qed.

Lemma first_page_without_default_witness :
  ((exists w',
      get_courses courses_endpoint 100 3 no_results (Some 0%nat) caller_world
        = Some (Return [], w') /\ served w' = 1%nat) /\
   (exists w',
      get_programs programs_endpoint 100 3 no_results (Some 0%nat) caller_world
        = Some (Return [], w') /\ served w' = 1%nat)) /\
  ((exists w',
      get_courses courses_endpoint 100 3 gap_pages (Some 0%nat) caller_world
        = Some (Return ([fakeX] ++ concat [[]; [fakeY]]), w') /\ served w' = 3%nat) /\
   (exists w',
      get_programs programs_endpoint 100 3 gap_pages (Some 0%nat) caller_world
        = Some (Return ([fakeX] ++ concat [[]; [fakeY]]), w') /\ served w' = 3%nat)).
Proof.
  split.
  - destruct (first_page_without_default courses_endpoint programs_endpoint 100 no_results
                (Some 0%nat) [("limit", JNum 50)] caller_world 3%nat eq_refl) as [Hfirst _].
    apply (Hfirst [("count", JNum 0)]).
    + eexists. split; reflexivity.
    + reflexivity.
  - destruct (first_page_without_default courses_endpoint programs_endpoint 100 gap_pages
                (Some 0%nat) [("limit", JNum 50)] caller_world 3%nat eq_refl) as [_ Hlater].
    apply (Hlater body1 [fakeX] [[("next", JStr "?offset=200")]; body2] [[]; [fakeY]]).
    + reflexivity.
    + constructor; [right; split; reflexivity|].
      constructor; [left; reflexivity|constructor].
    + simpl. repeat split; eexists; split; reflexivity.
    + simpl. repeat split.
    + simpl. lia.
Defined.

(** * Further properties of the client *)

(** ** The retry loop of the search *)

(** X1. A page request of the search recovers from failed attempts: when
    its first [f <= MAX_RETRIES] attempts fail (a transport exception or a
    status of 400 or more) and the next one is answered with a status
    below 400, [_retrieve_metadata_for_content_filter] returns the parsed
    body of that answer after [f + 1] requests. It has slept once after
    each failed attempt, [BACKOFF_FACTOR * (2 ^ f - 1)] seconds in all,
    and the exceptions of the failed attempts are dropped. The back-off
    factor is not negative and the longest back-off slept, that of
    attempt [f], is at most [SLEEP_SAFE] seconds. *)
Theorem retry_recovers :
  forall ENDPOINT self cf page rq rp (w : world) (f : nat) r j,
    0 <= BACKOFF_FACTOR self ->
    _calculate_backoff self (Z.of_nat f) <= SLEEP_SAFE ->
    Z.of_nat f <= MAX_RETRIES self ->
    heap w !! rq = Some (PyDict rp) ->
    (forall i, (i < f)%nat -> attempt_fails (client self (served w + i)) = true) ->
    client self (served w + f) = Responds r ->
    status_code r < 400 ->
    body r = inr j ->
    exists evs,
      _retrieve_metadata_for_content_filter ENDPOINT self cf page rq w =
        Some (Return j, mkWorld (heap w) (S (served w + f)) (trace w ++ evs)) /\
      evs = retry_events ENDPOINT self cf rp 0 f /\
      post_count evs = Z.of_nat f + 1 /\
      sleeps evs = backoffs self 0 f /\
      total (sleeps evs) = BACKOFF_FACTOR self * (2 ^ Z.of_nat f - 1).
Proof.
  intros ENDPOINT self cf page rq rp [h n t] f r j HB HS Hf Hrq Hfail Hc Hs Hb.
  simpl in *.
  exists (retry_events ENDPOINT self cf rp 0 f).
  rewrite (retrieve_recovers ENDPOINT self cf h rq rp Hrq page f n t r (conj HB HS) Hf
             Hfail Hc Hs).
  unfold response_json. rewrite Hb. simpl.
  rewrite post_count_retry_events, backoffs_sleeps, total_backoffs_from_0. auto.
Qed.

Lemma retry_recovers_witness :
  exists evs,
    _retrieve_metadata_for_content_filter search_endpoint flaky JNull 1 0%nat
      (mkWorld [PyDict search_params] 0 []) =
      Some (Return (JDict body1), mkWorld [PyDict search_params] 3 ([] ++ evs)) /\
    evs = retry_events search_endpoint flaky JNull search_params 0 2 /\
    post_count evs = 2 + 1 /\
    sleeps evs = backoffs flaky 0 2 /\
    total (sleeps evs) = 2 * (2 ^ 2 - 1).
Proof.
  apply (retry_recovers search_endpoint flaky JNull 1 0%nat search_params
           (mkWorld [PyDict search_params] 0 []) 2
           (mkResponse 200 (inr (JDict body1))) (JDict body1)).
  - simpl. lia.
  - vm_compute. discriminate.
  - simpl. lia.
  - reflexivity.
  - intros [|[|i]] Hi; [reflexivity|reflexivity|lia].
  - reflexivity.
  - simpl. lia.
  - reflexivity.
Defined.

(** X2. A page request of the search always ends, whatever the server
    does and whatever the settings are: it makes at least one request and
    at most [MAX_RETRIES + 1] (one when [MAX_RETRIES] is not positive), it
    sleeps only between two requests, every attempt sends the same
    request (endpoint, body, parameters, timeout), every sleep is the
    back-off of an attempt from 1 to [MAX_RETRIES], and the store is left
    as it was. A failed decode can only come last and is then what is
    raised. *)
Theorem retry_is_bounded :
  forall ENDPOINT self cf page rq rp (w : world),
    heap w !! rq = Some (PyDict rp) ->
    exists out evs,
      _retrieve_metadata_for_content_filter ENDPOINT self cf page rq w =
        Some (out, mkWorld (heap w) (served w + Z.to_nat (post_count evs)) (trace w ++ evs)) /\
      1 <= post_count evs <= Z.max 1 (MAX_RETRIES self + 1) /\
      Z.of_nat (length (sleeps evs)) < post_count evs /\
      exists evs' tail,
        evs = evs' ++ tail /\
        Forall (retry_event ENDPOINT self cf rp 0) evs' /\
        (tail = [] \/ exists e, tail = [EvDecodeError e] /\ out = Raise e).
Proof.
  intros ENDPOINT self cf page rq rp [h n t] Hrq. simpl in *.
  exact (retrieve_bounded ENDPOINT self cf h rq rp Hrq page n t).
Qed.

Lemma retry_is_bounded_witness :
  exists out evs,
    _retrieve_metadata_for_content_filter search_endpoint always_400 JNull 1 0%nat
      (mkWorld [PyDict search_params] 0 []) =
      Some (out, mkWorld [PyDict search_params] (0 + Z.to_nat (post_count evs)) ([] ++ evs)) /\
    1 <= post_count evs <= Z.max 1 (4 + 1) /\
    Z.of_nat (length (sleeps evs)) < post_count evs /\
    exists evs' tail,
      evs = evs' ++ tail /\
      Forall (retry_event search_endpoint always_400 JNull search_params 0) evs' /\
      (tail = [] \/ exists e, tail = [EvDecodeError e] /\ out = Raise e).
Proof.
  apply (retry_is_bounded search_endpoint always_400 JNull 1 0%nat search_params
           (mkWorld [PyDict search_params] 0 [])).
  reflexivity.
Defined.



(** X4. With a back-off factor that is not negative and a longest
    back-off, that of attempt [MAX_RETRIES], of at most [SLEEP_SAFE]
    seconds, a page request of
    the search ends on the first attempt that does not fail, or on
    attempt [MAX_RETRIES + 1], and what its caller gets is the outcome of
    that attempt alone: the parsed body of its response (also when its
    status is 400 or more), the exception of its decode, or the exception
    the request raised. [response.json()] is never reached without a
    response. *)
Theorem retrieval_ends_on_last_attempt :
  forall ENDPOINT self cf page rq rp (w : world),
    0 <= BACKOFF_FACTOR self ->
    _calculate_backoff self (MAX_RETRIES self) <= SLEEP_SAFE ->
    heap w !! rq = Some (PyDict rp) ->
    exists f : nat,
      _retrieve_metadata_for_content_filter ENDPOINT self cf page rq w =
        Some (attempt_outcome (client self (served w + f)),
              mkWorld (heap w) (S (served w + f))
                (trace w ++ retry_events ENDPOINT self cf rp 0 f ++
                 decode_events (client self (served w + f)))) /\
      (forall i, (i < f)%nat -> attempt_fails (client self (served w + i)) = true) /\
      (f = 0%nat \/ Z.of_nat f <= MAX_RETRIES self) /\
      (attempt_fails (client self (served w + f)) = false \/ MAX_RETRIES self <= Z.of_nat f).
Proof.
  intros ENDPOINT self cf page rq rp [h n t] HB HS Hrq. simpl in *.
  exact (retrieve_ends ENDPOINT self cf h rq rp Hrq (conj HB HS) page n t).
Qed.

Lemma retrieval_ends_on_last_attempt_witness :
  exists f : nat,
    _retrieve_metadata_for_content_filter search_endpoint flaky JNull 1 0%nat
      (mkWorld [PyDict search_params] 0 []) =
      Some (attempt_outcome (client flaky (0 + f)),
            mkWorld [PyDict search_params] (S (0 + f))
              ([] ++ retry_events search_endpoint flaky JNull search_params 0 f ++
               decode_events (client flaky (0 + f)))) /\
    (forall i, (i < f)%nat -> attempt_fails (client flaky (0 + i)) = true) /\
    (f = 0%nat \/ Z.of_nat f <= 4) /\
    (attempt_fails (client flaky (0 + f)) = false \/ 4 <= Z.of_nat f).
Proof.
  apply (retrieval_ends_on_last_attempt search_endpoint flaky JNull 1 0%nat search_params
           (mkWorld [PyDict search_params] 0 [])).
  - simpl. lia.
  - vm_compute. discriminate.
  - reflexivity.
Defined.

(** ** The search *)

(** X5. Retries do not show in the result of a search. When every page
    is answered with a status below 400 after at most [MAX_RETRIES] failed
    attempts, and every page but the last announces a next page,
    [get_metadata_by_query] returns the results of the pages in order. It
    makes one request per attempt and sleeps after each failed one; the
    back-off schedule starts again with every page, so the whole call
    sleeps the sum of [BACKOFF_FACTOR * (2 ^ f - 1)] over the pages, [f]
    being the failed attempts of the page. The back-off factor is not
    negative and the longest back-off is at most [SLEEP_SAFE] seconds. *)
Theorem search_over_retries :
  forall SEARCH self cq (w : world) (script : list (nat * pydict)) fl dl
         (rss : list (list json)) fuel,
    0 <= BACKOFF_FACTOR self ->
    _calculate_backoff self (MAX_RETRIES self) <= SLEEP_SAFE ->
    Forall (fun fd => Z.of_nat (fst fd) <= MAX_RETRIES self) (script ++ [(fl, dl)]) ->
    serves_script self (served w) (script ++ [(fl, dl)]) ->
    Forall (fun fd => has_next (snd fd) = true) script ->
    has_next dl = false ->
    Forall2 (fun fd rs => page_items (snd fd) = Some rs) (script ++ [(fl, dl)]) rss ->
    (length script < fuel)%nat ->
    exists w' evs,
      get_metadata_by_query SEARCH fuel self cq w = Some (Return (concat rss), w') /\
      served w' = (served w + script_requests (script ++ [(fl, dl)]))%nat /\
      trace w' = trace w ++ evs /\
      post_count evs = Z.of_nat (script_requests (script ++ [(fl, dl)])) /\
      sleeps evs = script_sleeps self (script ++ [(fl, dl)]) /\
      total (sleeps evs) =
        total (map (fun fd => BACKOFF_FACTOR self * (2 ^ Z.of_nat (fst fd) - 1))
                 (script ++ [(fl, dl)])).
Proof.
  intros SEARCH self cq w script fl dl rss fuel HB0 HS Hmax Hsrv Hnext Hlast Hres Hfuel.
  pose proof (conj HB0 HS : backoffs_sleep self (MAX_RETRIES self)) as HB.
  rewrite get_metadata_by_query_run.
  rewrite (search_call_script SEARCH self (content_filter cq) HB script fl dl rss); auto.
  cbn [lift]. do 2 eexists. split; [reflexivity|]. cbn [rebase frame served trace].
  split; [reflexivity|]. split; [reflexivity|].
  rewrite post_count_script_events, sleeps_script_events, total_script_sleeps. auto.
Qed.

Lemma search_over_retries_witness :
  exists w' evs,
    get_metadata_by_query search_endpoint 2 flaky a_query caller_world
      = Some (Return [fakeX; fakeY], w') /\
    served w' = 5%nat /\
    trace w' = [] ++ evs /\
    post_count evs = 5 /\
    sleeps evs = [2; 4; 2] /\
    total (sleeps evs) = 6 + 2.
Proof.
  apply (search_over_retries search_endpoint flaky a_query caller_world
           [(2%nat, body1)] 1%nat body2 [[fakeX]; [fakeY]] 2%nat).
  - simpl. lia.
  - vm_compute. discriminate.
  - repeat constructor; simpl; lia.
  - split; [split|split; [split|exact I]].
    + intros [|[|i]] Hi; [reflexivity|reflexivity|lia].
    + eexists. split; [reflexivity|]. split; [simpl; lia|reflexivity].
    + intros [|i] Hi; [reflexivity|lia].
    + eexists. split; [reflexivity|]. split; [simpl; lia|reflexivity].
  - repeat constructor.
  - reflexivity.
  - repeat constructor.
  - simpl. lia.
Defined.

(** X6. The page numbers of a search. The first page is requested
    without a ['page'] parameter, the [k]-th page, [k >= 2], with
    [page = k], and every retry of a page sends the parameters of that
    page again: over pages served after retries the trace of the call is
    the retry schedule of page 1, then that of page 2, and so on, and
    [request_params] is left with the number of the last page. The
    back-off factor is not negative and the longest back-off is at most
    [SLEEP_SAFE] seconds. *)
Theorem search_page_numbers :
  forall SEARCH self cq (w : world) (script : list (nat * pydict)) fl dl
         (rss : list (list json)) fuel,
    0 <= BACKOFF_FACTOR self ->
    _calculate_backoff self (MAX_RETRIES self) <= SLEEP_SAFE ->
    Forall (fun fd => Z.of_nat (fst fd) <= MAX_RETRIES self) (script ++ [(fl, dl)]) ->
    serves_script self (served w) (script ++ [(fl, dl)]) ->
    Forall (fun fd => has_next (snd fd) = true) script ->
    has_next dl = false ->
    Forall2 (fun fd rs => page_items (snd fd) = Some rs) (script ++ [(fl, dl)]) rss ->
    (length script < fuel)%nat ->
    (exists out w',
       get_metadata_by_query SEARCH fuel self cq w = Some (out, w') /\
       trace w' =
         trace w ++ script_events SEARCH self (content_filter cq) 1 (script ++ [(fl, dl)]) /\
       heap w' =
         heap w ++ [PyDict (search_params_at (1 + Z.of_nat (length script)));
                    PyList (concat rss)]) /\
    dict_get (search_params_at 1) "page" = None /\
    (forall k, 2 <= k -> dict_get (search_params_at k) "page" = Some (JNum k)).
Proof.
  intros SEARCH self cq w script fl dl rss fuel HB0 HS Hmax Hsrv Hnext Hlast Hres Hfuel.
  pose proof (conj HB0 HS : backoffs_sleep self (MAX_RETRIES self)) as HB.
  split; [|split; [reflexivity|]].
  - rewrite get_metadata_by_query_run.
    rewrite (search_call_script SEARCH self (content_filter cq) HB script fl dl rss); auto.
    cbn [lift]. do 2 eexists. split; [reflexivity|]. split; reflexivity.
  - intros k Hk. rewrite dict_get_search_params_page.
    now replace (k =? 1) with false by (symmetry; apply Z.eqb_neq; lia).
Qed.

Lemma search_page_numbers_witness :
  (exists out w',
     get_metadata_by_query search_endpoint 2 flaky a_query caller_world = Some (out, w') /\
     trace w' =
       [] ++
       [EvPost search_endpoint (content_filter a_query) search_params 15; EvSleep 2;
        EvPost search_endpoint (content_filter a_query) search_params 15; EvSleep 4;
        EvPost search_endpoint (content_filter a_query) search_params 15;
        EvPost search_endpoint (content_filter a_query)
          (dict_set search_params "page" (JNum 2)) 15; EvSleep 2;
        EvPost search_endpoint (content_filter a_query)
          (dict_set search_params "page" (JNum 2)) 15] /\
     heap w' =
       heap caller_world ++ [PyDict (dict_set search_params "page" (JNum 2));
                             PyList [fakeX; fakeY]]) /\
  dict_get (search_params_at 1) "page" = None /\
  (forall k, 2 <= k -> dict_get (search_params_at k) "page" = Some (JNum k)).
Proof.
  apply (search_page_numbers search_endpoint flaky a_query caller_world
           [(2%nat, body1)] 1%nat body2 [[fakeX]; [fakeY]] 2%nat).
  - simpl. lia.
  - vm_compute. discriminate.
  - repeat constructor; simpl; lia.
  - split; [split|split; [split|exact I]].
    + intros [|[|i]] Hi; [reflexivity|reflexivity|lia].
    + eexists. split; [reflexivity|]. split; [simpl; lia|reflexivity].
    + intros [|i] Hi; [reflexivity|lia].
    + eexists. split; [reflexivity|]. split; [simpl; lia|reflexivity].
  - repeat constructor.
  - reflexivity.
  - repeat constructor.
  - simpl. lia.
Defined.

(** X7. What a search does, in every run that ends: each event of the
    call is a POST to the search endpoint with the content filter of the
    query as its JSON body, the search parameters of some page and the
    timeout of the client, or a back-off sleep of
    [BACKOFF_FACTOR * 2 ^ (k - 1)] seconds for an attempt [k] from 1 to
    [MAX_RETRIES], or a failed decode; the call never sends a GET. It
    makes at least one request, and fewer sleeps than requests. *)
Theorem search_events_well_formed :
  forall SEARCH fuel self cq (w : world) out w',
    get_metadata_by_query SEARCH fuel self cq w = Some (out, w') ->
    exists evs,
      trace w' = trace w ++ evs /\
      Forall (search_event SEARCH self (content_filter cq)) evs /\
      get_count evs = 0%nat /\
      served w' = (served w + Z.to_nat (post_count evs))%nat /\
      1 <= post_count evs /\
      Z.of_nat (length (sleeps evs)) < post_count evs.
Proof.
  intros SEARCH fuel self cq w out w'. rewrite get_metadata_by_query_run. intros Hrun.
  apply lift_inv in Hrun as (w1 & Hcall & ->).
  apply search_call_events in Hcall as (rp' & acc' & evs & -> & Hev & Hpc & Hsl).
  exists evs. cbn [rebase frame trace served]. repeat split; auto.
  clear - Hev. induction Hev as [|ev evs Hev _ IH]; [reflexivity|].
  destruct ev; simpl in *; auto. contradiction.
Qed.

Lemma search_events_well_formed_witness :
  exists evs,
    [EvPost search_endpoint (content_filter a_query) search_params 15;
     EvDecodeError JSONDecodeError] = [] ++ evs /\
    Forall (search_event search_endpoint always_garbled (content_filter a_query)) evs /\
    get_count evs = 0%nat /\
    1%nat = (0 + Z.to_nat (post_count evs))%nat /\
    1 <= post_count evs /\
    Z.of_nat (length (sleeps evs)) < post_count evs.
Proof.
  exact (search_events_well_formed search_endpoint 1%nat always_garbled a_query caller_world
           (Raise JSONDecodeError)
           (mkWorld [PyDict [("limit", JNum 50)]; PyDict search_params; PyList []] 1
              [EvPost search_endpoint (content_filter a_query) search_params 15;
               EvDecodeError JSONDecodeError])
           eq_refl).
Defined.

(** X8. A page of the search without ['results'] adds nothing and does
    not end the traversal, also when it is the first page: every page is
    read with [response.get('results', [])]. Over pages that each have a
    list under ['results'] or no ['results'] at all, the call returns the
    results of the pages that have some, after one request per page. *)
Theorem search_page_without_results :
  forall SEARCH self cq (w : world) (ds : list pydict) (dl : pydict)
         (rss : list (list json)) fuel,
    serves_pages self (served w) (ds ++ [dl]) ->
    Forall (fun d => has_next d = true) ds ->
    has_next dl = false ->
    Forall2 (fun d rs => dict_get d "results" = Some (JList rs) \/
                         (dict_get d "results" = None /\ rs = [])) (ds ++ [dl]) rss ->
    (length ds < fuel)%nat ->
    exists w',
      get_metadata_by_query SEARCH fuel self cq w = Some (Return (concat rss), w') /\
      served w' = (served w + S (length ds))%nat.
Proof.
  intros SEARCH self cq w ds dl rss fuel Hsrv Hnext Hlast Hres Hfuel.
  rewrite get_metadata_by_query_run.
  destruct (search_call_pages SEARCH self (content_filter cq) ds dl rss fuel
              (served w) (trace w) Hsrv Hnext Hlast
              (Forall2_results_or_missing _ _ Hres) Hfuel) as (w1 & -> & Hserved).
  eexists. split; [reflexivity|exact Hserved].
Qed.

Lemma search_page_without_results_witness :
  exists w',
    get_metadata_by_query search_endpoint 2 gap_first a_query caller_world
      = Some (Return [fakeY], w') /\
    served w' = 2%nat.
Proof.
  apply (search_page_without_results search_endpoint gap_first a_query caller_world
           [[("next", JStr "?page=2")]] body2 [[]; [fakeY]] 2%nat).
  - split; [|split; [|exact I]].
    + eexists. split; [reflexivity|]. split; [simpl; lia|reflexivity].
    + eexists. split; [reflexivity|]. split; [simpl; lia|reflexivity].
  - repeat constructor.
  - reflexivity.
  - constructor; [right; split; reflexivity|].
    constructor; [left; reflexivity|constructor].
  - simpl. lia.
Defined.

(** X9. A body that cannot be read as a page ends the search with an
    exception. When, after any number of pages fetched normally, a
    response with a status below 400 has a body that is not an object
    (so has no [get]: [AttributeError]) or whose ['results'] is not
    iterable ([None], a boolean, a number: [TypeError]),
    [get_metadata_by_query] raises that exception after this one request,
    without a retry or a sleep; the results of the pages before stay in
    the list of the call. *)
Theorem search_malformed_page_raises :
  forall SEARCH self cq (w : world) (ds : list pydict) (rss : list (list json))
         r j e fuel,
    serves_pages self (served w) ds ->
    Forall (fun d => has_next d = true) ds ->
    Forall2 (fun d rs => page_items d = Some rs) ds rss ->
    client self (served w + length ds) = Responds r ->
    status_code r < 400 ->
    body r = inr j ->
    malformed (JList []) j = Some e ->
    (length ds <= fuel)%nat ->
    (e = AttributeError \/ e = TypeError) /\
    exists w' evs rp,
      get_metadata_by_query SEARCH fuel self cq w = Some (Raise e, w') /\
      served w' = (served w + S (length ds))%nat /\
      trace w' = trace w ++ evs /\
      sleeps evs = [] /\
      post_count evs = Z.of_nat (length ds) + 1 /\
      heap w' = heap w ++ [PyDict rp; PyList (concat rss)].
Proof.
  intros SEARCH self cq w ds rss r j e fuel Hsrv Hnext Hres Hc Hs Hb Hm Hfuel.
  split.
  - unfold malformed in Hm. destruct j as [| | | | |d]; try (injection Hm as <-; now left).
    destruct (page_items_or _ _); [discriminate|]. injection Hm as <-. now right.
  - rewrite get_metadata_by_query_run.
    destruct (search_call_malformed SEARCH self (content_filter cq) ds rss r j e fuel
                (served w) (trace w) Hsrv Hnext Hres Hc Hs Hb Hm Hfuel)
      as (rp & evs & -> & Hsl & Hpc).
    cbn [lift]. exists (rebase (heap w) (frame rp (concat rss) (served w + S (length ds))
                                 (trace w ++ evs))), evs, rp.
    repeat split; auto.
Qed.

Lemma search_malformed_page_raises_witness :
  (AttributeError = AttributeError \/ AttributeError = TypeError) /\
  exists w' evs rp,
    get_metadata_by_query search_endpoint 1 then_a_list a_query caller_world
      = Some (Raise AttributeError, w') /\
    served w' = 2%nat /\
    trace w' = [] ++ evs /\
    sleeps evs = [] /\
    post_count evs = 1 + 1 /\
    heap w' = heap caller_world ++ [PyDict rp; PyList [fakeX]].
Proof.
  apply (search_malformed_page_raises search_endpoint then_a_list a_query caller_world
           [body1] [[fakeX]] (mkResponse 200 (inr (JList [fakeY]))) (JList [fakeY])
           AttributeError 1%nat).
  - split; [|exact I]. eexists. split; [reflexivity|]. split; [simpl; lia|reflexivity].
  - repeat constructor.
  - repeat constructor.
  - reflexivity.
  - simpl. lia.
  - reflexivity.
  - reflexivity.
  - simpl. lia.
Defined.

(** X10. A failed first attempt with a negative back-off factor in the
    settings ends the search: with [MAX_RETRIES >= 1] and a negative
    [BACKOFF_FACTOR] that [time.sleep] can convert
    ([- SLEEP_MAX <= BACKOFF_FACTOR < 0]), [time.sleep] is called with a
    negative length and its [ValueError] leaves
    [_retrieve_metadata_for_content_filter], and [get_metadata_by_query],
    after the one request, instead of a retry. *)
Theorem negative_backoff_raises :
  forall SEARCH self cq (w : world) fuel,
    - SLEEP_MAX <= BACKOFF_FACTOR self < 0 ->
    1 <= MAX_RETRIES self ->
    attempt_fails (client self (served w)) = true ->
    (forall ENDPOINT cf page rq rp,
       heap w !! rq = Some (PyDict rp) ->
       _retrieve_metadata_for_content_filter ENDPOINT self cf page rq w =
       Some (Raise ValueError,
             mkWorld (heap w) (S (served w))
               (trace w ++ [post_event ENDPOINT self cf rp]))) /\
    exists w',
      get_metadata_by_query SEARCH fuel self cq w = Some (Raise ValueError, w') /\
      served w' = S (served w) /\
      trace w' = trace w ++ [post_event SEARCH self (content_filter cq) search_params].
Proof.
  intros SEARCH self cq [h n t] fuel HB HM Hfail. simpl in *.
  assert (Hsleep : sleep_error (_calculate_backoff self 1) = Some ValueError)
    by (rewrite backoff_first; now apply sleep_error_negative).
  split.
  - intros ENDPOINT cf page rq rp Hrq.
    now apply retrieve_unslept.
  - rewrite get_metadata_by_query_run. cbn [heap served trace].
    rewrite (search_call_unslept SEARCH self (content_filter cq) fuel n t ValueError)
      by assumption.
    eexists. split; [reflexivity|]. split; reflexivity.
Qed.

Lemma negative_backoff_raises_witness :
  (forall ENDPOINT cf page rq rp,
     heap caller_world !! rq = Some (PyDict rp) ->
     _retrieve_metadata_for_content_filter ENDPOINT negative_backoff cf page rq caller_world =
     Some (Raise ValueError,
           mkWorld (heap caller_world) 1
             ([] ++ [post_event ENDPOINT negative_backoff cf rp]))) /\
  exists w',
    get_metadata_by_query search_endpoint 1 negative_backoff a_query caller_world
      = Some (Raise ValueError, w') /\
    served w' = 1%nat /\
    trace w' =
      [] ++ [post_event search_endpoint negative_backoff (content_filter a_query)
               search_params].
Proof.
  apply (negative_backoff_raises search_endpoint negative_backoff a_query caller_world 1%nat).
  - unfold SLEEP_MAX. simpl. lia.
  - simpl. lia.
  - reflexivity.
Defined.

(** X15. A back-off factor that [time.sleep] cannot convert ends the
    search at the first failed attempt: with [MAX_RETRIES >= 1] and
    [BACKOFF_FACTOR] beyond [SLEEP_MAX] seconds in magnitude, of either
    sign, the [OverflowError] of [time.sleep] leaves
    [_retrieve_metadata_for_content_filter], and [get_metadata_by_query],
    after the one request; no retry is made. *)
Theorem overflowing_backoff_raises :
  forall SEARCH self cq (w : world) fuel,
    BACKOFF_FACTOR self < - SLEEP_MAX \/ SLEEP_MAX < BACKOFF_FACTOR self ->
    1 <= MAX_RETRIES self ->
    attempt_fails (client self (served w)) = true ->
    (forall ENDPOINT cf page rq rp,
       heap w !! rq = Some (PyDict rp) ->
       _retrieve_metadata_for_content_filter ENDPOINT self cf page rq w =
       Some (Raise OverflowError,
             mkWorld (heap w) (S (served w))
               (trace w ++ [post_event ENDPOINT self cf rp]))) /\
    exists w',
      get_metadata_by_query SEARCH fuel self cq w = Some (Raise OverflowError, w') /\
      served w' = S (served w) /\
      trace w' = trace w ++ [post_event SEARCH self (content_filter cq) search_params].
Proof.
  intros SEARCH self cq [h n t] fuel HB HM Hfail. simpl in *.
  assert (Hsleep : sleep_error (_calculate_backoff self 1) = Some OverflowError)
    by (rewrite backoff_first; now apply sleep_error_overflow).
  split.
  - intros ENDPOINT cf page rq rp Hrq.
    now apply retrieve_unslept.
  - rewrite get_metadata_by_query_run. cbn [heap served trace].
    rewrite (search_call_unslept SEARCH self (content_filter cq) fuel n t OverflowError)
      by assumption.
    eexists. split; [reflexivity|]. split; reflexivity.
Qed.

Lemma overflowing_backoff_raises_witness :
  (exists w',
     get_metadata_by_query search_endpoint 1 huge_backoff a_query caller_world
       = Some (Raise OverflowError, w') /\
     served w' = 1%nat /\
     trace w' =
       [] ++ [post_event search_endpoint huge_backoff (content_filter a_query)
                search_params]) /\
  (exists w',
     get_metadata_by_query search_endpoint 1 huge_negative_backoff a_query caller_world
       = Some (Raise OverflowError, w') /\
     served w' = 1%nat /\
     trace w' =
       [] ++ [post_event search_endpoint huge_negative_backoff (content_filter a_query)
                search_params]).
Proof.
  split.
  - apply (overflowing_backoff_raises search_endpoint huge_backoff a_query caller_world
             1%nat).
    + right. vm_compute. reflexivity.
    + simpl. lia.
    + reflexivity.
  - apply (overflowing_backoff_raises search_endpoint huge_negative_backoff a_query
             caller_world 1%nat).
    + left. vm_compute. reflexivity.
    + simpl. lia.
    + reflexivity.
Defined.

(** X11. The traversals have no page limit of their own. Against a
    server whose every response announces a next page, none of the three
    fetch operations returns: however many iterations its loop is given,
    it asks for one more page. *)
Theorem endless_pages_never_return :
  forall SEARCH COURSES PROGRAMS OFFSET_SIZE self cq query_params extra (w : world),
    (forall i, exists d rs,
       serves_page self (served w + i) d /\ has_next d = true /\
       dict_get d "results" = Some (JList rs)) ->
    caller_dict (heap w) query_params = Some extra ->
    (forall fuel, get_metadata_by_query SEARCH fuel self cq w = None) /\
    (forall fuel, get_courses COURSES OFFSET_SIZE fuel self query_params w = None) /\
    (forall fuel, get_programs PROGRAMS OFFSET_SIZE fuel self query_params w = None).
Proof.
  intros SEARCH COURSES PROGRAMS OFFSET_SIZE self cq query_params extra w Hall Hq.
  assert (Hbodies : forall i, exists d rs,
            serves_body self (served w + i) d /\ has_next d = true /\
            dict_get d "results" = Some (JList rs)).
  { intros i. destruct (Hall i) as (d & rs & (r & Hc & _ & Hb) & Hn & Hd).
    exists d, rs. repeat split; auto. exists r. auto. }
  split; [|split]; intros fuel.
  - rewrite get_metadata_by_query_run. unfold search_call, bind at 1, try_except.
    rewrite search_fetch_endless; [reflexivity|].
    intros i. destruct (Hall i) as (d & rs & Hs & Hn & Hd).
    exists d, rs. repeat split; auto. now apply page_items_results.
  - rewrite (get_courses_run COURSES OFFSET_SIZE fuel self query_params extra w Hq).
    unfold courses_call, bind at 1, try_except.
    now rewrite courses_fetch_endless.
  - rewrite (get_programs_run OFFSET_SIZE PROGRAMS fuel self query_params extra w Hq).
    unfold courses_call, bind at 1, try_except.
    now rewrite courses_fetch_endless.
Qed.

Lemma endless_pages_never_return_witness :
  (forall fuel, get_metadata_by_query search_endpoint fuel endless a_query caller_world = None) /\
  (forall fuel, get_courses courses_endpoint 100 fuel endless (Some 0%nat) caller_world = None) /\
  (forall fuel, get_programs programs_endpoint 100 fuel endless (Some 0%nat) caller_world = None).
Proof.
  apply (endless_pages_never_return search_endpoint courses_endpoint programs_endpoint 100
           endless a_query (Some 0%nat) [("limit", JNum 50)] caller_world).
  - intros i. exists body1, [fakeX]. split; [|split; reflexivity].
    eexists. split; [reflexivity|]. split; [simpl; lia|reflexivity].
  - reflexivity.
Defined.

(** ** The list endpoints *)

(** X12. A body that cannot be read as a page ends a list traversal
    silently. When, after any number of pages fetched normally, a response
    has a body that is not an object, or whose ['results'] is not iterable
    (on the first page also a body without ['results'], read without a
    default), [get_courses] and [get_programs] return the items of the
    pages before after this one request: the [AttributeError] or
    [TypeError] of the read is caught like any other exception. *)
Theorem list_malformed_page_ends :
  forall COURSES PROGRAMS OFFSET_SIZE self query_params extra (w : world)
         (ds : list pydict) items r j e fuel,
    caller_dict (heap w) query_params = Some extra ->
    serves_bodies self (served w) ds ->
    Forall (fun d => has_next d = true) ds ->
    pages_items JNull ds = Some items ->
    client self (served w + length ds) = Responds r ->
    body r = inr j ->
    malformed (default_after ds) j = Some e ->
    (length ds <= fuel)%nat ->
    (exists w',
       get_courses COURSES OFFSET_SIZE fuel self query_params w = Some (Return items, w') /\
       served w' = (served w + S (length ds))%nat) /\
    (exists w',
       get_programs PROGRAMS OFFSET_SIZE fuel self query_params w = Some (Return items, w') /\
       served w' = (served w + S (length ds))%nat).
Proof.
  intros COURSES PROGRAMS OFFSET_SIZE self query_params extra w ds items r j e fuel
    Hq Hsrv Hnext Hit Hc Hb Hm Hfuel.
  split.
  - rewrite (get_courses_run COURSES OFFSET_SIZE fuel self query_params extra w Hq).
    destruct (courses_call_malformed COURSES OFFSET_SIZE self ds items r j e fuel
                (dict_update (courses_params OFFSET_SIZE) extra) (served w) (trace w)
                Hsrv Hnext Hit Hc Hb Hm Hfuel) as (w1 & -> & Hserved & _).
    eexists. split; [reflexivity|exact Hserved].
  - rewrite (get_programs_run OFFSET_SIZE PROGRAMS fuel self query_params extra w Hq).
    destruct (courses_call_malformed PROGRAMS OFFSET_SIZE self ds items r j e fuel
                (dict_update (programs_params OFFSET_SIZE) extra) (served w) (trace w)
                Hsrv Hnext Hit Hc Hb Hm Hfuel) as (w1 & -> & Hserved & _).
    eexists. split; [reflexivity|exact Hserved].
Qed.

Lemma list_malformed_page_ends_witness :
  (exists w',
     get_courses courses_endpoint 100 1 then_a_list (Some 0%nat) caller_world
       = Some (Return [fakeX], w') /\
     served w' = 2%nat) /\
  (exists w',
     get_programs programs_endpoint 100 1 then_a_list (Some 0%nat) caller_world
       = Some (Return [fakeX], w') /\
     served w' = 2%nat).
Proof.
  apply (list_malformed_page_ends courses_endpoint programs_endpoint 100 then_a_list
           (Some 0%nat) [("limit", JNum 50)] caller_world [body1] [fakeX]
           (mkResponse 200 (inr (JList [fakeY]))) (JList [fakeY]) AttributeError 1%nat).
  - reflexivity.
  - split; [|exact I]. eexists. split; reflexivity.
  - repeat constructor.
  - reflexivity.
  - reflexivity.
  - reflexivity.
  - reflexivity.
  - simpl. lia.
Defined.

(** X13. [get_courses] and [get_programs] never retry and never look at
    the status code. In every run that ends, the call has made GET
    requests only, one per page asked for and at least one, and has not
    slept; and a response with a status of 400 or more is read as a page
    like any other: its ['results'] are returned. *)
Theorem list_fetch_never_retries :
  forall COURSES PROGRAMS OFFSET_SIZE fuel self query_params extra (w : world),
    caller_dict (heap w) query_params = Some extra ->
    (forall out w',
       get_courses COURSES OFFSET_SIZE fuel self query_params w = Some (out, w') ->
       exists evs,
         trace w' = trace w ++ evs /\ sleeps evs = [] /\ post_count evs = 0 /\
         served w' = (served w + get_count evs)%nat /\ (1 <= get_count evs)%nat) /\
    (forall out w',
       get_programs PROGRAMS OFFSET_SIZE fuel self query_params w = Some (out, w') ->
       exists evs,
         trace w' = trace w ++ evs /\ sleeps evs = [] /\ post_count evs = 0 /\
         served w' = (served w + get_count evs)%nat /\ (1 <= get_count evs)%nat) /\
    (forall r d rs,
       client self (served w) = Responds r ->
       400 <= status_code r ->
       body r = inr (JDict d) ->
       dict_get d "results" = Some (JList rs) ->
       has_next d = false ->
       (0 < fuel)%nat ->
       (exists w',
          get_courses COURSES OFFSET_SIZE fuel self query_params w = Some (Return rs, w') /\
          served w' = S (served w)) /\
       (exists w',
          get_programs PROGRAMS OFFSET_SIZE fuel self query_params w = Some (Return rs, w') /\
          served w' = S (served w))).
Proof.
  intros COURSES PROGRAMS OFFSET_SIZE fuel self query_params extra w Hq.
  assert (Hruns : forall ENDPOINT rp out w',
    lift (heap w) (courses_call ENDPOINT OFFSET_SIZE self fuel 0%nat 1%nat
                     (frame rp [] (served w) (trace w))) = Some (out, w') ->
    exists evs,
      trace w' = trace w ++ evs /\ sleeps evs = [] /\ post_count evs = 0 /\
      served w' = (served w + get_count evs)%nat /\ (1 <= get_count evs)%nat).
  { intros ENDPOINT rp out w' Hrun.
    apply get_list_runs in Hrun as (k & l & tail & _ & _ & Hserved & Htrace & Htail).
    eexists. split; [exact Htrace|].
    edestruct (list_events_counts
                 (fun i => EvGet ENDPOINT (list_params_at OFFSET_SIZE rp 0 i)
                             (HTTP_TIMEOUT self)) (seq 0 (S k)) tail)
      as (H1 & H2 & H3); [intros i; eauto|exact Htail|].
    rewrite H1, H2, H3, length_seq. repeat split; auto. lia. }
  assert (Hpage : forall ENDPOINT rp r d rs,
    client self (served w) = Responds r ->
    body r = inr (JDict d) ->
    dict_get d "results" = Some (JList rs) ->
    has_next d = false ->
    (0 < fuel)%nat ->
    exists w',
      lift (heap w) (courses_call ENDPOINT OFFSET_SIZE self fuel 0%nat 1%nat
                       (frame rp [] (served w) (trace w))) = Some (Return rs, w') /\
      served w' = S (served w)).
  { intros ENDPOINT rp r d rs Hc Hb Hd Hn Hfuel.
    destruct (courses_call_complete ENDPOINT OFFSET_SIZE self [] d (rs ++ []) fuel rp
                (served w) (trace w)) as (w1 & -> & Hserved); auto.
    - split; [|exact I]. exists r. auto.
    - simpl. unfold page_items_or. now rewrite Hd.
    - rewrite app_nil_r. eexists. split; [reflexivity|].
      simpl in *. lia. }
  split; [|split].
  - intros out w'.
    rewrite (get_courses_run COURSES OFFSET_SIZE fuel self query_params extra w Hq).
    apply Hruns.
  - intros out w'.
    rewrite (get_programs_run OFFSET_SIZE PROGRAMS fuel self query_params extra w Hq).
    apply Hruns.
  - intros r d rs Hc _ Hb Hd Hn Hfuel. split.
    + rewrite (get_courses_run COURSES OFFSET_SIZE fuel self query_params extra w Hq).
      now apply (Hpage COURSES _ r d rs).
    + rewrite (get_programs_run OFFSET_SIZE PROGRAMS fuel self query_params extra w Hq).
      now apply (Hpage PROGRAMS _ r d rs).
Qed.

Lemma list_fetch_never_retries_witness :
  (exists w',
     get_courses courses_endpoint 100 1 error_page (Some 0%nat) caller_world
       = Some (Return [fakeX], w') /\
     served w' = 1%nat) /\
  (exists w',
     get_programs programs_endpoint 100 1 error_page (Some 0%nat) caller_world
       = Some (Return [fakeX], w') /\
     served w' = 1%nat).
Proof.
  destruct (list_fetch_never_retries courses_endpoint programs_endpoint 100 1%nat error_page
              (Some 0%nat) [("limit", JNum 50)] caller_world eq_refl)
    as (_ & _ & Hpage).
  apply (Hpage (mkResponse 500 (inr (JDict [("results", JList [fakeX])])))
           [("results", JList [fakeX])] [fakeX]).
  - reflexivity.
  - simpl. lia.
  - reflexivity.
  - reflexivity.
  - reflexivity.
  - lia.
Defined.

(** ** [CatalogQueryMetadata] *)

(** X14. [CatalogQueryMetadata(catalog_query)] loads the metadata of its
    query with a search of a new client. Over pages served after retries
    the object it builds keeps the query and has the results of all pages
    as its [metadata]. Every object it builds holds what the search
    returned for that query; and when the first page fails on all its
    attempts, the last one with a transport exception, that exception
    leaves the constructor and no object is built. Where retries are
    made the back-off factor is not negative and the longest back-off is
    at most [SLEEP_SAFE] seconds. *)
Theorem catalog_query_metadata_loads :
  forall SEARCH new_client cq (w : world) fuel,
    (forall (script : list (nat * pydict)) fl dl (rss : list (list json)),
       0 <= BACKOFF_FACTOR new_client ->
       _calculate_backoff new_client (MAX_RETRIES new_client) <= SLEEP_SAFE ->
       Forall (fun fd => Z.of_nat (fst fd) <= MAX_RETRIES new_client) (script ++ [(fl, dl)]) ->
       serves_script new_client (served w) (script ++ [(fl, dl)]) ->
       Forall (fun fd => has_next (snd fd) = true) script ->
       has_next dl = false ->
       Forall2 (fun fd rs => page_items (snd fd) = Some rs) (script ++ [(fl, dl)]) rss ->
       (length script < fuel)%nat ->
       exists obj w',
         __init__ SEARCH fuel new_client cq w = Some (Return obj, w') /\
         metadata obj = concat rss /\
         catalog_query obj = cq /\
         served w' = (served w + script_requests (script ++ [(fl, dl)]))%nat) /\
    (forall obj w',
       __init__ SEARCH fuel new_client cq w = Some (Return obj, w') ->
       catalog_query obj = cq /\
       get_metadata_by_query SEARCH fuel new_client cq w = Some (Return (metadata obj), w')) /\
    (forall e,
       0 <= MAX_RETRIES new_client ->
       0 <= BACKOFF_FACTOR new_client ->
       _calculate_backoff new_client (MAX_RETRIES new_client) <= SLEEP_SAFE ->
       (forall i, (i <= Z.to_nat (MAX_RETRIES new_client))%nat ->
                  attempt_fails (client new_client (served w + i)) = true) ->
       client new_client (served w + Z.to_nat (MAX_RETRIES new_client)) = Fails e ->
       exists w',
         __init__ SEARCH fuel new_client cq w = Some (Raise e, w') /\
         served w' = (served w + S (Z.to_nat (MAX_RETRIES new_client)))%nat).
Proof.
  intros SEARCH new_client cq w fuel. split; [|split].
  - intros script fl dl rss HB HS Hmax Hsrv Hnext Hlast Hres Hfuel.
    rewrite init_run, get_metadata_by_query_run.
    rewrite (search_call_script SEARCH new_client (content_filter cq) (conj HB HS)
               script fl dl rss); auto.
    cbn [lift]. do 2 eexists. split; [reflexivity|]. repeat split.
  - intros obj w'. rewrite init_run.
    destruct (get_metadata_by_query SEARCH fuel new_client cq w) as [[[l|e] w1]|];
      [|discriminate|discriminate].
    intros H. injection H as <- <-. auto.
  - intros e HM HB HS Hfail Hlast.
    rewrite init_run, get_metadata_by_query_run.
    rewrite (search_call_first_page_fails SEARCH new_client (content_filter cq) fuel
               (served w) (trace w) e HM (conj HB HS) Hfail Hlast).
    cbn [lift]. eexists. split; [reflexivity|]. simpl. lia.
Qed.

Lemma catalog_query_metadata_loads_witness :
  (exists obj w',
     __init__ search_endpoint 2 flaky a_query caller_world = Some (Return obj, w') /\
     metadata obj = [fakeX; fakeY] /\
     catalog_query obj = a_query /\
     served w' = 5%nat) /\
  (exists w',
     __init__ search_endpoint 2 always_chunked a_query caller_world
       = Some (Raise (RequestException "ChunkedEncodingError"), w') /\
     served w' = 5%nat).
Proof.
  split.
  - destruct (catalog_query_metadata_loads search_endpoint flaky a_query caller_world 2%nat)
      as (Hloads & _ & _).
    apply (Hloads [(2%nat, body1)] 1%nat body2 [[fakeX]; [fakeY]]).
    + simpl. lia.
    + vm_compute. discriminate.
    + repeat constructor; simpl; lia.
    + split; [split|split; [split|exact I]].
      * intros [|[|i]] Hi; [reflexivity|reflexivity|lia].
      * eexists. split; [reflexivity|]. split; [simpl; lia|reflexivity].
      * intros [|i] Hi; [reflexivity|lia].
      * eexists. split; [reflexivity|]. split; [simpl; lia|reflexivity].
    + repeat constructor.
    + reflexivity.
    + repeat constructor.
    + simpl. lia.
  - destruct (catalog_query_metadata_loads search_endpoint always_chunked a_query
                caller_world 2%nat) as (_ & _ & Hfails).
    apply (Hfails (RequestException "ChunkedEncodingError")).
    + simpl. lia.
    + simpl. lia.
    + vm_compute. discriminate.
    + intros i _. reflexivity.
    + reflexivity.
Defined.
